(** * CDMX_sistema_metro: the dashboard's data shaping, verified

    A shallow embedding of the front end of the ridership dashboard:
    the API client ([services/api.js]), the station selector, the time
    series chart, the forecast view and the application that holds them.
    JavaScript values are embedded as the inductive [value]; numbers are
    doubles, kept as the rationals they equal and rounded after each
    operation; strings are kept in UTF-8 and compared through their UTF-16
    code units.  The builtins the code calls ([Array.prototype.sort],
    [encodeURIComponent], [Date], [localeCompare], [fetch]) are either
    written out after ECMAScript or taken as parameters of a section. *)

From Stdlib Require Import List String Ascii ZArith QArith Qround Bool Lia Arith.
From Stdlib Require Import Permutation Sorted DecimalString.
Import ListNotations.

Local Open Scope string_scope.
Local Open Scope list_scope.

(** ** JavaScript values *)

Module JS.

Set Warnings "-register-all".

(** A JavaScript number: a finite value (kept as the rational it equals),
    NaN or an infinity. *)
Inductive number : Type :=
| Fin (q : Q)
| NaN
| PosInf
| NegInf.

(** The values that flow through the dashboard: what [JSON.parse] produces,
    plus [undefined].  An object is its list of own properties, the first
    binding of a key being the visible one. *)
Inductive value : Type :=
| VUndefined
| VNull
| VBool (b : bool)
| VNum (n : number)
| VStr (s : string)
| VArr (items : list value)
| VObj (props : list (string * value)).

Definition num (z : Z) : value := VNum (Fin (inject_Z z)).

(** ToBoolean: [undefined], [null], [false], [0], [NaN] and [''] are falsy. *)
Definition truthy (v : value) : bool :=
  match v with
  | VUndefined | VNull => false
  | VBool b => b
  | VNum (Fin q) => negb (Qnum q =? 0)%Z
  | VNum NaN => false
  | VNum _ => true
  | VStr s => negb (s =? "")
  | VArr _ | VObj _ => true
  end.

Fixpoint lookup (k : string) (props : list (string * value)) : value :=
  match props with
  | [] => VUndefined
  | (k', v) :: rest => if k' =? k then v else lookup k rest
  end.

(** [v.k] for a [v] that is neither [null] nor [undefined], and for a key
    [k] that is no builtin property of strings or arrays (true of every key
    the dashboard reads this way). *)
Definition get (v : value) (k : string) : value :=
  match v with
  | VObj props => lookup k props
  | _ => VUndefined
  end.

(** [v?.k] *)
Definition opt_get (v : value) (k : string) : value := get v k.

(** [o.k = x] on an own property list: an existing key keeps its place. *)
Fixpoint set_prop (k : string) (x : value) (props : list (string * value))
  : list (string * value) :=
  match props with
  | [] => [(k, x)]
  | (k', v) :: rest =>
      if k' =? k then (k, x) :: rest else (k', v) :: set_prop k x rest
  end.

Definition index_key (i : nat) : string :=
  NilZero.string_of_uint (Nat.to_uint i).

(** [v?.[i]]: [undefined] when [v] is [null] or [undefined], and whenever
    [i] is not an own index of [v]. *)
Definition opt_index (v : value) (i : nat) : value :=
  match v with
  | VArr items => nth i items VUndefined
  | VStr s =>
      match String.get i s with
      | Some c => VStr (String c EmptyString)
      | None => VUndefined
      end
  | VObj props => lookup (index_key i) props
  | _ => VUndefined
  end.

Definition isArray (v : value) : bool :=
  match v with VArr _ => true | _ => false end.

Definition is_undefined (v : value) : bool :=
  match v with VUndefined => true | _ => false end.

Definition is_null (v : value) : bool :=
  match v with VNull => true | _ => false end.

(** [v === 'lit'] against a string literal. *)
Definition str_eq (v : value) (lit : string) : bool :=
  match v with VStr s => s =? lit | _ => false end.

Fixpoint indexed_from {A : Type} (i : nat) (l : list A) : list (string * A) :=
  match l with
  | [] => []
  | x :: rest => (index_key i, x) :: indexed_from (S i) rest
  end.

Fixpoint chars (s : string) : list value :=
  match s with
  | EmptyString => []
  | String c rest => VStr (String c EmptyString) :: chars rest
  end.

(** [{ ...v }]: the own enumerable properties of [v]. *)
Definition spread (v : value) : list (string * value) :=
  match v with
  | VObj props => props
  | VArr items => indexed_from 0 items
  | VStr s => indexed_from 0 (chars s)
  | _ => []
  end.

(** *** Array.prototype.sort

    ECMAScript asks for a stable sort; the comparator's result goes through
    [SortCompare], which turns NaN into [+0].  For a comparator that is
    consistent on the array the standard fixes the result, and the stable
    insertion sort below computes it: an element is placed in front of the
    first element of the already sorted rest that it does not compare
    greater than.  For a comparator that contradicts itself the standard
    leaves the order to the engine, and the insertion sort stands for no
    engine in particular.  The theorems that describe the order of a result
    are stated where the comparator is consistent; the one exception is an
    array in which every element compares equal to its neighbours, which a
    sort has no reason to touch and this one returns as it is. *)
Section Sort.
Context {A : Type}.
(** the comparator's number: [None] is NaN *)
Variable comparefn : A -> A -> option Z.

Definition SortCompare (x y : A) : Z :=
  match comparefn x y with
  | Some v => v
  | None => 0%Z
  end.

Fixpoint sort_insert (x : A) (sorted : list A) : list A :=
  match sorted with
  | [] => [x]
  | y :: rest =>
      if (SortCompare x y <=? 0)%Z then x :: y :: rest
      else y :: sort_insert x rest
  end.

Fixpoint sort (l : list A) : list A :=
  match l with
  | [] => []
  | x :: rest => sort_insert x (sort rest)
  end.
End Sort.

(** [forEach((x, i) => ...)] collecting what each call pushes. *)
Fixpoint forEach_from {A B : Type} (f : A -> nat -> list B) (i : nat)
  (l : list A) : list B :=
  match l with
  | [] => []
  | x :: rest => f x i ++ forEach_from f (S i) rest
  end.

End JS.

Import JS.

(** ** services/api.js: the API client *)

Module Api.

Definition API_BASE_URL : string := "http://localhost:8000/api".

(** *** encodeURIComponent

    A string is well-formed text held as its UTF-8 bytes, so the builtin is
    byte-wise: the unreserved characters [A-Z a-z 0-9 - _ . ! ~ * ' ( )]
    stand for themselves, every other byte becomes [%XX]. *)
Definition between (lo hi n : nat) : bool := (lo <=? n)%nat && (n <=? hi)%nat.

Definition unreserved (c : ascii) : bool :=
  let n := nat_of_ascii c in
  between 65 90 n || between 97 122 n || between 48 57 n
  || existsb (Nat.eqb n) [45; 95; 46; 33; 126; 42; 39; 40; 41]%nat.

Definition hex_digit (n : nat) : ascii :=
  if (n <? 10)%nat then ascii_of_nat (48 + n) else ascii_of_nat (55 + n).

Definition percent_escape (c : ascii) : string :=
  let n := nat_of_ascii c in
  String "%" (String (hex_digit (n / 16)) (String (hex_digit (n mod 16)) "")).

Fixpoint encodeURIComponent (s : string) : string :=
  match s with
  | EmptyString => EmptyString
  | String c rest =>
      (if unreserved c then String c "" else percent_escape c)
      ++ encodeURIComponent rest
  end.

(** *** Responses and the network *)

(** What the client reads of a [Response]; [json] is [None] when the body
    does not parse as JSON. *)
Record Response : Type := {
  ok : bool;
  status : nat;
  statusText : string;
  json : option value
}.

(** A [fetch] either rejects (with the message of its error) or resolves. *)
Inductive fetched : Type :=
| Rejected (message : string)
| Resolved (response : Response).

(** A call of the client runs against the log of the requests issued so
    far, and either returns or throws an [Error], kept as its message. *)
Definition M (A : Type) : Type := list string -> (string + A) * list string.

Definition ret {A : Type} (a : A) : M A := fun log => (inr a, log).

Definition throw {A : Type} (message : string) : M A :=
  fun log => (inl message, log).

Definition bind {A B : Type} (m : M A) (k : A -> M B) : M B :=
  fun log =>
    match m log with
    | (inr a, log') => k a log'
    | (inl message, log') => (inl message, log')
    end.

Definition try_catch {A : Type} (body : M A) (handler : string -> M A) : M A :=
  fun log =>
    match body log with
    | (inl message, log') => handler message log'
    | done => done
    end.

Declare Scope api_scope.
Delimit Scope api_scope with api.
Notation "x <- m ;; k" := (bind m (fun x => k))
  (at level 61, m at next level, right associativity) : api_scope.

Section Host.
(** the server's answer to a GET of a URL *)
Variable network : string -> fetched.
(** the host's ToString on the values that are no strings *)
Variable ToString_host : value -> string.
(** the message of the TypeError for reading a property of [null] *)
Variable TypeError_message : string -> string.

Definition ToString (v : value) : string :=
  match v with
  | VStr s => s
  | _ => ToString_host v
  end.

Definition fetch (url : string) : M Response :=
  fun log =>
    (match network url with
     | Rejected message => inl message
     | Resolved response => inr response
     end, log ++ [url]).

(** [v.k] where [v] may be [null]. *)
Definition read (v : value) (k : string) : M value :=
  match v with
  | VNull | VUndefined => throw (TypeError_message k)
  | _ => ret (get v k)
  end.

Definition status_line (response : Response) : string :=
  "Error " ++ index_key (status response) ++ ": " ++ statusText response.

Definition handleResponse (response : Response) : M value :=
  if negb (ok response) then
    (errorMessage <-
       try_catch
         (match json response with
          | Some errorData =>
              (detail <- read errorData "detail" ;;
               ret (if truthy detail then ToString detail
                    else status_line response))
          | None => throw "Unexpected token"
          end)
         (fun _ => ret (status_line response)) ;;
     throw errorMessage)%api
  else
    match json response with
    | Some data => ret data
    | None => throw "La respuesta del servidor tiene un formato inválido"
    end.

Definition getStations : M value :=
  try_catch
    (response <- fetch (API_BASE_URL ++ "/stations") ;;
     data <- handleResponse response ;;
     if negb (isArray data) then
       throw "El servidor devolvió un formato de datos inesperado"
     else ret data)%api
    (fun message =>
       throw ("No se pudieron obtener las estaciones: " ++ message)).

Definition getTimeSeries (linea estacion : value) : M value :=
  if negb (truthy linea) || negb (truthy estacion) then
    throw "Se requiere especificar línea y estación"
  else
    try_catch
      (let url := (API_BASE_URL ++ "/timeseries/"
                   ++ encodeURIComponent (ToString linea) ++ "/"
                   ++ encodeURIComponent (ToString estacion))%string in
       response <- fetch url ;;
       data <- handleResponse response ;;
       points <- read data "data" ;;
       if negb (truthy points) || negb (isArray points) then
         throw "El formato de los datos recibidos es inválido"
       else ret data)%api
      (fun message =>
         throw ("No se pudo obtener la serie temporal: " ++ message)).

Definition getForecast (linea estacion : value) : M value :=
  if negb (truthy linea) || negb (truthy estacion) then
    throw "Se requiere especificar línea y estación"
  else
    try_catch
      (let url := (API_BASE_URL ++ "/forecast/"
                   ++ encodeURIComponent (ToString linea) ++ "/"
                   ++ encodeURIComponent (ToString estacion))%string in
       response <- fetch url ;;
       data <- handleResponse response ;;
       forecast <- read data "forecast" ;;
       if negb (truthy forecast) then
         throw "El formato del pronóstico recibido es inválido"
       else ret forecast)%api
      (fun message =>
         throw ("No se pudo obtener el pronóstico: " ++ message)).
End Host.

End Api.

(** ** components/ForecastView.jsx: sanitizing and merging a forecast *)

Module ForecastView.

(** [sanitizeArray]: a non-array becomes [[]], every [null] entry becomes
    [undefined]. *)
Definition sanitizeArray (arr : value) : value :=
  match arr with
  | VArr items =>
      VArr (map (fun val => if is_null val then VUndefined else val) items)
  | _ => VArr []
  end.

Definition sanitize_train (train : value) : value :=
  VObj [ ("dates", sanitizeArray (get train "dates"));
         ("actual", sanitizeArray (get train "actual"));
         ("fitted", sanitizeArray (get train "fitted"));
         ("lower", sanitizeArray (get train "lower"));
         ("upper", sanitizeArray (get train "upper")) ].

Definition sanitize_test (test : value) : value :=
  VObj [ ("dates", sanitizeArray (get test "dates"));
         ("actual", sanitizeArray (get test "actual"));
         ("predicted", sanitizeArray (get test "predicted"));
         ("lower", sanitizeArray (get test "lower"));
         ("upper", sanitizeArray (get test "upper")) ].

Definition sanitize_forecast (forecast : value) : value :=
  VObj [ ("dates", sanitizeArray (get forecast "dates"));
         ("predicted", sanitizeArray (get forecast "predicted"));
         ("lower", sanitizeArray (get forecast "lower"));
         ("upper", sanitizeArray (get forecast "upper")) ].

(** [if (result.k) result.k = f(result.k)] *)
Definition sanitize_field (k : string) (f : value -> value)
  (result : list (string * value)) : list (string * value) :=
  if truthy (lookup k result) then set_prop k (f (lookup k result)) result
  else result.

Definition sanitizeForecastData (data : value) : value :=
  if negb (truthy data) then VNull
  else
    let result := spread data in
    let result := sanitize_field "train" sanitize_train result in
    let result := sanitize_field "test" sanitize_test result in
    let result := sanitize_field "forecast" sanitize_forecast result in
    VObj result.

(** The three row literals of [prepareChartData]. *)
Definition train_row (train date : value) (i : nat) : value :=
  VObj [ ("fecha", date);
         ("actual", opt_index (get train "actual") i);
         ("fitted", opt_index (get train "fitted") i);
         ("lower", opt_index (get train "lower") i);
         ("upper", opt_index (get train "upper") i);
         ("type", VStr "train") ].

Definition test_row (test date : value) (i : nat) : value :=
  VObj [ ("fecha", date);
         ("actual", opt_index (get test "actual") i);
         ("validation_predicted", opt_index (get test "predicted") i);
         ("predicted", VUndefined);
         ("lower", opt_index (get test "lower") i);
         ("upper", opt_index (get test "upper") i);
         ("type", VStr "test") ].

Definition future_row (forecast date : value) (i : nat) : value :=
  VObj [ ("fecha", date);
         ("validation_predicted", VUndefined);
         ("predicted", opt_index (get forecast "predicted") i);
         ("lower", opt_index (get forecast "lower") i);
         ("upper", opt_index (get forecast "upper") i);
         ("type", VStr "future") ].

(** [if (sub && sub.dates) sub.dates.forEach((date, i) => { if (i <
    sub.dates.length) chartData.push(row) })].  [None] is the TypeError of
    calling [forEach] on a truthy [dates] that is no array. *)
Definition zip_rows (sub : value) (row : value -> value -> nat -> value)
  : option (list value) :=
  if truthy sub && truthy (get sub "dates") then
    match get sub "dates" with
    | VArr dates =>
        Some (forEach_from
                (fun date i =>
                   if (i <? List.length dates)%nat then [row sub date i] else [])
                0 dates)
    | _ => None
    end
  else Some [].

(** The merge: the rows pushed onto [chartData], sub-series by sub-series. *)
Definition merge (forecastData : value) : option (list value) :=
  match zip_rows (get forecastData "train") train_row with
  | None => None
  | Some tr =>
      match zip_rows (get forecastData "test") test_row with
      | None => None
      | Some te =>
          match zip_rows (get forecastData "forecast") future_row with
          | None => None
          | Some fu => Some (tr ++ te ++ fu)
          end
      end
  end.

Definition of_type (t : string) (d : value) : bool := str_eq (get d "type") t.

(** The mode filter: three conditional [push(...chartData.filter(...))]. *)
Definition filterByMode (mode : string) (chartData : list value) : list value :=
  (if (mode =? "all") || (mode =? "train")
   then filter (of_type "train") chartData else [])
  ++ (if (mode =? "all") || (mode =? "test")
      then filter (of_type "test") chartData else [])
  ++ (if (mode =? "all") || (mode =? "future")
      then filter (of_type "future") chartData else []).

Section Dates.
(** The host's [Date]: the time value of [new Date(v)] in milliseconds,
    [None] for an invalid date (whose time value is NaN). *)
Variable Date_time : value -> option Z.

(** [new Date(a.fecha) - new Date(b.fecha)]; [None] is NaN.  Constructing
    a date never throws, so the [catch] branch of the comparator is dead. *)
Definition compare_fecha (a b : value) : option Z :=
  match Date_time (get a "fecha"), Date_time (get b "fecha") with
  | Some ta, Some tb => Some (ta - tb)%Z
  | _, _ => None
  end.

(** [prepareChartData], reading the component's [forecastData] and [mode].
    Any exception of the merge is caught and answered with [[]]. *)
Definition prepareChartData (forecastData : value) (mode : string)
  : list value :=
  if negb (truthy forecastData) then []
  else
    match merge forecastData with
    | Some chartData => sort compare_fecha (filterByMode mode chartData)
    | None => []
    end.
End Dates.

(** *** The component's state and its action button *)

Record State : Type := {
  forecastData : value;
  loading : bool;
  error : value;
  mode : string
}.

(** the four [useState] initial values *)
Definition initial : State :=
  {| forecastData := VNull; loading := false; error := VNull; mode := "all" |}.

Definition setForecastData (v : value) (s : State) : State :=
  {| forecastData := v; loading := loading s; error := error s; mode := mode s |}.

Definition setLoading (b : bool) (s : State) : State :=
  {| forecastData := forecastData s; loading := b; error := error s; mode := mode s |}.

Definition setError (v : value) (s : State) : State :=
  {| forecastData := forecastData s; loading := loading s; error := v; mode := mode s |}.

Definition setMode (m : string) (s : State) : State :=
  {| forecastData := forecastData s; loading := loading s; error := error s; mode := m |}.

Section Click.
Variable network : string -> Api.fetched.
Variable ToString_host : value -> string.
Variable TypeError_message : string -> string.
(** the component's props *)
Variables linea estacion : value.

(** [handleForecastClick]: the state after the handler has run to its end,
    and the log of requests. *)
Definition handleForecastClick (s : State) (log : list string)
  : State * list string :=
  if truthy (forecastData s) then (setForecastData VNull s, log)
  else
    let s := setLoading true s in
    let s := setError VNull s in
    match Api.getForecast network ToString_host TypeError_message
            linea estacion log with
    | (inr data, log') =>
        let sanitizedData := sanitizeForecastData data in
        (setLoading false (setForecastData sanitizedData s), log')
    | (inl message, log') =>
        (setLoading false (setError (VStr ("Error: " ++ message)) s), log')
    end.
End Click.

End ForecastView.

(** ** components/TimeSeriesChart.jsx: the chart and its statistics *)

Module TimeSeriesChart.

(** *** Arithmetic on numbers

    A number of the program is an IEEE 754 double.  [Fin q] is read as the
    double nearest to [q], a tie going to the even significand, which is how
    [JSON.parse] reads the number written [q]; a [q] that is a double
    stands for itself.  An operation returns its exact result rounded the
    same way.  A finite double is a multiple of 2^-1074 of magnitude below
    2^1024.  Negative zero is not told from zero. *)

Definition Qzero (q : Q) : bool := (Qnum q =? 0)%Z.

(** the integer nearest to [u / v], a tie going to the even one; [0 < v] *)
Definition round_half_even (u v : Z) : Z :=
  let f := (u / v)%Z in
  match (2 * (u mod v) ?= v)%Z with
  | Lt => f
  | Gt => (f + 1)%Z
  | Eq => if Z.even f then f else (f + 1)%Z
  end.

(** The spacing of the doubles around [a / b], as a power of 2^-1074: the
    [t] for which [a / b] lies between 2^52 and 2^53 spacings 2^(t - 1074),
    and [0] for a subnormal [a / b]; [0 < a], [0 < b]. *)
Definition binade (a b : Z) : Z :=
  let u := (a * 2 ^ 1074)%Z in
  let t0 := (Z.log2 u - Z.log2 b - 53)%Z in
  Z.max 0 (if (u / (b * 2 ^ t0) <? 2 ^ 53)%Z then t0 else t0 + 1)%Z.

(** the double nearest to [a / b]; [0 < a], [0 < b] *)
Definition to_double_pos (a b : Z) : number :=
  let t := binade a b in
  let m := round_half_even (a * 2 ^ 1074) (b * 2 ^ t) in
  if (2 ^ 2098 <=? m * 2 ^ t)%Z then PosInf
  else Fin (Qred ((m * 2 ^ t) # Z.to_pos (2 ^ 1074))).

Definition negate (n : number) : number :=
  match n with
  | Fin q => Fin (Qred (- q))
  | PosInf => NegInf
  | NegInf => PosInf
  | NaN => NaN
  end.

(** the double nearest to [q] *)
Definition to_double (q : Q) : number :=
  match Qnum q with
  | Z0 => Fin 0
  | Zpos _ => to_double_pos (Qnum q) (Zpos (Qden q))
  | Zneg _ => negate (to_double_pos (- Qnum q) (Zpos (Qden q)))
  end.

(** the double a number stands for *)
Definition as_double (n : number) : number :=
  match n with
  | Fin q => to_double q
  | other => other
  end.

(** [a + b] on numbers *)
Definition add (a b : number) : number :=
  match as_double a, as_double b with
  | NaN, _ | _, NaN => NaN
  | PosInf, NegInf | NegInf, PosInf => NaN
  | PosInf, _ | _, PosInf => PosInf
  | NegInf, _ | _, NegInf => NegInf
  | Fin x, Fin y => to_double (x + y)
  end.

(** [a / n] for an array length [n] *)
Definition div_length (a : number) (n : nat) : number :=
  match as_double a, n with
  | NaN, _ => NaN
  | PosInf, _ => PosInf
  | NegInf, _ => NegInf
  | Fin x, O => if Qzero x then NaN
                else if (0 <? Qnum x)%Z then PosInf else NegInf
  | Fin x, S _ => to_double (x / inject_Z (Z.of_nat n))
  end.

(** [a < b] on numbers; false as soon as an operand is NaN *)
Definition lt (a b : number) : bool :=
  match a, b with
  | NaN, _ | _, NaN => false
  | _, NegInf | PosInf, _ => false
  | NegInf, _ | _, PosInf => true
  | Fin x, Fin y => negb (Qle_bool y x)
  end.

Definition is_NaN (a : number) : bool :=
  match a with NaN => true | _ => false end.

(** [Math.round]: the integer nearest to the double [a], halves going up *)
Definition Math_round (a : number) : number :=
  match as_double a with
  | Fin x => Fin (inject_Z (Qfloor (x + (1 # 2))))
  | other => other
  end.

Section Host.
(** the host's ToNumber on strings, arrays and objects *)
Variable ToNumber_host : value -> number.
(** [a + b] where an operand is a string, an array or an object *)
Variable concat_host : value -> value -> value.
(** [new Intl.NumberFormat('es-MX').format] *)
Variable Intl_format : number -> string.

Definition ToNumber (v : value) : number :=
  match v with
  | VUndefined => NaN
  | VNull => Fin 0
  | VBool b => Fin (if b then 1 else 0)
  | VNum n => n
  | _ => ToNumber_host v
  end.

Definition primitive_number (v : value) : bool :=
  match v with
  | VStr _ | VArr _ | VObj _ => false
  | _ => true
  end.

(** [a + b] *)
Definition plus (a b : value) : value :=
  if primitive_number a && primitive_number b
  then VNum (add (ToNumber a) (ToNumber b))
  else concat_host a b.

(** [a || b] *)
Definition or (a b : value) : value := if truthy a then a else b.

(** [Math.max(...vs)] and [Math.min(...vs)] *)
Definition Math_max (vs : list value) : number :=
  fold_left (fun m v => let n := ToNumber v in
                        if is_NaN m || is_NaN n then NaN
                        else if lt m n then n else m)
            vs NegInf.

Definition Math_min (vs : list value) : number :=
  fold_left (fun m v => let n := ToNumber v in
                        if is_NaN m || is_NaN n then NaN
                        else if lt n m then n else m)
            vs PosInf.

Definition formatNumber (num : value) : string :=
  if is_null num || is_undefined num then "N/A"
  else Intl_format (Math_round (ToNumber num)).

Definition validData (data : list value) : list value :=
  filter (fun item =>
            truthy item && truthy (get item "fecha")
            && (negb (is_undefined (get item "afluencia"))
                || negb (is_undefined (get item "mean"))))
         data.

(** the three figures handed to [formatNumber] *)
Definition promedio (data : list value) : value :=
  VNum (div_length
          (ToNumber
             (fold_left (fun sum item =>
                           plus sum (or (get item "afluencia") (get item "mean")))
                        (validData data) (num 0)))
          (List.length (validData data))).

Definition maximo (data : list value) : value :=
  VNum (Math_max
          (map (fun item => or (or (get item "max") (get item "afluencia"))
                               (get item "mean"))
               (validData data))).

Definition minimo (data : list value) : value :=
  VNum (Math_min
          (map (fun item => or (or (get item "min") (get item "afluencia"))
                               (get item "mean"))
               (validData data))).

(** [data[0]?.k] *)
Definition first_opt (data : list value) (k : string) : value :=
  opt_get (nth 0 data VUndefined) k.

Record Stats : Type := {
  promedio_mensual : string;
  maximo_mensual : string;
  minimo_mensual : string
}.

(** The statistics panel: rendered only when the first point of [data]
    has both [min] and [max]. *)
Definition statsPanel (data : list value) : option Stats :=
  if negb (is_undefined (first_opt data "min"))
     && negb (is_undefined (first_opt data "max"))
  then Some {| promedio_mensual := formatNumber (promedio data);
               maximo_mensual := formatNumber (maximo data);
               minimo_mensual := formatNumber (minimo data) |}
  else None.

Inductive View : Type :=
| Placeholder
| Chart (points : list value) (stats : option Stats).

(** The component, for an array [data]. *)
Definition TimeSeriesChart (data : list value) : View :=
  match data with
  | [] => Placeholder
  | _ => Chart (validData data) (statsPanel data)
  end.
End Host.

End TimeSeriesChart.

(** ** components/StationSelector: lines and the stations of a line *)

Module StationSelector.

Record Station : Type := { linea : string; estacion : string }.

(** [[...new Set(l)]]: the first occurrence of each string, in order. *)
Fixpoint Set_values (l : list string) : list string :=
  match l with
  | [] => []
  | x :: rest => x :: filter (fun y => negb (y =? x)) (Set_values rest)
  end.

(** *** Strings as UTF-16

    A string of the program is a sequence of UTF-16 code units; here it is
    the UTF-8 form of the same text.  [code_units] gives the code units
    back: a character of one to three bytes is one code unit, a character
    of four bytes is a surrogate pair.  A byte that starts no character
    counts for itself. *)

Definition byte (c : ascii) : N := N_of_ascii c.

Definition continuation (c : ascii) : bool :=
  ((128 <=? byte c) && (byte c <? 192))%N.

(** the code units of the character numbered [cp] *)
Definition units_of (cp : N) : list N :=
  if (cp <? 65536)%N then [cp]
  else [ (55296 + (cp - 65536) / 1024)%N; (56320 + (cp - 65536) mod 1024)%N ].

Fixpoint code_units (s : string) : list N :=
  match s with
  | EmptyString => []
  | String c1 rest1 =>
      let b1 := byte c1 in
      let alone := b1 :: code_units rest1 in
      if (b1 <? 192)%N then alone
      else
        match rest1 with
        | String c2 rest2 =>
            if negb (continuation c2) then alone
            else if (b1 <? 224)%N
            then ((b1 - 192) * 64 + (byte c2 - 128))%N :: code_units rest2
            else
              match rest2 with
              | String c3 rest3 =>
                  if negb (continuation c3) then alone
                  else if (b1 <? 240)%N
                  then ((b1 - 224) * 4096 + (byte c2 - 128) * 64
                        + (byte c3 - 128))%N :: code_units rest3
                  else
                    match rest3 with
                    | String c4 rest4 =>
                        if negb (continuation c4) || (248 <=? b1)%N then alone
                        else units_of ((b1 - 240) * 262144
                                       + (byte c2 - 128) * 4096
                                       + (byte c3 - 128) * 64
                                       + (byte c4 - 128))%N
                             ++ code_units rest4
                    | EmptyString => alone
                    end
              | EmptyString => alone
              end
        | EmptyString => alone
        end
  end.

(** the order of two sequences of code units: at the first difference, a
    proper prefix coming first *)
Fixpoint compare_units (x y : list N) : comparison :=
  match x, y with
  | [], [] => Eq
  | [], _ :: _ => Lt
  | _ :: _, [] => Gt
  | a :: x', b :: y' =>
      match (a ?= b)%N with
      | Eq => compare_units x' y'
      | c => c
      end
  end.

(** The comparator [sort()] uses when given none: strings by code units. *)
Definition default_compare (x y : string) : option Z :=
  match compare_units (code_units x) (code_units y) with
  | Lt => Some (-1)%Z
  | Eq => Some 0%Z
  | Gt => Some 1%Z
  end.

Definition lines (stations : list Station) : list string :=
  match stations with
  | [] => []
  | _ => sort default_compare (Set_values (map linea stations))
  end.

Section Host.
(** the host's [String.prototype.localeCompare] *)
Variable localeCompare : string -> string -> Z.

Definition compare_estacion (a b : Station) : option Z :=
  Some (localeCompare (estacion a) (estacion b)).

Definition stationsForLine (selectedLine : string) (stations : list Station)
  : list Station :=
  if selectedLine =? "" then []
  else sort compare_estacion
         (filter (fun s => linea s =? selectedLine) stations).
End Host.

End StationSelector.

(** ** The host's Date on the ISO date-only strings

    ECMAScript fixes the time value of the strings [YYYY], [YYYY-MM] and
    [YYYY-MM-DD] that name a date (UTC midnight); what a host makes of any
    other string is its own business.  [Date_iso] is the host that answers
    NaN there, except that, as V8 does, it takes a day up to 31 in every
    month and lets it run into the next month.  It serves the examples; the
    theorems hold of every host. *)

Module DateIso.

Definition digit (c : ascii) : option Z :=
  let n := Z.of_nat (nat_of_ascii c) in
  if ((48 <=? n) && (n <=? 57))%Z then Some (n - 48)%Z else None.

Fixpoint digits_from (acc : Z) (s : string) : option Z :=
  match s with
  | EmptyString => Some acc
  | String c rest =>
      match digit c with
      | Some d => digits_from (10 * acc + d)%Z rest
      | None => None
      end
  end.

Definition digits (s : string) : option Z :=
  match s with
  | EmptyString => None
  | _ => digits_from 0%Z s
  end.

(** Days from 1970-01-01 to the civil date [y-m-d]. *)
Definition MakeDay (y m d : Z) : Z :=
  let y' := (if m <=? 2 then y - 1 else y)%Z in
  let era := (y' / 400)%Z in
  let yoe := (y' - era * 400)%Z in
  let mp := (if m <=? 2 then m + 9 else m - 3)%Z in
  let doy := ((153 * mp + 2) / 5 + d - 1)%Z in
  let doe := (yoe * 365 + yoe / 4 - yoe / 100 + doy)%Z in
  (era * 146097 + doe - 719468)%Z.

Definition msPerDay : Z := 86400000.

Definition make_time (y m d : Z) : option Z :=
  if ((1 <=? m) && (m <=? 12) && (1 <=? d) && (d <=? 31))%Z
  then Some (MakeDay y m d * msPerDay)%Z
  else None.

Definition parse (s : string) : option Z :=
  match String.length s with
  | 4%nat =>
      match digits s with
      | Some y => make_time y 1 1
      | None => None
      end
  | 7%nat =>
      match digits (substring 0 4 s), substring 4 1 s, digits (substring 5 2 s) with
      | Some y, "-", Some m => make_time y m 1
      | _, _, _ => None
      end
  | 10%nat =>
      match digits (substring 0 4 s), substring 4 1 s,
            digits (substring 5 2 s), substring 7 1 s,
            digits (substring 8 2 s) with
      | Some y, "-", Some m, "-", Some d => make_time y m d
      | _, _, _, _, _ => None
      end
  | _ => None
  end.

(** [new Date(v)] for the values a sanitized [dates] array of strings
    holds: a string is parsed, [undefined] is an invalid date.  The time
    values of the other values ([null] is the epoch, a number is itself)
    are not given here. *)
Definition Date_iso (v : value) : option Z :=
  match v with
  | VStr s => parse s
  | _ => None
  end.

End DateIso.

(** ** components/ForecastView.jsx: anomalies, tooltip and metrics *)

Module ForecastRender.

(** [l.map(f)] for an [f] that may throw: [None] as soon as a call throws. *)
Fixpoint map_throwing {A B : Type} (f : A -> option B) (l : list A)
  : option (list B) :=
  match l with
  | [] => Some []
  | x :: rest =>
      match f x with
      | None => None
      | Some y =>
          match map_throwing f rest with
          | None => None
          | Some ys => Some (y :: ys)
          end
      end
  end.

(** The object made of one anomaly; reading a property of [null] throws. *)
Definition anomaly_period (anomaly : value) : option value :=
  match anomaly with
  | VNull | VUndefined => None
  | _ => Some (VObj [ ("start", get anomaly "start_date");
                      ("end", get anomaly "end_date");
                      ("name", get anomaly "name");
                      ("impact", get anomaly "impact_percent") ])
  end.

(** [getAnomalyPeriods]: whatever is thrown (an [anomalies] without [map],
    a [null] anomaly) is caught and answered with [[]]. *)
Definition getAnomalyPeriods (forecastData : value) : list value :=
  if negb (truthy forecastData) || negb (truthy (get forecastData "anomalies"))
  then []
  else
    match get forecastData "anomalies" with
    | VArr anomalies =>
        match map_throwing anomaly_period anomalies with
        | Some periods => periods
        | None => []
        end
    | _ => []
    end.

(** What a render produces: it throws, or it shows something. *)
Inductive rendering (A : Type) : Type :=
| Throws
| Shown (a : A).
Arguments Throws {A}.
Arguments Shown {A} a.

Record Metrics : Type := {
  rmse : string;
  mae : string;
  mape : string;
  r2 : string
}.

Record Tooltip : Type := {
  lines : list (string * string);
  phase : string
}.

Section Host.
(** the host's ToNumber on strings, arrays and objects *)
Variable ToNumber_host : value -> number.
(** [new Intl.NumberFormat('es-MX').format] *)
Variable Intl_format : number -> string.
(** [Number.prototype.toFixed] *)
Variable toFixed : number -> nat -> string.

(** [formatNumber]; rounding and formatting a JSON value never throw, so
    the ['Error'] of its [catch] is never returned. *)
Definition formatNumber (num : value) : string :=
  if is_null num || is_undefined num then "N/A"
  else Intl_format
         (TimeSeriesChart.Math_round (TimeSeriesChart.ToNumber ToNumber_host num)).

(** [v.toFixed(digits)]: a TypeError unless [v] is a number. *)
Definition fixed (v : value) (digits : nat) : option string :=
  match v with
  | VNum n => Some (toFixed n digits)
  | _ => None
  end.

(** One conditional line of the tooltip. *)
Definition tooltip_line (shown : bool) (label text : string)
  : list (string * string) :=
  if shown then [(label, text)] else [].

(** The content of the tooltip over the row [data]. *)
Definition tooltip (data : value) : Tooltip :=
  {| lines :=
       tooltip_line (negb (is_undefined (get data "actual")))
         "Afluencia real" (formatNumber (get data "actual"))
       ++ tooltip_line (negb (is_undefined (get data "fitted")))
            "Ajuste modelo" (formatNumber (get data "fitted"))
       ++ tooltip_line (negb (is_undefined (get data "validation_predicted")))
            "Predicción" (formatNumber (get data "validation_predicted"))
       ++ tooltip_line (negb (is_undefined (get data "predicted"))
                        && str_eq (get data "type") "future")
            "Pronóstico" (formatNumber (get data "predicted"))
       ++ tooltip_line (negb (is_undefined (get data "lower"))
                        && negb (is_undefined (get data "upper")))
            "Intervalo"
            (formatNumber (get data "lower") ++ " - "
             ++ formatNumber (get data "upper"))%string;
     phase :=
       if str_eq (get data "type") "train" then "Entrenamiento"
       else if str_eq (get data "type") "test" then "Validación"
       else "Pronóstico" |}.

(** The accuracy panel of a loaded forecast: absent unless
    [forecastData.metrics?.test] is truthy. *)
Definition metricsPanel (forecastData : value) : rendering (option Metrics) :=
  let test := opt_get (get forecastData "metrics") "test" in
  if truthy test then
    let rmse_cell :=
      if negb (is_undefined (get test "rmse"))
      then formatNumber (get test "rmse") else "N/A" in
    let mae_cell :=
      if negb (is_undefined (get test "mae"))
      then formatNumber (get test "mae") else "N/A" in
    let mape_cell :=
      if negb (is_undefined (get test "mape"))
      then option_map (fun text => (text ++ "%")%string)
             (fixed (get test "mape") 2)
      else Some "N/A" in
    let r2_cell :=
      if negb (is_undefined (get test "r2"))
      then fixed (get test "r2") 3 else Some "N/A" in
    match mape_cell, r2_cell with
    | Some mape_text, Some r2_text =>
        Shown (Some {| rmse := rmse_cell; mae := mae_cell;
                       mape := mape_text; r2 := r2_text |})
    | _, _ => Throws
    end
  else Shown None.
End Host.

End ForecastRender.

(** ** components/StationSelector: the two change handlers *)

Module SelectorHandlers.

Record State : Type := {
  stations : list StationSelector.Station;
  selectedLine : string;
  selectedStation : string
}.

(** [handleLineChange] for the value of the chosen option *)
Definition handleLineChange (line : string) (s : State) : State :=
  {| stations := stations s; selectedLine := line; selectedStation := "" |}.

(** [handleStationChange]: the new state and the calls of
    [onStationSelect] it makes *)
Definition handleStationChange (station : string) (s : State)
  : State * list (string * string) :=
  ({| stations := stations s; selectedLine := selectedLine s;
      selectedStation := station |},
   if negb (station =? "") && negb (selectedLine s =? "")
   then [(selectedLine s, station)] else []).

End SelectorHandlers.

(** ** App.jsx: the selected station and the view shown *)

Module App.

Record Selection : Type := { linea : value; estacion : value }.

Record State : Type := {
  timeSeriesData : value;
  loading : bool;
  error : value;
  selectedStation : Selection;
  showForecast : bool
}.

(** the five [useState] initial values *)
Definition initial : State :=
  {| timeSeriesData := VArr []; loading := false; error := VNull;
     selectedStation := {| linea := VStr ""; estacion := VStr "" |};
     showForecast := false |}.

Definition setTimeSeriesData (v : value) (s : State) : State :=
  {| timeSeriesData := v; loading := loading s; error := error s;
     selectedStation := selectedStation s; showForecast := showForecast s |}.

Definition setLoading (b : bool) (s : State) : State :=
  {| timeSeriesData := timeSeriesData s; loading := b; error := error s;
     selectedStation := selectedStation s; showForecast := showForecast s |}.

Definition setError (v : value) (s : State) : State :=
  {| timeSeriesData := timeSeriesData s; loading := loading s; error := v;
     selectedStation := selectedStation s; showForecast := showForecast s |}.

Definition setSelectedStation (sel : Selection) (s : State) : State :=
  {| timeSeriesData := timeSeriesData s; loading := loading s; error := error s;
     selectedStation := sel; showForecast := showForecast s |}.

Definition setShowForecast (b : bool) (s : State) : State :=
  {| timeSeriesData := timeSeriesData s; loading := loading s; error := error s;
     selectedStation := selectedStation s; showForecast := b |}.

Definition toggleForecast (s : State) : State :=
  setShowForecast (negb (showForecast s)) s.

(** the button that toggles the forecast is rendered only for a selection *)
Definition forecast_button (s : State) : bool :=
  truthy (linea (selectedStation s)) && truthy (estacion (selectedStation s)).

(** [timeSeriesData.data || []], the [data] handed to the chart *)
Definition chart_data (s : State) : value :=
  TimeSeriesChart.or (get (timeSeriesData s) "data") (VArr []).

Inductive View : Type :=
| Spinner
| ErrorMessage (message : value)
| Forecast (linea estacion : value)
| Chart (data : value) (title : string).

Section Host.
Variable ToString_host : value -> string.
Variable TypeError_message : string -> string.

(** [handleStationSelect] runs in two turns of the event loop.  The first
    runs up to the [await]: the three setters and the call of
    [getTimeSeries], which logs and issues its request.  This is what the
    first turn does to the state. *)
Definition handleStationSelect_begin (s : State) : State :=
  let s := setLoading true s in
  let s := setError VNull s in
  setShowForecast false s.

(** The second turn runs when the promise of [getTimeSeries] settles, on
    the state of that moment: [inr data] is the value the promise resolved
    with, [inl message] the error it rejected with. *)
Definition handleStationSelect_settle (outcome : string + value)
  (linea estacion : value) (s : State) : State :=
  match outcome with
  | inr data =>
      let s := setTimeSeriesData data s in
      let s := setSelectedStation {| linea := linea; estacion := estacion |} s in
      setLoading false s
  | inl _ =>
      let s := setError
                 (VStr "No se pudieron cargar los datos. Por favor intenta de nuevo.")
                 s in
      let s := setTimeSeriesData (VArr []) s in
      setLoading false s
  end.

(** what the right-hand panel shows *)
Definition render (s : State) : View :=
  if loading s then Spinner
  else if truthy (error s) then ErrorMessage (error s)
  else if showForecast s
       then Forecast (linea (selectedStation s)) (estacion (selectedStation s))
       else Chart (chart_data s)
              (if forecast_button s
               then ("Afluencia: "
                     ++ Api.ToString ToString_host (linea (selectedStation s))
                     ++ " - "
                     ++ Api.ToString ToString_host (estacion (selectedStation s)))%string
               else "Selecciona una estación para ver datos").

(** *** The application between two events

    While a request is in flight the selector and the forecast button stay
    active, so other selections and clicks come in between the two turns of
    a selection, and the responses arrive in any order. *)

(** a call of [getTimeSeries] in flight, and what its promise settles with *)
Record Call : Type := { arguments : Selection; outcome : string + value }.

Record Config : Type := {
  state : State;
  in_flight : list Call;
  requests : list string
}.

Definition start : Config :=
  {| state := initial; in_flight := []; requests := [] |}.

(** The selector hands a line and a station, two strings; [network] is what
    the server will answer. *)
Definition select (network : string -> Api.fetched) (line station : string)
  (c : Config) : Config :=
  let result := Api.getTimeSeries network ToString_host TypeError_message
                  (VStr line) (VStr station) (requests c) in
  {| state := handleStationSelect_begin (state c);
     in_flight := in_flight c
                  ++ [ {| arguments := {| linea := VStr line;
                                          estacion := VStr station |};
                          outcome := fst result |} ];
     requests := snd result |}.

(** the promise of [call] settles *)
Definition settle (call : Call) (others : list Call) (c : Config) : Config :=
  {| state := handleStationSelect_settle (outcome call)
                (linea (arguments call)) (estacion (arguments call)) (state c);
     in_flight := others;
     requests := requests c |}.

(** a click on the forecast button *)
Definition toggle (c : Config) : Config :=
  {| state := toggleForecast (state c);
     in_flight := in_flight c;
     requests := requests c |}.

Inductive Step : Config -> Config -> Prop :=
| Step_select (network : string -> Api.fetched) (line station : string)
    (c : Config) :
    Step c (select network line station c)
| Step_settle (call : Call) (before after : list Call) (c : Config) :
    in_flight c = before ++ call :: after ->
    Step c (settle call (before ++ after) c)
| Step_toggle (c : Config) :
    forecast_button (state c) = true ->
    Step c (toggle c).

Inductive Reachable : Config -> Prop :=
| Reachable_start : Reachable start
| Reachable_step (c c' : Config) : Reachable c -> Step c c' -> Reachable c'.
End Host.

End App.

(** * The vocabulary of the statements

    What the theorems below talk about: the orders and predicates they
    state, the requests they name, and the inputs of their examples. *)

(** [x] may stand before [y]: the comparator does not call [x] greater. *)
Definition in_order {A : Type} (comparefn : A -> A -> option Z) (x y : A)
  : Prop :=
  (SortCompare comparefn x y <= 0)%Z.

Definition key_le {A : Type} (key : A -> Z) (x y : A) : Prop :=
  (key x <= key y)%Z.

(** on [l] the comparator is the difference of the key *)
Definition keyed {A : Type} (comparefn : A -> A -> option Z) (key : A -> Z)
  (l : list A) : Prop :=
  forall x y, In x l -> In y l ->
              SortCompare comparefn x y = (key x - key y)%Z.

(** the dates a sub-series is zipped over *)
Definition sub_dates (sub : value) : list value :=
  if truthy sub then
    match get sub "dates" with
    | VArr dates => dates
    | _ => []
    end
  else [].

(** one row per date, carrying its index *)
Definition rows_of (row : value -> value -> nat -> value) (sub : value)
  : list value :=
  map (fun p => row sub (snd p) (fst p))
      (combine (seq 0 (List.length (sub_dates sub))) (sub_dates sub)).

Definition not_null (v : value) : Prop := v <> VNull.

(** A sub-series none of whose arrays can yield [null]. *)
Definition clean_sub (sub : value) : Prop :=
  Forall not_null (sub_dates sub)
  /\ (forall k i, not_null (opt_index (get sub k) i))
  /\ (truthy sub = true -> exists dates, get sub "dates" = VArr dates).

Ltac split_keys :=
  repeat match goal with
         | |- context [if ?a =? ?k then _ else _] => destruct (a =? k)
         end.

(** The bundle of the round trip: two training dates, a [null] among the
    actual values. *)
Definition bundle_two (d1 d2 : string) : value :=
  VObj [ ("train",
          VObj [ ("dates", VArr [VStr d1; VStr d2]);
                 ("actual", VArr [num 10; VNull]);
                 ("fitted", VArr [num 9; num 11]) ]) ].

(** the two rows it merges to *)
Definition rows_two (d1 d2 : string) : list value :=
  [ VObj [ ("fecha", VStr d1); ("actual", num 10);
           ("fitted", num 9); ("lower", VUndefined);
           ("upper", VUndefined); ("type", VStr "train") ];
    VObj [ ("fecha", VStr d2); ("actual", VUndefined);
           ("fitted", num 11); ("lower", VUndefined);
           ("upper", VUndefined); ("type", VStr "train") ] ].

(** The four view modes. *)
Definition modes : list string := ["all"; "train"; "test"; "future"].

(** A row carrying one of the three tags. *)
Definition tagged (row : value) : bool :=
  ForecastView.of_type "train" row || ForecastView.of_type "test" row
  || ForecastView.of_type "future" row.

(** A test date and a forecast date that coincide. *)
Definition bundle_coinciding (d : string) : value :=
  VObj [ ("test", VObj [ ("dates", VArr [VStr d]);
                         ("predicted", VArr [num 100]) ]);
         ("forecast", VObj [ ("dates", VArr [VStr d]);
                             ("predicted", VArr [num 200]) ]) ].

Definition rows_coinciding (d : string) : list value :=
  [ VObj [ ("fecha", VStr d); ("actual", VUndefined);
           ("validation_predicted", num 100);
           ("predicted", VUndefined); ("lower", VUndefined);
           ("upper", VUndefined); ("type", VStr "test") ];
    VObj [ ("fecha", VStr d); ("validation_predicted", VUndefined);
           ("predicted", num 200); ("lower", VUndefined);
           ("upper", VUndefined); ("type", VStr "future") ] ].

Definition array_length (v : value) : nat :=
  match v with
  | VArr items => List.length items
  | _ => 0%nat
  end.

(** the length of the shortest array among [dates] and the arrays at [keys] *)
Definition shortest_array (sub : value) (keys : list string) : nat :=
  fold_right (fun k m => Nat.min (array_length (get sub k)) m)
             (array_length (get sub "dates")) keys.

(** A training sub-series whose [actual] is one entry short. *)
Definition short_actual : value :=
  VObj [ ("dates", VArr [VStr "2021-01"; VStr "2021-02"]);
         ("actual", VArr [num 10]);
         ("fitted", VArr [num 9; num 11]);
         ("lower", VArr [num 8; num 10]);
         ("upper", VArr [num 12; num 13]) ].

Definition parses (Date_time : value -> option Z) (row : value) : Prop :=
  Date_time (get row "fecha") <> None.

Definition unparseable (Date_time : value -> option Z) (row : value) : bool :=
  match Date_time (get row "fecha") with
  | Some _ => false
  | None => true
  end.

(** the training dates of the sort example, out of order *)
Definition bundle_unsorted : value :=
  VObj [ ("train",
          VObj [ ("dates", VArr [VStr "2021-03"; VStr "2021-01"; VStr "2021-02"]) ]) ].

Definition time_or_zero (Date_time : value -> option Z) (row : value) : Z :=
  match Date_time (get row "fecha") with
  | Some t => t
  | None => 0%Z
  end.

(** A server that answers every request with [response], and the messages
    of a host, for the examples. *)
Definition server_of (response : Api.Response) : string -> Api.fetched :=
  fun _ => Api.Resolved response.

Definition ToString_example (v : value) : string := "[object Object]".

Definition TypeError_example (k : string) : string :=
  "Cannot read properties of null (reading '" ++ k ++ "')".

Definition ok_with (body : value) : Api.Response :=
  {| Api.ok := true; Api.status := 200; Api.statusText := "OK";
     Api.json := Some body |}.

Definition is_string (v : value) : bool :=
  match v with VStr _ => true | _ => false end.

(** a [Station]: an object with a string [linea] and a string [estacion] *)
Definition is_Station (v : value) : bool :=
  match v with
  | VObj _ => is_string (get v "linea") && is_string (get v "estacion")
  | _ => false
  end.

Definition sequence_of_Station (v : value) : bool :=
  match v with
  | VArr items => forallb is_Station items
  | _ => false
  end.

(** the paths of the two per-station requests *)
Definition timeseries_url (linea estacion : string) : string :=
  Api.API_BASE_URL ++ "/timeseries/" ++ Api.encodeURIComponent linea
  ++ "/" ++ Api.encodeURIComponent estacion.

Definition forecast_url (linea estacion : string) : string :=
  Api.API_BASE_URL ++ "/forecast/" ++ Api.encodeURIComponent linea
  ++ "/" ++ Api.encodeURIComponent estacion.

Definition stations_url : string := Api.API_BASE_URL ++ "/stations".

Definition url_safe (c : ascii) : Prop :=
  Api.unreserved c = true \/ c = "%"%char.

(** a selection argument that is empty or missing *)
Definition empty_or_missing (v : value) : Prop :=
  v = VStr "" \/ v = VUndefined \/ v = VNull.

(** a view in which a forecast is shown in mode ['future'] *)
Definition shown_future : ForecastView.State :=
  {| ForecastView.forecastData := VObj [("train", VObj [])];
     ForecastView.loading := false;
     ForecastView.error := VNull;
     ForecastView.mode := "future" |}.

(** A comparator that never contradicts itself: a collation. *)
Definition consistent (localeCompare : string -> string -> Z) : Prop :=
  (forall a b, (0 < localeCompare a b)%Z -> (localeCompare b a <= 0)%Z)
  /\ (forall a b c, (localeCompare a b <= 0)%Z -> (localeCompare b c <= 0)%Z ->
                    (localeCompare a c <= 0)%Z).

(** [a] stands no later than [b] in the order of the code units *)
Definition units_le (a b : string) : Prop :=
  StationSelector.compare_units (StationSelector.code_units a)
                                (StationSelector.code_units b) <> Gt.

(** the collation that compares the keys of two strings unit by unit *)
Definition collate (key : string -> list N) (a b : string) : Z :=
  match StationSelector.compare_units (key a) (key b) with
  | Lt => (-1)%Z
  | Eq => 0%Z
  | Gt => 1%Z
  end.

(** the collation of a host that compares code units *)
Definition code_unit_collation : string -> string -> Z :=
  collate StationSelector.code_units.

Definition upper_case (u : N) : bool := ((65 <=? u) && (u <=? 90))%N.

(** The key of a dictionary: the letters whatever their case, then, to
    break a tie, their cases, lowercase first. *)
Definition dictionary_key (s : string) : list N :=
  map (fun u => if upper_case u then u + 33 else u + 1)%N
      (StationSelector.code_units s)
  ++ 0%N :: map (fun u => if upper_case u then 2 else 1)%N
                (StationSelector.code_units s).

(** A [localeCompare] that ranks words as a dictionary does.  On words of
    unaccented Latin letters this is the order of a host that follows the
    Unicode collation algorithm; other characters are ranked by code unit
    here, which such a host does not do. *)
Definition dictionary_collation : string -> string -> Z :=
  collate dictionary_key.

(** a word and an acronym on one line *)
Definition word_and_acronym : list StationSelector.Station :=
  [ {| StationSelector.linea := "Línea 3"; StationSelector.estacion := "UVM" |};
    {| StationSelector.linea := "Línea 3";
       StationSelector.estacion := "Universidad" |} ].

(** two lines named by a character of the basic plane and by one outside it *)
Definition two_symbols : list StationSelector.Station :=
  [ {| StationSelector.linea := "～"; StationSelector.estacion := "A" |};
    {| StationSelector.linea := "😀"; StationSelector.estacion := "B" |} ].

Definition estacion_le (localeCompare : string -> string -> Z)
  (a b : StationSelector.Station) : Prop :=
  (localeCompare (StationSelector.estacion a) (StationSelector.estacion b) <= 0)%Z.

Definition three_stations : list StationSelector.Station :=
  [ {| StationSelector.linea := "Línea 2"; StationSelector.estacion := "Zócalo" |};
    {| StationSelector.linea := "Línea 1"; StationSelector.estacion := "Pantitlán" |};
    {| StationSelector.linea := "Línea 2"; StationSelector.estacion := "Allende" |} ].

(** A field that is absent or holds a number other than zero. *)
Definition number_or_absent (v : value) : Prop :=
  v = VUndefined \/ exists q, v = VNum (Fin q) /\ ~ q == 0.

Definition numeric_point (item : value) : Prop :=
  number_or_absent (get item "afluencia")
  /\ number_or_absent (get item "mean")
  /\ number_or_absent (get item "min")
  /\ number_or_absent (get item "max").



(** the primary value of a point: [afluencia], else [mean] *)
Definition primary_value (item : value) : Q :=
  match get item "afluencia" with
  | VNum (Fin q) => q
  | _ => match get item "mean" with
         | VNum (Fin q) => q
         | _ => 0
         end
  end.






Definition carries_min_max (item : value) : bool :=
  negb (is_undefined (get item "min")) && negb (is_undefined (get item "max")).

Definition point (fecha : string) (afluencia low high : Z) : value :=
  VObj [ ("fecha", VStr fecha); ("afluencia", num afluencia);
         ("min", num low); ("max", num high) ].



Definition ToNumber_example (v : value) : number := NaN.
Definition concat_example (a b : value) : value := VStr "".
Definition Intl_example (n : number) : string :=
  match n with
  | Fin q => NilZero.string_of_int (Z.to_int (Qfloor q))
  | _ => "NaN"
  end.

(** ** More vocabulary: the client's messages and the encoding *)

Definition stations_prefix : string := "No se pudieron obtener las estaciones: ".
Definition timeseries_prefix : string := "No se pudo obtener la serie temporal: ".
Definition forecast_prefix : string := "No se pudo obtener el pronóstico: ".
Definition validation_message : string := "Se requiere especificar línea y estación".

Definition not_found : Api.Response :=
  {| Api.ok := false; Api.status := 404; Api.statusText := "Not Found";
     Api.json := Some (VObj [("detail", VStr "Estación no encontrada")]) |}.

(** The number of bytes of [s] that the encoding escapes: the bytes of the
    UTF-8 form of the characters that are not unreserved. *)
Fixpoint escaped_count (s : string) : nat :=
  match s with
  | EmptyString => 0%nat
  | String c rest =>
      ((if Api.unreserved c then 0 else 1) + escaped_count rest)%nat
  end.

(** the number of unreserved characters of [s] *)
Fixpoint unreserved_count (s : string) : nat :=
  match s with
  | EmptyString => 0%nat
  | String c rest =>
      ((if Api.unreserved c then 1 else 0) + unreserved_count rest)%nat
  end.

(** a string none of whose characters is the separator ['/'] *)
Fixpoint no_slash (s : string) : Prop :=
  match s with
  | EmptyString => True
  | String c rest => c <> "/"%char /\ no_slash rest
  end.

(** ** More vocabulary: sanitized bundles and the rows of a mode *)

(** the number of rows a raw sub-series contributes once sanitized *)
Definition dates_count (sub : value) : nat :=
  if truthy sub then array_length (get sub "dates") else 0%nat.

(** [null] read as absent *)
Definition absent_for_null (v : value) : value :=
  if is_null v then VUndefined else v.

(** The entry [i] of an array of a raw sub-series, as a row is to carry it:
    [null] read as absent, and absent as well where there is no such entry
    or no array. *)
Definition entry (arr : value) (i : nat) : value :=
  match arr with
  | VArr items => absent_for_null (nth i items VUndefined)
  | _ => VUndefined
  end.

(** The rows asked of a raw sub-series: one per entry of its [dates]. *)
Definition train_rows (train : value) : list value :=
  map (fun i => VObj [ ("fecha", entry (get train "dates") i);
                       ("actual", entry (get train "actual") i);
                       ("fitted", entry (get train "fitted") i);
                       ("lower", entry (get train "lower") i);
                       ("upper", entry (get train "upper") i);
                       ("type", VStr "train") ])
      (seq 0 (dates_count train)).

Definition test_rows (test : value) : list value :=
  map (fun i => VObj [ ("fecha", entry (get test "dates") i);
                       ("actual", entry (get test "actual") i);
                       ("validation_predicted", entry (get test "predicted") i);
                       ("predicted", VUndefined);
                       ("lower", entry (get test "lower") i);
                       ("upper", entry (get test "upper") i);
                       ("type", VStr "test") ])
      (seq 0 (dates_count test)).

Definition future_rows (forecast : value) : list value :=
  map (fun i => VObj [ ("fecha", entry (get forecast "dates") i);
                       ("validation_predicted", VUndefined);
                       ("predicted", entry (get forecast "predicted") i);
                       ("lower", entry (get forecast "lower") i);
                       ("upper", entry (get forecast "upper") i);
                       ("type", VStr "future") ])
      (seq 0 (dates_count forecast)).

(** [a] is a date later than [b], both parsing *)
Definition later (Date_time : value -> option Z) (a b : value) : bool :=
  match Date_time a, Date_time b with
  | Some ta, Some tb => (tb <? ta)%Z
  | _, _ => false
  end.

(** [a]'s date and [b]'s both parse, the first no later than the second *)
Definition date_le (Date_time : value -> option Z) (a b : value) : Prop :=
  match Date_time (get a "fecha"), Date_time (get b "fecha") with
  | Some ta, Some tb => (ta <= tb)%Z
  | _, _ => False
  end.

(** a training sub-series whose second date is missing, the third being
    earlier than the first *)
Definition bundle_with_gap : value :=
  VObj [ ("train",
          VObj [ ("dates", VArr [VStr "2021-03"; VNull; VStr "2021-01"]) ]) ].

(** a bundle with a [null] in an array of each sub-series *)
Definition bundle_three : value :=
  VObj [ ("train", VObj [ ("dates", VArr [VStr "2021-01"]);
                          ("actual", VArr [VNull]) ]);
         ("test", VObj [ ("dates", VArr [VStr "2021-02"]);
                         ("actual", VArr [num 7]);
                         ("predicted", VArr [VNull]) ]);
         ("forecast", VObj [ ("dates", VArr [VStr "2021-03"]);
                             ("predicted", VArr [num 8]);
                             ("upper", VArr [VNull]) ]) ].

(** the rows dated [t] by the host *)
Definition dated (Date_time : value -> option Z) (t : Z) (row : value) : bool :=
  match Date_time (get row "fecha") with
  | Some t' => (t' =? t)%Z
  | None => false
  end.

(** a forecast with a test date and a forecast date on the same month, and
    no parseable date elsewhere *)
Definition bundle_with_metrics : value :=
  VObj [ ("train", VObj [ ("dates", VArr [VStr "2021-01"; VNull]);
                          ("actual", VArr [num 10; num 12]) ]);
         ("test", VNull);
         ("metrics", VObj [ ("test", VObj [ ("rmse", num 3) ]) ]);
         ("anomalies",
          VArr [ VObj [ ("start_date", VStr "2020-03");
                        ("end_date", VStr "2021-06");
                        ("name", VStr "COVID-19");
                        ("impact_percent", num 60) ] ]) ].

(** a raw bundle whose test dates are a string *)
Definition bundle_bad_dates : value :=
  VObj [ ("train", VObj [ ("dates", VArr [VStr "2021-01"]) ]);
         ("test", VObj [ ("dates", VStr "2021-02") ]) ].

(** ** More vocabulary: anomalies, metrics and tooltips *)

(** an anomaly whose properties can be read *)
Definition readable (anomaly : value) : Prop :=
  anomaly <> VNull /\ anomaly <> VUndefined.

Definition number_or_undefined (v : value) : Prop :=
  v = VUndefined \/ exists n, v = VNum n.

Definition labels (tooltip : ForecastRender.Tooltip) : list string :=
  map fst (ForecastRender.lines tooltip).

Definition toFixed_example (n : number) (digits : nat) : string := "0.00".

(** a view with no forecast, in mode ['test'] *)
Definition idle_test : ForecastView.State :=
  {| ForecastView.forecastData := VNull;
     ForecastView.loading := false;
     ForecastView.error := VStr "Error: antes";
     ForecastView.mode := "test" |}.

(** metrics with a [null] MAPE *)
Definition metrics_null_mape : value :=
  VObj [ ("metrics",
          VObj [ ("test", VObj [ ("rmse", VNull); ("mape", VNull) ]) ]) ].

(** ** More vocabulary: the chart, the selector and the application *)

(** a month with no ridership among two ordinary months *)
Definition closed_month : list value :=
  [ point "2021-01" 10 8 12;
    VObj [ ("fecha", VStr "2021-02"); ("afluencia", num 0);
           ("min", num 0); ("max", num 0) ];
    point "2021-03" 30 25 35 ].

(** a series whose only point has no date *)
Definition undated : list value :=
  [ VObj [ ("afluencia", num 10); ("min", num 8); ("max", num 12) ] ].

(** the number of stations of each line, line by line *)
Definition stations_per_line (localeCompare : string -> string -> Z)
  (stations : list StationSelector.Station) : list nat :=
  map (fun line =>
         List.length (StationSelector.stationsForLine localeCompare line stations))
      (StationSelector.lines stations).

(** the options of the station menu for the selected line *)
Definition station_options (localeCompare : string -> string -> Z)
  (s : SelectorHandlers.State) : list string :=
  map StationSelector.estacion
      (StationSelector.stationsForLine localeCompare
         (SelectorHandlers.selectedLine s) (SelectorHandlers.stations s)).

(** the oldest call in flight settles *)
Definition settle_first (c : App.Config) : App.Config :=
  match App.in_flight c with
  | call :: others => App.settle call others c
  | [] => c
  end.

(** a server that answers every request with an empty series *)
Definition server_empty : string -> Api.fetched :=
  server_of (ok_with (VObj [("data", VArr [])])).

(** A run of the application: a station is selected and its series
    arrives, the forecast is switched on, and another station is selected,
    whose request is still in flight. *)
Definition run_example : App.Config :=
  App.select ToString_example TypeError_example server_empty "Línea 1" "Zaragoza"
    (App.toggle
       (settle_first
          (App.select ToString_example TypeError_example server_empty
             "Línea 1" "Pantitlán" App.start))).

(** What a call in flight can resolve with: a series with an array [data],
    for a line and a station that are not empty. *)
Definition sound (call : App.Call) : Prop :=
  forall data, App.outcome call = inr data ->
    (exists points, get data "data" = VArr points)
    /\ exists line station,
         App.arguments call
         = {| App.linea := VStr line; App.estacion := VStr station |}
         /\ line <> "" /\ station <> "".

(** What holds between any two events. *)
Definition invariant (c : App.Config) : Prop :=
  (exists points, App.chart_data (App.state c) = VArr points)
  /\ (App.showForecast (App.state c) = true ->
      App.forecast_button (App.state c) = true)
  /\ (App.forecast_button (App.state c) = true ->
      exists line station,
        App.selectedStation (App.state c)
        = {| App.linea := VStr line; App.estacion := VStr station |}
        /\ line <> "" /\ station <> "")
  /\ (App.loading (App.state c) = true -> App.in_flight c <> [])
  /\ Forall sound (App.in_flight c).

(** the two fields a response replaces *)
Definition shown (s : App.State) : App.Selection * value :=
  (App.selectedStation s, App.timeSeriesData s).

(** a server that refuses every request *)
Definition server_down : string -> Api.fetched :=
  fun _ => Api.Rejected "Failed to fetch".

(** * Facts *)

(** ** Array.prototype.sort *)

Section SortFacts.
Context {A : Type}.
Variable comparefn : A -> A -> option Z.

Abbreviation cmp := (SortCompare comparefn).
Abbreviation ins := (sort_insert comparefn).

Lemma sort_insert_perm (x : A) (l : list A) :
  Permutation (ins x l) (x :: l).
Proof.
  induction l as [|y l IH]; simpl; [reflexivity|].
  destruct (cmp x y <=? 0)%Z; [reflexivity|].
  rewrite IH. apply perm_swap.
Qed.

Lemma sort_perm (l : list A) : Permutation (sort comparefn l) l.
Proof.
  induction l as [|x l IH]; simpl; [constructor|].
  rewrite sort_insert_perm. now constructor.
Qed.

Lemma sort_In (l : list A) (x : A) : In x (sort comparefn l) <-> In x l.
Proof.
  split; apply Permutation_in; [|symmetry]; apply sort_perm.
Qed.

Hypothesis cmp_asym : forall x y, (0 < cmp x y)%Z -> (cmp y x <= 0)%Z.

Lemma sort_insert_sorted (x : A) (l : list A) :
  Sorted (in_order comparefn) l -> Sorted (in_order comparefn) (ins x l).
Proof.
  induction 1 as [|y l Hl IH Hhd]; simpl.
  - repeat constructor.
  - destruct (cmp x y <=? 0)%Z eqn:E.
    + apply Z.leb_le in E. repeat constructor; assumption.
    + apply Z.leb_gt in E. constructor; [exact IH|].
      destruct l as [|z l]; simpl.
      * constructor. now apply cmp_asym.
      * destruct (cmp x z <=? 0)%Z; constructor.
        -- now apply cmp_asym.
        -- now inversion Hhd.
Qed.

Lemma sort_sorted (l : list A) : Sorted (in_order comparefn) (sort comparefn l).
Proof.
  induction l as [|x l IH]; simpl; [constructor|].
  now apply sort_insert_sorted.
Qed.
End SortFacts.

Section SortKeyed.
Context {A : Type}.
Variable comparefn : A -> A -> option Z.
Variable key : A -> Z.

Abbreviation cmp := (SortCompare comparefn).

Lemma sort_insert_keyed (x : A) (l : list A) :
  keyed comparefn key (x :: l) ->
  StronglySorted (key_le key) l -> StronglySorted (key_le key) (sort_insert comparefn x l).
Proof.
  intros K H. induction H as [|y l Hl IH Hall]; simpl.
  - repeat constructor.
  - pose proof (K x y (or_introl eq_refl) (or_intror (or_introl eq_refl))) as Kxy.
    destruct (cmp x y <=? 0)%Z eqn:E.
    + apply Z.leb_le in E.
      constructor; [constructor; assumption|].
      constructor; [unfold key_le; lia|].
      eapply Forall_impl; [|exact Hall].
      unfold key_le; intros; lia.
    + apply Z.leb_gt in E.
      constructor.
      * apply IH. intros a b Ha Hb. apply K; simpl in *; tauto.
      * apply Forall_forall. intros z Hz.
        apply (Permutation_in _ (sort_insert_perm comparefn x l)) in Hz.
        destruct Hz as [<-|Hz]; [unfold key_le; lia|].
        rewrite Forall_forall in Hall. now apply Hall.
Qed.

(** Where the comparator is the difference of a key, the result is
    ascending in the key. *)
Lemma sort_keyed_sorted (l : list A) :
  keyed comparefn key l -> StronglySorted (key_le key) (sort comparefn l).
Proof.
  induction l as [|x l IH]; simpl; intros K; [constructor|].
  apply sort_insert_keyed.
  - intros a b Ha Hb. apply K.
    + destruct Ha as [<-|Ha]; [now left|right; now apply (sort_In comparefn l)].
    + destruct Hb as [<-|Hb]; [now left|right; now apply (sort_In comparefn l)].
  - apply IH. intros a b Ha Hb. apply K; now right.
Qed.
End SortKeyed.

Section SortStable.
Context {A : Type}.
Variable comparefn : A -> A -> option Z.
Variable key : A -> Z.

Lemma sort_insert_stable (k : Z) (x : A) (l : list A) :
  (forall y, In y l -> SortCompare comparefn x y = (key x - key y)%Z) ->
  filter (fun y => (key y =? k)%Z) (sort_insert comparefn x l)
  = filter (fun y => (key y =? k)%Z) (x :: l).
Proof.
  induction l as [|y l IH]; intros K; [reflexivity|].
  cbn [sort_insert].
  destruct (SortCompare comparefn x y <=? 0)%Z eqn:E; [reflexivity|].
  apply Z.leb_gt in E. rewrite (K y (or_introl eq_refl)) in E.
  cbn [filter] in *. rewrite IH by (intros; apply K; now right).
  destruct (Z.eqb_spec (key y) k), (Z.eqb_spec (key x) k); try reflexivity.
  lia.
Qed.

(** Where the comparator is the difference of a key, elements of equal key
    keep their order. *)
Lemma sort_stable (k : Z) (l : list A) :
  keyed comparefn key l ->
  filter (fun y => (key y =? k)%Z) (sort comparefn l)
  = filter (fun y => (key y =? k)%Z) l.
Proof.
  induction l as [|x l IH]; intros K; [reflexivity|].
  cbn [sort]. rewrite sort_insert_stable.
  - cbn [filter]. rewrite IH; [reflexivity|].
    intros a b Ha Hb. apply K; now right.
  - intros y Hy. apply K; [now left|right; now apply (sort_In comparefn l)].
Qed.
End SortStable.

(** A list whose neighbours the comparator already has in order is returned
    as it is. *)
Lemma sort_in_order_fixed {A : Type} (comparefn : A -> A -> option Z)
  (l : list A) :
  Sorted (in_order comparefn) l -> sort comparefn l = l.
Proof.
  induction 1 as [|x l Hl IH Hhd]; [reflexivity|].
  cbn [sort]. rewrite IH. destruct Hhd as [|y l Hxy]; [reflexivity|].
  cbn [sort_insert]. unfold in_order in Hxy.
  apply Z.leb_le in Hxy. now rewrite Hxy.
Qed.

(** ** Objects as property lists *)

Lemma lookup_set_prop_same (k : string) (x : value) (props : list (string * value)) :
  lookup k (set_prop k x props) = x.
Proof.
  induction props as [|[k' v] rest IH]; simpl.
  - now rewrite String.eqb_refl.
  - destruct (k' =? k) eqn:E; simpl.
    + now rewrite String.eqb_refl.
    + now rewrite E.
Qed.

Lemma lookup_set_prop_other (k k' : string) (x : value)
  (props : list (string * value)) :
  k <> k' -> lookup k' (set_prop k x props) = lookup k' props.
Proof.
  intros N. induction props as [|[k0 v] rest IH]; simpl.
  - apply String.eqb_neq in N. now rewrite N.
  - destruct (k0 =? k) eqn:E; simpl.
    + apply String.eqb_eq in E. subst k0.
      apply String.eqb_neq in N. now rewrite N.
    + now rewrite IH.
Qed.

(** ** The zip of a sub-series *)

Section Zip.
Import ForecastView.

Lemma forEach_guard {A B : Type} (f : A -> nat -> B) (n : nat) (l : list A) :
  forall k, (k + List.length l <= n)%nat ->
  forEach_from (fun x i => if (i <? n)%nat then [f x i] else []) k l
  = map (fun p => f (snd p) (fst p)) (combine (seq k (List.length l)) l).
Proof.
  induction l as [|x l IH]; intros k Hk; simpl in *; [reflexivity|].
  destruct (Nat.ltb_spec k n) as [_|Hge]; [|lia].
  simpl. f_equal. apply IH. lia.
Qed.

Lemma nth_indexed {A B : Type} (f : nat * A -> B) (d : B) (d' : A) (l : list A) :
  forall k i, (i < List.length l)%nat ->
  nth i (map f (combine (seq k (List.length l)) l)) d = f ((k + i)%nat, nth i l d').
Proof.
  induction l as [|x l IH]; intros k i Hi; simpl in *; [lia|].
  destruct i as [|i].
  - now rewrite Nat.add_0_r.
  - rewrite IH by lia. now rewrite Nat.add_succ_r.
Qed.

Lemma length_indexed {A B : Type} (f : nat * A -> B) (l : list A) (k : nat) :
  List.length (map f (combine (seq k (List.length l)) l)) = List.length l.
Proof.
  rewrite length_map, length_combine, length_seq. apply Nat.min_id.
Qed.

Lemma rows_of_length row sub :
  List.length (rows_of row sub) = List.length (sub_dates sub).
Proof. apply length_indexed. Qed.

Lemma rows_of_nth row sub (i : nat) :
  (i < List.length (sub_dates sub))%nat ->
  nth i (rows_of row sub) VUndefined
  = row sub (nth i (sub_dates sub) VUndefined) i.
Proof.
  intros Hi. unfold rows_of.
  now rewrite (nth_indexed _ VUndefined VUndefined _ 0 i Hi).
Qed.

Lemma In_rows_of row sub (r : value) :
  In r (rows_of row sub) <->
  exists i, (i < List.length (sub_dates sub))%nat
            /\ r = row sub (nth i (sub_dates sub) VUndefined) i.
Proof.
  split.
  - intros Hin. destruct (In_nth _ _ VUndefined Hin) as (i & Hi & Hr).
    rewrite rows_of_length in Hi. exists i. split; [exact Hi|].
    now rewrite <- Hr, rows_of_nth.
  - intros (i & Hi & ->). rewrite <- rows_of_nth by exact Hi.
    apply nth_In. now rewrite rows_of_length.
Qed.

Lemma zip_rows_some sub row rows :
  zip_rows sub row = Some rows -> rows = rows_of row sub.
Proof.
  unfold zip_rows, rows_of, sub_dates.
  destruct (truthy sub); simpl; [|now intros [= <-]].
  destruct (truthy (get sub "dates")) eqn:T.
  - destruct (get sub "dates"); try discriminate.
    intros [= <-]. now apply forEach_guard.
  - destruct (get sub "dates"); try discriminate T; now intros [= <-].
Qed.

Lemma zip_rows_array sub row dates :
  truthy sub = true -> get sub "dates" = VArr dates ->
  zip_rows sub row = Some (rows_of row sub).
Proof.
  intros T D. unfold zip_rows, rows_of, sub_dates. rewrite T, D. simpl.
  f_equal. now apply forEach_guard.
Qed.

Lemma zip_rows_falsy sub row :
  truthy sub = false -> zip_rows sub row = Some (rows_of row sub).
Proof.
  intros T. unfold zip_rows, rows_of, sub_dates. now rewrite T.
Qed.

(** A merge that does not throw is the three zips, one after the other. *)
Lemma merge_some forecastData chartData :
  merge forecastData = Some chartData ->
  chartData = rows_of train_row (get forecastData "train")
              ++ rows_of test_row (get forecastData "test")
              ++ rows_of future_row (get forecastData "forecast").
Proof.
  unfold merge.
  destruct (zip_rows (get forecastData "train") train_row) as [tr|] eqn:E1;
    [|discriminate].
  destruct (zip_rows (get forecastData "test") test_row) as [te|] eqn:E2;
    [|discriminate].
  destruct (zip_rows (get forecastData "forecast") future_row) as [fu|] eqn:E3;
    [|discriminate].
  intros [= <-].
  now rewrite (zip_rows_some _ _ _ E1), (zip_rows_some _ _ _ E2),
    (zip_rows_some _ _ _ E3).
Qed.
End Zip.

(** ** Sanitized bundles *)

Section Sanitized.
Import ForecastView.

Lemma lookup_sanitize_field_same k f props :
  lookup k (sanitize_field k f props)
  = if truthy (lookup k props) then f (lookup k props) else lookup k props.
Proof.
  unfold sanitize_field. destruct (truthy (lookup k props)); [|reflexivity].
  apply lookup_set_prop_same.
Qed.

Lemma lookup_sanitize_field_other k k' f props :
  k <> k' -> lookup k' (sanitize_field k f props) = lookup k' props.
Proof.
  intros N. unfold sanitize_field.
  destruct (truthy (lookup k props)); [|reflexivity].
  now apply lookup_set_prop_other.
Qed.

Lemma sanitizeArray_array (arr : value) :
  exists items, sanitizeArray arr = VArr items /\ Forall not_null items.
Proof.
  destruct arr as [| |b|n|s|items|props];
    try (exists []; split; [reflexivity|constructor]).
  eexists. split; [reflexivity|].
  induction items as [|x items IH]; simpl; constructor; [|exact IH].
  unfold not_null. destruct x; simpl; discriminate.
Qed.

Lemma sanitizeArray_index (arr : value) (i : nat) :
  not_null (opt_index (sanitizeArray arr) i).
Proof.
  destruct (sanitizeArray_array arr) as (items & -> & Hall). simpl.
  destruct (Nat.lt_ge_cases i (List.length items)) as [Hi|Hi].
  - rewrite Forall_forall in Hall. apply Hall. now apply nth_In.
  - rewrite nth_overflow by exact Hi. discriminate.
Qed.

Lemma clean_falsy (sub : value) : truthy sub = false -> clean_sub sub.
Proof.
  intros T. unfold clean_sub, sub_dates. rewrite T.
  repeat split; [constructor| |discriminate].
  intros k i. destruct sub as [| |b|n|s|items|props]; simpl; discriminate.
Qed.

Lemma clean_sanitize_train t : clean_sub (sanitize_train t).
Proof.
  unfold clean_sub, sub_dates.
  change (truthy (sanitize_train t)) with true.
  change (get (sanitize_train t) "dates") with (sanitizeArray (get t "dates")).
  destruct (sanitizeArray_array (get t "dates")) as (dates & E & Hall).
  rewrite E. repeat split; [exact Hall| |eauto].
  intros k i. cbn [sanitize_train get lookup].
  split_keys; try apply sanitizeArray_index; now unfold not_null.
Qed.

Lemma clean_sanitize_test t : clean_sub (sanitize_test t).
Proof.
  unfold clean_sub, sub_dates.
  change (truthy (sanitize_test t)) with true.
  change (get (sanitize_test t) "dates") with (sanitizeArray (get t "dates")).
  destruct (sanitizeArray_array (get t "dates")) as (dates & E & Hall).
  rewrite E. repeat split; [exact Hall| |eauto].
  intros k i. cbn [sanitize_test get lookup].
  split_keys; try apply sanitizeArray_index; now unfold not_null.
Qed.

Lemma clean_sanitize_forecast t : clean_sub (sanitize_forecast t).
Proof.
  unfold clean_sub, sub_dates.
  change (truthy (sanitize_forecast t)) with true.
  change (get (sanitize_forecast t) "dates") with (sanitizeArray (get t "dates")).
  destruct (sanitizeArray_array (get t "dates")) as (dates & E & Hall).
  rewrite E. repeat split; [exact Hall| |eauto].
  intros k i. cbn [sanitize_forecast get lookup].
  split_keys; try apply sanitizeArray_index; now unfold not_null.
Qed.

(** Each sub-series of a sanitized bundle is clean. *)
Lemma sanitized_clean (data : value) :
  clean_sub (get (sanitizeForecastData data) "train")
  /\ clean_sub (get (sanitizeForecastData data) "test")
  /\ clean_sub (get (sanitizeForecastData data) "forecast").
Proof.
  unfold sanitizeForecastData.
  destruct (truthy data); cbn [negb get];
    [|split; [|split]; now apply clean_falsy].
  set (p0 := spread data).
  set (p1 := sanitize_field "train" sanitize_train p0).
  set (p2 := sanitize_field "test" sanitize_test p1).
  set (p3 := sanitize_field "forecast" sanitize_forecast p2).
  assert (Etrain : lookup "train" p3
                   = if truthy (lookup "train" p0)
                     then sanitize_train (lookup "train" p0)
                     else lookup "train" p0).
  { unfold p3, p2.
    rewrite !lookup_sanitize_field_other by discriminate.
    apply lookup_sanitize_field_same. }
  assert (Etest : lookup "test" p3
                  = if truthy (lookup "test" p1)
                    then sanitize_test (lookup "test" p1)
                    else lookup "test" p1).
  { unfold p3.
    rewrite lookup_sanitize_field_other by discriminate.
    apply lookup_sanitize_field_same. }
  assert (Efore : lookup "forecast" p3
                  = if truthy (lookup "forecast" p2)
                    then sanitize_forecast (lookup "forecast" p2)
                    else lookup "forecast" p2)
    by apply lookup_sanitize_field_same.
  rewrite Etrain, Etest, Efore.
  split; [|split].
  - destruct (truthy (lookup "train" p0)) eqn:T;
      [apply clean_sanitize_train|now apply clean_falsy].
  - destruct (truthy (lookup "test" p1)) eqn:T;
      [apply clean_sanitize_test|now apply clean_falsy].
  - destruct (truthy (lookup "forecast" p2)) eqn:T;
      [apply clean_sanitize_forecast|now apply clean_falsy].
Qed.

Lemma zip_rows_clean sub row :
  clean_sub sub -> zip_rows sub row = Some (rows_of row sub).
Proof.
  intros (_ & _ & Harr). destruct (truthy sub) eqn:T.
  - destruct (Harr eq_refl) as (dates & D). exact (zip_rows_array sub row dates T D).
  - now apply zip_rows_falsy.
Qed.

(** The merge of a sanitized bundle never throws. *)
Lemma merge_sanitized (data : value) :
  let forecastData := sanitizeForecastData data in
  merge forecastData
  = Some (rows_of train_row (get forecastData "train")
          ++ rows_of test_row (get forecastData "test")
          ++ rows_of future_row (get forecastData "forecast")).
Proof.
  destruct (sanitized_clean data) as (C1 & C2 & C3).
  cbv zeta. unfold merge.
  now rewrite (zip_rows_clean _ _ C1), (zip_rows_clean _ _ C2),
    (zip_rows_clean _ _ C3).
Qed.

Lemma clean_row_fields sub row r k :
  row = train_row \/ row = test_row \/ row = future_row ->
  clean_sub sub -> In r (rows_of row sub) -> not_null (get r k).
Proof.
  intros Hrow (Hdates & Hidx & _) Hin.
  apply In_rows_of in Hin. destruct Hin as (i & Hi & ->).
  assert (Hd : not_null (nth i (sub_dates sub) VUndefined)).
  { rewrite Forall_forall in Hdates. apply Hdates. now apply nth_In. }
  destruct Hrow as [-> | [-> | ->]];
    cbn [train_row test_row future_row get lookup];
    split_keys; try apply Hidx; try exact Hd; now unfold not_null.
Qed.
Lemma sanitizeArray_length (arr : value) :
  array_length (sanitizeArray arr) = array_length arr.
Proof.
  destruct arr as [| |b|n|s|items|props]; try reflexivity.
  cbn [sanitizeArray array_length]. apply length_map.
Qed.

(** The properties of a sanitized object, key by key. *)
Lemma sanitized_lookup (props : list (string * value)) (k : string) :
  lookup k
    (sanitize_field "forecast" sanitize_forecast
       (sanitize_field "test" sanitize_test
          (sanitize_field "train" sanitize_train props)))
  = if truthy (lookup k props) then
      if k =? "train" then sanitize_train (lookup k props)
      else if k =? "test" then sanitize_test (lookup k props)
      else if k =? "forecast" then sanitize_forecast (lookup k props)
      else lookup k props
    else lookup k props.
Proof.
  destruct (String.eqb_spec k "train") as [->|Ntrain].
  - rewrite !lookup_sanitize_field_other by discriminate.
    apply lookup_sanitize_field_same.
  - destruct (String.eqb_spec k "test") as [->|Ntest].
    + rewrite lookup_sanitize_field_other by discriminate.
      rewrite lookup_sanitize_field_same.
      now rewrite lookup_sanitize_field_other by discriminate.
    + destruct (String.eqb_spec k "forecast") as [->|Nfore].
      * rewrite lookup_sanitize_field_same.
        now rewrite !lookup_sanitize_field_other by discriminate.
      * rewrite !lookup_sanitize_field_other by congruence.
        now destruct (truthy (lookup k props)).
Qed.
Lemma opt_index_sanitizeArray (arr : value) (i : nat) :
  opt_index (sanitizeArray arr) i = entry arr i.
Proof.
  destruct arr as [| |b|n|s|items|props]; try (now destruct i).
  cbn [sanitizeArray opt_index entry]. unfold absent_for_null.
  exact (map_nth (fun val => if is_null val then VUndefined else val)
           items VUndefined i).
Qed.

Lemma nth_sub_dates (sub : value) (i : nat) :
  truthy sub = true -> (exists dates, get sub "dates" = VArr dates) ->
  nth i (sub_dates sub) VUndefined = opt_index (get sub "dates") i.
Proof.
  intros T (dates & D). unfold sub_dates. now rewrite T, D.
Qed.

Lemma rows_of_seq row sub :
  rows_of row sub
  = map (fun i => row sub (nth i (sub_dates sub) VUndefined) i)
        (seq 0 (List.length (sub_dates sub))).
Proof.
  apply (nth_ext _ _ VUndefined VUndefined).
  - now rewrite rows_of_length, length_map, length_seq.
  - intros i Hi. rewrite rows_of_length in Hi.
    rewrite rows_of_nth by exact Hi.
    set (g := fun i => row sub (nth i (sub_dates sub) VUndefined) i).
    rewrite (nth_indep (map g (seq 0 (List.length (sub_dates sub))))
               VUndefined (g 0%nat))
      by (rewrite length_map, length_seq; exact Hi).
    rewrite (map_nth g), seq_nth by exact Hi. reflexivity.
Qed.

Lemma rows_of_falsy row sub : truthy sub = false -> rows_of row sub = [].
Proof. intros T. unfold rows_of, sub_dates. now rewrite T. Qed.

Lemma sub_dates_length (sub t : value) :
  truthy sub = true -> truthy t = true ->
  get sub "dates" = sanitizeArray (get t "dates") ->
  List.length (sub_dates sub) = dates_count t.
Proof.
  intros Ts Tt D. unfold sub_dates, dates_count. rewrite Ts, Tt, D.
  rewrite <- sanitizeArray_length.
  now destruct (sanitizeArray_array (get t "dates")) as (dates & -> & _).
Qed.

Lemma nth_sub_dates_entry (sub t : value) (i : nat) :
  truthy sub = true ->
  get sub "dates" = sanitizeArray (get t "dates") ->
  nth i (sub_dates sub) VUndefined = entry (get t "dates") i.
Proof.
  intros Ts D. rewrite nth_sub_dates; [|exact Ts|].
  - rewrite D. apply opt_index_sanitizeArray.
  - rewrite D. destruct (sanitizeArray_array (get t "dates")) as (d & E & _).
    now exists d.
Qed.

(** The rows of a sanitized sub-series are the rows asked of the raw one. *)
Lemma train_rows_sanitized t :
  truthy t = true -> rows_of train_row (sanitize_train t) = train_rows t.
Proof.
  intros T. rewrite rows_of_seq.
  rewrite (sub_dates_length (sanitize_train t) t eq_refl T eq_refl).
  unfold train_rows. apply map_ext. intros i.
  rewrite (nth_sub_dates_entry (sanitize_train t) t i eq_refl eq_refl).
  unfold train_row.
  change (get (sanitize_train t) "actual") with (sanitizeArray (get t "actual")).
  change (get (sanitize_train t) "fitted") with (sanitizeArray (get t "fitted")).
  change (get (sanitize_train t) "lower") with (sanitizeArray (get t "lower")).
  change (get (sanitize_train t) "upper") with (sanitizeArray (get t "upper")).
  now rewrite !opt_index_sanitizeArray.
Qed.

Lemma test_rows_sanitized t :
  truthy t = true -> rows_of test_row (sanitize_test t) = test_rows t.
Proof.
  intros T. rewrite rows_of_seq.
  rewrite (sub_dates_length (sanitize_test t) t eq_refl T eq_refl).
  unfold test_rows. apply map_ext. intros i.
  rewrite (nth_sub_dates_entry (sanitize_test t) t i eq_refl eq_refl).
  unfold test_row.
  change (get (sanitize_test t) "actual") with (sanitizeArray (get t "actual")).
  change (get (sanitize_test t) "predicted")
    with (sanitizeArray (get t "predicted")).
  change (get (sanitize_test t) "lower") with (sanitizeArray (get t "lower")).
  change (get (sanitize_test t) "upper") with (sanitizeArray (get t "upper")).
  now rewrite !opt_index_sanitizeArray.
Qed.

Lemma future_rows_sanitized t :
  truthy t = true -> rows_of future_row (sanitize_forecast t) = future_rows t.
Proof.
  intros T. rewrite rows_of_seq.
  rewrite (sub_dates_length (sanitize_forecast t) t eq_refl T eq_refl).
  unfold future_rows. apply map_ext. intros i.
  rewrite (nth_sub_dates_entry (sanitize_forecast t) t i eq_refl eq_refl).
  unfold future_row.
  change (get (sanitize_forecast t) "predicted")
    with (sanitizeArray (get t "predicted")).
  change (get (sanitize_forecast t) "lower")
    with (sanitizeArray (get t "lower")).
  change (get (sanitize_forecast t) "upper")
    with (sanitizeArray (get t "upper")).
  now rewrite !opt_index_sanitizeArray.
Qed.

Lemma rows_falsy_raw (rows : value -> list value) (t : value) :
  rows = train_rows \/ rows = test_rows \/ rows = future_rows ->
  truthy t = false -> rows t = [].
Proof.
  intros [-> | [-> | ->]] T; unfold train_rows, test_rows, future_rows,
    dates_count; now rewrite T.
Qed.

(** The merge of a sanitized object, sub-series by sub-series. *)
Lemma merge_sanitized_rows (props : list (string * value)) :
  merge (sanitizeForecastData (VObj props))
  = Some (train_rows (lookup "train" props)
          ++ test_rows (lookup "test" props)
          ++ future_rows (lookup "forecast" props)).
Proof.
  pose proof (merge_sanitized (VObj props)) as M. cbv zeta in M.
  rewrite M. clear M. f_equal.
  change (get (sanitizeForecastData (VObj props)) ?k)
    with (lookup k (sanitize_field "forecast" sanitize_forecast
                      (sanitize_field "test" sanitize_test
                         (sanitize_field "train" sanitize_train props)))).
  rewrite !sanitized_lookup.
  cbn [String.eqb Ascii.eqb Bool.eqb].
  f_equal; [|f_equal].
  - destruct (truthy (lookup "train" props)) eqn:T.
    + now apply train_rows_sanitized.
    + rewrite rows_of_falsy by exact T. symmetry.
      apply (rows_falsy_raw train_rows); tauto.
  - destruct (truthy (lookup "test" props)) eqn:T.
    + now apply test_rows_sanitized.
    + rewrite rows_of_falsy by exact T. symmetry.
      apply (rows_falsy_raw test_rows); tauto.
  - destruct (truthy (lookup "forecast" props)) eqn:T.
    + now apply future_rows_sanitized.
    + rewrite rows_of_falsy by exact T. symmetry.
      apply (rows_falsy_raw future_rows); tauto.
Qed.
End Sanitized.

(** ** prepareChartData *)

Section Prepare.
Import ForecastView.

Lemma In_filterByMode mode l r : In r (filterByMode mode l) -> In r l.
Proof.
  unfold filterByMode. rewrite !in_app_iff.
  intros [H|[H|H]];
    match type of H with
    | In _ (if ?b then _ else _) => destruct b
    end; try contradiction; now apply filter_In in H.
Qed.

Lemma prepare_some Date_time forecastData mode chartData :
  truthy forecastData = true -> merge forecastData = Some chartData ->
  prepareChartData Date_time forecastData mode
  = sort (compare_fecha Date_time) (filterByMode mode chartData).
Proof.
  intros T M. unfold prepareChartData. now rewrite T, M.
Qed.

Lemma In_prepare Date_time forecastData mode r :
  In r (prepareChartData Date_time forecastData mode) ->
  exists chartData, merge forecastData = Some chartData /\ In r chartData.
Proof.
  unfold prepareChartData.
  destruct (truthy forecastData); [|contradiction].
  destruct (merge forecastData) as [chartData|]; [|contradiction].
  cbn [negb]. intros Hin. exists chartData. split; [reflexivity|].
  apply sort_In in Hin. now apply In_filterByMode in Hin.
Qed.
End Prepare.

(** C1, as stated, fails on the order of the two rows: the rows are sorted
    by date, so when [d1] is later than [d2] the row of [d2], whose [actual]
    is absent, comes first, and the second row has [actual] 10 and [fitted]
    9. *)
Lemma later_first_date_swaps_rows :
  map (fun row => (get row "fecha", get row "actual", get row "fitted"))
      (ForecastView.prepareChartData DateIso.Date_iso
         (ForecastView.sanitizeForecastData (bundle_two "2021-02" "2021-01"))
         "all")
  = [ (VStr "2021-01", VUndefined, num 11); (VStr "2021-02", num 10, num 9) ].
Proof. vm_compute. reflexivity. Qed.

(** C1, amended.  Merging a sanitized bundle reads every entry of every
    array of the three sub-series with [null] replaced by absent: the merge
    is, sub-series by sub-series, one row per entry of [dates], each field
    holding the entry of its array at that index, absent where the entry is
    [null] or missing; no field of any row that [prepareChartData] makes of
    a sanitized bundle is [null].  The bundle with [train.dates = [d1,d2]],
    [train.actual = [10,null]], [train.fitted = [9,11]] merges to exactly
    two rows tagged ['train'], the one of [d2] with [actual] undefined and
    [fitted] 11; [prepareChartData] yields these two rows, the one of [d2]
    second unless both dates parse and [d1] is the later. *)
Theorem sanitize_then_merge (Date_time : value -> option Z) :
  (forall props,
      ForecastView.merge (ForecastView.sanitizeForecastData (VObj props))
      = Some (train_rows (lookup "train" props)
              ++ test_rows (lookup "test" props)
              ++ future_rows (lookup "forecast" props)))
  /\ (forall props mode,
         Permutation
           (ForecastView.prepareChartData Date_time
              (ForecastView.sanitizeForecastData (VObj props)) mode)
           (ForecastView.filterByMode mode
              (train_rows (lookup "train" props)
               ++ test_rows (lookup "test" props)
               ++ future_rows (lookup "forecast" props))))
  /\ (forall data mode row k,
         In row (ForecastView.prepareChartData Date_time
                   (ForecastView.sanitizeForecastData data) mode) ->
         get row k <> VNull)
  /\ (forall d1 d2,
         ForecastView.merge
           (ForecastView.sanitizeForecastData (bundle_two d1 d2))
         = Some (rows_two d1 d2)
         /\ ForecastView.prepareChartData Date_time
              (ForecastView.sanitizeForecastData (bundle_two d1 d2)) "all"
            = if later Date_time (VStr d1) (VStr d2)
              then rev (rows_two d1 d2) else rows_two d1 d2).
Proof.
  assert (Hmerge : forall d1 d2,
             ForecastView.merge
               (ForecastView.sanitizeForecastData (bundle_two d1 d2))
             = Some (rows_two d1 d2))
    by (intros; vm_compute; reflexivity).
  split; [|split; [|split]].
  - exact merge_sanitized_rows.
  - intros props mode.
    assert (T : truthy (ForecastView.sanitizeForecastData (VObj props)) = true)
      by reflexivity.
    rewrite (prepare_some Date_time _ mode _ T (merge_sanitized_rows props)).
    apply sort_perm.
  - intros data mode row k Hin.
    apply In_prepare in Hin. destruct Hin as (chartData & M & Hin).
    rewrite merge_sanitized in M. injection M as <-.
    destruct (sanitized_clean data) as (C1 & C2 & C3).
    rewrite !in_app_iff in Hin. destruct Hin as [Hin|[Hin|Hin]].
    + apply (clean_row_fields _ ForecastView.train_row row k) in C1; auto.
    + apply (clean_row_fields _ ForecastView.test_row row k) in C2; auto.
    + apply (clean_row_fields _ ForecastView.future_row row k) in C3; auto.
  - intros d1 d2. split; [apply Hmerge|].
    unfold ForecastView.prepareChartData. rewrite Hmerge.
    change (truthy (ForecastView.sanitizeForecastData (bundle_two d1 d2)))
      with true.
    cbn [negb]. unfold rows_two.
    change (ForecastView.filterByMode "all" ?l) with l.
    cbn [sort sort_insert rev app].
    unfold SortCompare, ForecastView.compare_fecha, later.
    change (get (VObj (("fecha", VStr d1) :: ?r)) "fecha") with (VStr d1).
    change (get (VObj (("fecha", VStr d2) :: ?r)) "fecha") with (VStr d2).
    destruct (Date_time (VStr d1)) as [t1|]; [|reflexivity].
    destruct (Date_time (VStr d2)) as [t2|]; [|reflexivity].
    destruct (Z.leb_spec (t1 - t2) 0), (Z.ltb_spec t2 t1);
      try reflexivity; lia.
Qed.

(** C1 on a bundle with a [null] in an array of each sub-series, and on the
    round trip, with the host that reads ISO dates. *)
Lemma sanitize_then_merge_witness :
  map (fun row => (get row "actual", get row "validation_predicted",
                   get row "upper", get row "type"))
    (ForecastView.prepareChartData DateIso.Date_iso
       (ForecastView.sanitizeForecastData bundle_three) "all")
  = [ (VUndefined, VUndefined, VUndefined, VStr "train");
      (num 7, VUndefined, VUndefined, VStr "test");
      (VUndefined, VUndefined, VUndefined, VStr "future") ]
  /\ map (fun row => (get row "actual", get row "fitted", get row "type"))
       (ForecastView.prepareChartData DateIso.Date_iso
          (ForecastView.sanitizeForecastData (bundle_two "2021-01" "2021-02"))
          "all")
     = [ (num 10, num 9, VStr "train"); (VUndefined, num 11, VStr "train") ].
Proof.
  split; [vm_compute; reflexivity|].
  rewrite (proj2 (proj2 (proj2 (proj2 (sanitize_then_merge DateIso.Date_iso)))
                    "2021-01" "2021-02")).
  reflexivity.
Defined.

(** ** The mode filter *)

Section Filter.
Import ForecastView.

Lemma filter_true {A : Type} (p : A -> bool) (l : list A) :
  (forall x, In x l -> p x = true) -> filter p l = l.
Proof.
  induction l as [|x l IH]; intros H; simpl; [reflexivity|].
  rewrite (H x (or_introl eq_refl)). f_equal. apply IH. intros; apply H; now right.
Qed.

Lemma filter_false {A : Type} (p : A -> bool) (l : list A) :
  (forall x, In x l -> p x = false) -> filter p l = [].
Proof.
  induction l as [|x l IH]; intros H; simpl; [reflexivity|].
  rewrite (H x (or_introl eq_refl)). apply IH. intros; apply H; now right.
Qed.

Lemma of_type_unique a b d :
  of_type a d = true -> of_type b d = true -> a = b.
Proof.
  unfold of_type, str_eq. destruct (get d "type"); try discriminate.
  intros Ha Hb. apply String.eqb_eq in Ha, Hb. congruence.
Qed.

Lemma filter_of_type_twice a b l :
  filter (of_type a) (filter (of_type b) l)
  = if a =? b then filter (of_type a) l else [].
Proof.
  destruct (String.eqb_spec a b) as [->|N].
  - induction l as [|x l IH]; simpl; [reflexivity|].
    destruct (of_type b x) eqn:E; simpl; [rewrite E; now f_equal|exact IH].
  - apply filter_false. intros x Hx. apply filter_In in Hx.
    destruct (of_type a x) eqn:E; [|reflexivity].
    exfalso. apply N. now apply of_type_unique with x.
Qed.

Lemma filterByMode_idempotent mode l :
  filterByMode mode (filterByMode mode l) = filterByMode mode l.
Proof.
  unfold filterByMode.
  destruct ((mode =? "all") || (mode =? "train"));
    destruct ((mode =? "all") || (mode =? "test"));
    destruct ((mode =? "all") || (mode =? "future"));
    rewrite ?filter_app, ?filter_of_type_twice; cbn [String.eqb Ascii.eqb Bool.eqb];
    cbn [filter app]; rewrite ?app_nil_r; reflexivity.
Qed.

Lemma rows_train_type sub r :
  In r (rows_of train_row sub) -> get r "type" = VStr "train".
Proof. intros H. apply In_rows_of in H. now destruct H as (i & _ & ->). Qed.

Lemma rows_test_type sub r :
  In r (rows_of test_row sub) -> get r "type" = VStr "test".
Proof. intros H. apply In_rows_of in H. now destruct H as (i & _ & ->). Qed.

Lemma rows_future_type sub r :
  In r (rows_of future_row sub) -> get r "type" = VStr "future".
Proof. intros H. apply In_rows_of in H. now destruct H as (i & _ & ->). Qed.

Lemma filter_typed (t t' : string) (l : list value) :
  (forall r, In r l -> get r "type" = VStr t') ->
  filter (of_type t) l = if t' =? t then l else [].
Proof.
  intros H. destruct (t' =? t) eqn:E.
  - apply filter_true. intros r Hr. unfold of_type. now rewrite (H r Hr).
  - apply filter_false. intros r Hr. unfold of_type. now rewrite (H r Hr).
Qed.

(** On the rows of a merge the three filters cut the sequence where the
    sub-series meet. *)
Lemma filterByMode_merged mode tr te fu :
  filterByMode mode (rows_of train_row tr ++ rows_of test_row te
                     ++ rows_of future_row fu)
  = (if (mode =? "all") || (mode =? "train") then rows_of train_row tr else [])
    ++ (if (mode =? "all") || (mode =? "test") then rows_of test_row te else [])
    ++ (if (mode =? "all") || (mode =? "future") then rows_of future_row fu else []).
Proof.
  unfold filterByMode. rewrite !filter_app.
  rewrite !(filter_typed _ "train" (rows_of train_row tr))
    by apply rows_train_type.
  rewrite !(filter_typed _ "test" (rows_of test_row te))
    by apply rows_test_type.
  rewrite !(filter_typed _ "future" (rows_of future_row fu))
    by apply rows_future_type.
  cbn [String.eqb Ascii.eqb Bool.eqb app]. now rewrite !app_nil_r.
Qed.

Lemma filterByMode_all_merge forecastData chartData :
  merge forecastData = Some chartData -> filterByMode "all" chartData = chartData.
Proof.
  intros M. rewrite (merge_some _ _ M). now rewrite filterByMode_merged.
Qed.
End Filter.

(** C4.  For each of the four modes: [prepareChartData] filters the merged
    rows and sorts what the filter keeps; mode ['all'] keeps every tagged
    row (and all of a merge); any other mode keeps exactly the rows whose
    [type] is the mode; and filtering twice is filtering once. *)
Theorem mode_filter (mode : string) :
  In mode modes ->
  (forall Date_time forecastData chartData,
      truthy forecastData = true ->
      ForecastView.merge forecastData = Some chartData ->
      ForecastView.prepareChartData Date_time forecastData mode
      = sort (ForecastView.compare_fecha Date_time)
          (ForecastView.filterByMode mode chartData))
  /\ (mode = "all" ->
      (forall l row,
          In row (ForecastView.filterByMode mode l)
          <-> In row l /\ tagged row = true)
      /\ (forall forecastData chartData,
             ForecastView.merge forecastData = Some chartData ->
             ForecastView.filterByMode mode chartData = chartData))
  /\ (mode <> "all" ->
      forall l,
        ForecastView.filterByMode mode l
        = filter (ForecastView.of_type mode) l)
  /\ (forall l,
         ForecastView.filterByMode mode (ForecastView.filterByMode mode l)
         = ForecastView.filterByMode mode l).
Proof.
  intros Hmode. split; [|split; [|split]].
  - intros. now apply prepare_some.
  - intros ->. split.
    + intros l row. unfold ForecastView.filterByMode, tagged.
      cbn [String.eqb Ascii.eqb Bool.eqb orb].
      rewrite !in_app_iff, !filter_In, !orb_true_iff. tauto.
    + apply filterByMode_all_merge.
  - intros N l.
    destruct Hmode as [<-|[<-|[<-|[<-|[]]]]]; [congruence| | |];
      unfold ForecastView.filterByMode;
      cbn [String.eqb Ascii.eqb Bool.eqb orb app]; now rewrite ?app_nil_r.
  - apply filterByMode_idempotent.
Qed.

(** C4 at mode ['train'], on two rows of which one is a training row. *)
Lemma mode_filter_witness :
  In "train" modes
  /\ ForecastView.filterByMode "train"
       (ForecastView.filterByMode "train"
          [VObj [("type", VStr "test")]; VObj [("type", VStr "train")]])
     = [VObj [("type", VStr "train")]].
Proof.
  assert (H : In "train" modes) by (simpl; tauto).
  split; [exact H|].
  rewrite (proj2 (proj2 (proj2 (mode_filter "train" H)))).
  reflexivity.
Defined.

(** C2.  Whatever the mode, a row tagged ['test'] carries
    [test.predicted[i]] as [validation_predicted] and has [predicted]
    undefined, a row tagged ['future'] carries [forecast.predicted[i]] as
    [predicted] and has [validation_predicted] undefined; in mode ['all']
    the output is a rearrangement of one row per training date, one per
    test date and one per forecast date, so a test date and a forecast date
    that coincide give two rows, neither overwriting the other. *)
Theorem predicted_fields_kept_apart (Date_time : value -> option Z) :
  (forall forecastData mode row,
      In row (ForecastView.prepareChartData Date_time forecastData mode) ->
      let test := get forecastData "test" in
      let forecast := get forecastData "forecast" in
      (get row "type" = VStr "test" ->
       get row "predicted" = VUndefined
       /\ exists i, (i < List.length (sub_dates test))%nat
                    /\ get row "fecha" = nth i (sub_dates test) VUndefined
                    /\ get row "validation_predicted"
                       = opt_index (get test "predicted") i)
      /\ (get row "type" = VStr "future" ->
          get row "validation_predicted" = VUndefined
          /\ exists i, (i < List.length (sub_dates forecast))%nat
                       /\ get row "fecha" = nth i (sub_dates forecast) VUndefined
                       /\ get row "predicted"
                          = opt_index (get forecast "predicted") i))
  /\ (forall forecastData chartData,
         truthy forecastData = true ->
         ForecastView.merge forecastData = Some chartData ->
         let train := get forecastData "train" in
         let test := get forecastData "test" in
         let forecast := get forecastData "forecast" in
         Permutation
           (ForecastView.prepareChartData Date_time forecastData "all")
           chartData
         /\ List.length chartData
            = (List.length (sub_dates train) + List.length (sub_dates test)
               + List.length (sub_dates forecast))%nat
         /\ (forall i, (i < List.length (sub_dates test))%nat ->
                       nth (List.length (sub_dates train) + i) chartData VUndefined
                       = ForecastView.test_row test
                           (nth i (sub_dates test) VUndefined) i)
         /\ (forall i, (i < List.length (sub_dates forecast))%nat ->
                       nth (List.length (sub_dates train)
                            + List.length (sub_dates test) + i)
                         chartData VUndefined
                       = ForecastView.future_row forecast
                           (nth i (sub_dates forecast) VUndefined) i))
  /\ (forall d : string,
         ForecastView.prepareChartData Date_time
           (ForecastView.sanitizeForecastData (bundle_coinciding d)) "all"
         = rows_coinciding d).
Proof.
  split; [|split].
  - intros forecastData mode row Hin test forecast.
    apply In_prepare in Hin. destruct Hin as (chartData & M & Hin).
    rewrite (merge_some _ _ M), !in_app_iff in Hin.
    destruct Hin as [Hin|[Hin|Hin]].
    + apply rows_train_type in Hin. rewrite Hin. split; discriminate.
    + split; [|apply rows_test_type in Hin; rewrite Hin; discriminate].
      intros _. apply In_rows_of in Hin. destruct Hin as (i & Hi & ->).
      split; [reflexivity|]. exists i. now repeat split.
    + split; [apply rows_future_type in Hin; rewrite Hin; discriminate|].
      intros _. apply In_rows_of in Hin. destruct Hin as (i & Hi & ->).
      split; [reflexivity|]. exists i. now repeat split.
  - intros forecastData chartData T M train test forecast.
    rewrite (prepare_some _ _ _ _ T M).
    pose proof (merge_some _ _ M) as E. fold train test forecast in E.
    split; [|split; [|split]].
    + rewrite sort_perm. now rewrite (filterByMode_all_merge _ _ M).
    + subst chartData. now rewrite !length_app, !rows_of_length, Nat.add_assoc.
    + intros i Hi. subst chartData.
      rewrite app_nth2 by (rewrite rows_of_length; lia).
      rewrite rows_of_length.
      replace (List.length (sub_dates train) + i - List.length (sub_dates train))%nat
        with i by lia.
      rewrite app_nth1 by now rewrite rows_of_length.
      now apply rows_of_nth.
    + intros i Hi. subst chartData.
      rewrite app_nth2 by (rewrite rows_of_length; lia).
      rewrite app_nth2 by (rewrite !rows_of_length; lia).
      rewrite !rows_of_length.
      replace (List.length (sub_dates train) + List.length (sub_dates test) + i
               - List.length (sub_dates train) - List.length (sub_dates test))%nat
        with i by lia.
      now apply rows_of_nth.
  - intros d. unfold ForecastView.prepareChartData, rows_coinciding.
    match goal with
    | |- context [ForecastView.merge ?fd] =>
        let m := eval vm_compute in (ForecastView.merge fd) in
        change (ForecastView.merge fd) with m;
        change (truthy fd) with true
    end.
    cbn [negb].
    change (ForecastView.filterByMode "all" ?l) with l.
    cbn [sort sort_insert].
    unfold SortCompare, ForecastView.compare_fecha.
    change (get (VObj (("fecha", VStr d) :: ?r)) "fecha") with (VStr d).
    destruct (Date_time (VStr d)) as [t|]; [|reflexivity].
    rewrite Z.sub_diag. reflexivity.
Qed.

(** C2 on the coinciding date 2021-06. *)
Lemma predicted_fields_kept_apart_witness :
  truthy (ForecastView.sanitizeForecastData (bundle_coinciding "2021-06")) = true
  /\ ForecastView.merge
       (ForecastView.sanitizeForecastData (bundle_coinciding "2021-06"))
     = Some (rows_coinciding "2021-06")
  /\ Permutation
       (ForecastView.prepareChartData DateIso.Date_iso
          (ForecastView.sanitizeForecastData (bundle_coinciding "2021-06"))
          "all")
       (rows_coinciding "2021-06").
Proof.
  split; [reflexivity|split; [reflexivity|]].
  exact (proj1 (proj1 (proj2 (predicted_fields_kept_apart DateIso.Date_iso))
                  (ForecastView.sanitizeForecastData (bundle_coinciding "2021-06"))
                  (rows_coinciding "2021-06") eq_refl eq_refl)).
Defined.

(** ** The zip and the lengths of the arrays *)

(** C5, as stated, fails: with [actual] one entry shorter than [dates] the
    zip still makes a row for each of the two dates, reading [actual] at
    index 1, past its end, where the read yields [undefined]. *)
Lemma zip_runs_past_shorter_array :
  shortest_array short_actual ["actual"; "fitted"; "lower"; "upper"] = 1%nat
  /\ List.length
       (ForecastView.prepareChartData DateIso.Date_iso
          (ForecastView.sanitizeForecastData (VObj [("train", short_actual)]))
          "all") = 2%nat
  /\ map (fun row => get row "actual")
       (ForecastView.prepareChartData DateIso.Date_iso
          (ForecastView.sanitizeForecastData (VObj [("train", short_actual)]))
          "all") = [num 10; VUndefined].
Proof. repeat split; vm_compute; reflexivity. Qed.

(** C5, amended.  The zip of a sub-series runs over [dates] alone: it makes
    exactly one row per date, whatever the lengths of the value arrays; a
    read of a value array at an index past its end yields [undefined], a
    read within it yields the entry, and entries beyond [dates.length] are
    never read. *)
Theorem zip_follows_dates (sub : value) (dates : list value) :
  truthy sub = true -> get sub "dates" = VArr dates ->
  (forall row, exists rows,
      ForecastView.zip_rows sub row = Some rows
      /\ List.length rows = List.length dates
      /\ forall i, (i < List.length dates)%nat ->
                   nth i rows VUndefined = row sub (nth i dates VUndefined) i)
  /\ (forall k i,
         In k ["actual"; "fitted"; "lower"; "upper"] ->
         get (ForecastView.train_row sub (nth i dates VUndefined) i) k
         = opt_index (get sub k) i)
  /\ (forall k i,
         In k ["actual"; "lower"; "upper"] ->
         get (ForecastView.test_row sub (nth i dates VUndefined) i) k
         = opt_index (get sub k) i)
  /\ (forall k i,
         In k ["predicted"; "lower"; "upper"] ->
         get (ForecastView.future_row sub (nth i dates VUndefined) i) k
         = opt_index (get sub k) i)
  /\ (forall k items i,
         get sub k = VArr items ->
         opt_index (get sub k) i
         = if (i <? List.length items)%nat then nth i items VUndefined
           else VUndefined).
Proof.
  intros T D.
  assert (E : sub_dates sub = dates) by (unfold sub_dates; now rewrite T, D).
  split; [|split; [|split; [|split]]].
  - intros row. exists (rows_of row sub).
    split; [exact (zip_rows_array sub row dates T D)|].
    split; [now rewrite rows_of_length, E|].
    intros i Hi. rewrite <- E in Hi |- *. now apply rows_of_nth.
  - intros k i Hk. simpl in Hk.
    destruct Hk as [<-|[<-|[<-|[<-|[]]]]]; reflexivity.
  - intros k i Hk. simpl in Hk.
    destruct Hk as [<-|[<-|[<-|[]]]]; reflexivity.
  - intros k i Hk. simpl in Hk.
    destruct Hk as [<-|[<-|[<-|[]]]]; reflexivity.
  - intros k items i ->. cbn [opt_index].
    destruct (Nat.ltb_spec i (List.length items)) as [Hi|Hi]; [reflexivity|].
    now apply nth_overflow.
Qed.

(** C5 on the sub-series whose [actual] is one entry short. *)
Lemma zip_follows_dates_witness :
  truthy short_actual = true
  /\ get short_actual "dates" = VArr [VStr "2021-01"; VStr "2021-02"]
  /\ exists rows,
       ForecastView.zip_rows short_actual ForecastView.train_row = Some rows
       /\ List.length rows = 2%nat
       /\ forall i, (i < 2)%nat ->
                    nth i rows VUndefined
                    = ForecastView.train_row short_actual
                        (nth i [VStr "2021-01"; VStr "2021-02"] VUndefined) i.
Proof.
  split; [reflexivity|split; [reflexivity|]].
  exact (proj1 (zip_follows_dates short_actual
                  [VStr "2021-01"; VStr "2021-02"] eq_refl eq_refl)
           ForecastView.train_row).
Defined.

(** ** The sort by date *)

Section SortByDate.
Import ForecastView.
Variable Date_time : value -> option Z.

Abbreviation cmp := (SortCompare (compare_fecha Date_time)).

Lemma compare_fecha_unparseable a b :
  Date_time (get a "fecha") = None \/ Date_time (get b "fecha") = None ->
  cmp a b = 0%Z.
Proof.
  unfold SortCompare, compare_fecha.
  intros [-> | ->]; [reflexivity|].
  now destruct (Date_time (get a "fecha")).
Qed.

Lemma compare_fecha_asym a b : (0 < cmp a b)%Z -> (cmp b a <= 0)%Z.
Proof.
  unfold SortCompare, compare_fecha.
  destruct (Date_time (get a "fecha")), (Date_time (get b "fecha")); lia.
Qed.

Lemma StronglySorted_among {A : Type} (R R' : A -> A -> Prop) (l : list A) :
  (forall a b, In a l -> In b l -> R a b -> R' a b) ->
  StronglySorted R l -> StronglySorted R' l.
Proof.
  intros HR H. induction H as [|x l Hl IH Hall]; constructor.
  - apply IH. intros a b Ha Hb. apply HR; now right.
  - rewrite Forall_forall in *. intros y Hy.
    apply HR; [now left|now right|now apply Hall].
Qed.

Lemma keyed_parsed (l : list value) :
  Forall (parses Date_time) l ->
  keyed (compare_fecha Date_time) (time_or_zero Date_time) l.
Proof.
  intros Hall x y Hx Hy. rewrite Forall_forall in Hall.
  pose proof (Hall x Hx) as Px. pose proof (Hall y Hy) as Py.
  unfold parses in Px, Py.
  unfold SortCompare, compare_fecha, time_or_zero.
  destruct (Date_time (get x "fecha")), (Date_time (get y "fecha"));
    congruence.
Qed.

(** When every date parses the result ascends by date throughout. *)
Lemma sort_fecha_by_date (l : list value) :
  Forall (parses Date_time) l ->
  StronglySorted (date_le Date_time) (sort (compare_fecha Date_time) l).
Proof.
  intros Hall.
  apply StronglySorted_among with (R := key_le (time_or_zero Date_time)).
  - rewrite Forall_forall in Hall. intros a b Ha Hb.
    apply sort_In in Ha. apply sort_In in Hb.
    pose proof (Hall a Ha) as Pa. pose proof (Hall b Hb) as Pb.
    unfold parses in Pa, Pb. unfold key_le, time_or_zero, date_le.
    destruct (Date_time (get a "fecha")), (Date_time (get b "fecha"));
      congruence.
  - apply sort_keyed_sorted. now apply keyed_parsed.
Qed.

(** When every date parses, the rows of one date keep their order. *)
Lemma sort_fecha_stable (l : list value) (t : Z) :
  Forall (parses Date_time) l ->
  filter (dated Date_time t) (sort (compare_fecha Date_time) l)
  = filter (dated Date_time t) l.
Proof.
  intros Hall.
  pose proof (sort_stable (compare_fecha Date_time) (time_or_zero Date_time)
                t l (keyed_parsed l Hall)) as S.
  assert (E : forall l', Forall (parses Date_time) l' ->
                filter (dated Date_time t) l'
                = filter (fun y => (time_or_zero Date_time y =? t)%Z) l').
  { intros l' Hl. apply filter_ext_in. intros r Hr.
    rewrite Forall_forall in Hl. pose proof (Hl r Hr) as P.
    unfold parses in P. unfold dated, time_or_zero.
    now destruct (Date_time (get r "fecha")). }
  rewrite (E l Hall), <- S. apply E.
  rewrite Forall_forall in *. intros r Hr. apply Hall.
  now apply (sort_In (compare_fecha Date_time) l).
Qed.

(** When no date parses the rows stay as they are. *)
Lemma sort_fecha_none_parses (l : list value) :
  forallb (unparseable Date_time) l = true ->
  sort (compare_fecha Date_time) l = l.
Proof.
  intros Hall. apply sort_in_order_fixed.
  induction l as [|x l IH]; [constructor|].
  cbn [forallb] in Hall. apply andb_true_iff in Hall.
  destruct Hall as (Hx & Hl). constructor; [now apply IH|].
  destruct l as [|y l]; constructor.
  unfold in_order. rewrite compare_fecha_unparseable; [lia|].
  left. unfold unparseable in Hx. now destruct (Date_time (get x "fecha")).
Qed.

End SortByDate.

(** C3, as stated, fails: a row whose date does not parse compares as
    equal to both its neighbours, so the rows around it are left as they
    are.  With the dates 2021-03, [null], 2021-01 the row of March stays
    ahead of the row of January. *)
Lemma unparseable_date_breaks_order :
  map (fun row => get row "fecha")
      (ForecastView.prepareChartData DateIso.Date_iso
         (ForecastView.sanitizeForecastData bundle_with_gap) "all")
  = [VStr "2021-03"; VUndefined; VStr "2021-01"]
  /\ later DateIso.Date_iso (VStr "2021-03") (VStr "2021-01") = true.
Proof. split; vm_compute; reflexivity. Qed.

(** C3, amended.  The comparator of the sort is the difference of the
    parsed dates, and counts as equal as soon as one of the two dates does
    not parse; nothing is raised.  When the date of every kept row parses,
    the output of [prepareChartData] is the kept rows rearranged to ascend
    by date, the rows of one date keeping their order; when no date parses
    the rows stay in the order of the merge.  The dates 2021-03, 2021-01,
    2021-02 of a single sub-series come out as 2021-01, 2021-02,
    2021-03. *)
Theorem sorted_by_fecha :
  (forall Date_time a b,
      Date_time (get a "fecha") = None \/ Date_time (get b "fecha") = None ->
      SortCompare (ForecastView.compare_fecha Date_time) a b = 0%Z)
  /\ (forall Date_time forecastData mode chartData,
         truthy forecastData = true ->
         ForecastView.merge forecastData = Some chartData ->
         let kept := ForecastView.filterByMode mode chartData in
         let out := ForecastView.prepareChartData Date_time forecastData mode in
         (Forall (parses Date_time) kept ->
          Permutation out kept
          /\ StronglySorted (date_le Date_time) out
          /\ forall t, filter (dated Date_time t) out
                       = filter (dated Date_time t) kept)
         /\ (forallb (unparseable Date_time) kept = true -> out = kept))
  /\ map (fun row => get row "fecha")
       (ForecastView.prepareChartData DateIso.Date_iso
          (ForecastView.sanitizeForecastData bundle_unsorted) "all")
     = [VStr "2021-01"; VStr "2021-02"; VStr "2021-03"].
Proof.
  split; [|split].
  - intros. now apply compare_fecha_unparseable.
  - intros Date_time forecastData mode chartData T M kept out.
    subst out kept. rewrite (prepare_some _ _ _ _ T M). split.
    + intros Hall. split; [apply sort_perm|].
      split; [now apply sort_fecha_by_date|].
      intros t. now apply sort_fecha_stable.
    + apply sort_fecha_none_parses.
  - vm_compute. reflexivity.
Qed.

(** C3 on the three dates out of order. *)
Lemma sorted_by_fecha_witness :
  truthy (ForecastView.sanitizeForecastData bundle_unsorted) = true
  /\ ForecastView.merge (ForecastView.sanitizeForecastData bundle_unsorted)
     = Some (rows_of ForecastView.train_row
               (get (ForecastView.sanitizeForecastData bundle_unsorted) "train"))
  /\ Forall (parses DateIso.Date_iso)
       (ForecastView.filterByMode "all"
          (rows_of ForecastView.train_row
             (get (ForecastView.sanitizeForecastData bundle_unsorted) "train")))
  /\ StronglySorted (date_le DateIso.Date_iso)
       (ForecastView.prepareChartData DateIso.Date_iso
          (ForecastView.sanitizeForecastData bundle_unsorted) "all").
Proof.
  assert (P : Forall (parses DateIso.Date_iso)
                (ForecastView.filterByMode "all"
                   (rows_of ForecastView.train_row
                      (get (ForecastView.sanitizeForecastData bundle_unsorted)
                           "train"))))
    by (repeat constructor; vm_compute; discriminate).
  split; [reflexivity|split; [reflexivity|split; [exact P|]]].
  exact (proj1 (proj2 (proj1 (proj1 (proj2 sorted_by_fecha)
                                DateIso.Date_iso
                                (ForecastView.sanitizeForecastData bundle_unsorted)
                                "all" _ eq_refl eq_refl) P))).
Defined.

(** ** The API client *)

Section ApiFacts.
Import Api.
Variable network : string -> fetched.
Variable ToString_host : value -> string.
Variable TypeError_message : string -> string.

Abbreviation handle := (handleResponse ToString_host TypeError_message).

(** Handling a response issues no request. *)
Lemma handleResponse_log response log : snd (handle response log) = log.
Proof.
  unfold handleResponse, try_catch, bind, read, throw, ret.
  destruct (ok response); cbn [negb].
  - now destruct (json response).
  - destruct (json response) as [errorData|]; [|reflexivity].
    now destruct errorData.
Qed.

Lemma handleResponse_not_ok response log :
  ok response = false -> exists message, handle response log = (inl message, log).
Proof.
  intros E. unfold handleResponse, try_catch, bind, read, throw, ret.
  rewrite E. cbn [negb].
  destruct (json response) as [errorData|]; [|eauto].
  destruct errorData; eauto.
Qed.

Lemma handleResponse_ok response log :
  ok response = true ->
  handle response log
  = (match json response with
     | Some data => inr data
     | None => inl "La respuesta del servidor tiene un formato inválido"
     end, log).
Proof.
  intros E. unfold handleResponse, throw, ret. rewrite E. cbn [negb].
  now destruct (json response).
Qed.

Lemma getTimeSeries_log linea estacion log :
  truthy linea = true -> truthy estacion = true ->
  snd (getTimeSeries network ToString_host TypeError_message linea estacion log)
  = log ++ [timeseries_url (ToString ToString_host linea)
                     (ToString ToString_host estacion)].
Proof.
  intros Tl Te. unfold getTimeSeries. rewrite Tl, Te. cbn [negb orb].
  unfold try_catch, bind, fetch.
  destruct (network _) as [message|response]; [reflexivity|].
  pose proof (handleResponse_log response
                (log ++ [timeseries_url (ToString ToString_host linea)
                                  (ToString ToString_host estacion)]))
    as H.
  destruct (handle response _) as [[message|data] log']; cbn [snd] in H;
    subst log'; [reflexivity|].
  unfold read, throw, ret.
  destruct data; try reflexivity;
    match goal with
    | |- context [if ?b then _ else _] => destruct b
    end; reflexivity.
Qed.

Lemma getForecast_log linea estacion log :
  truthy linea = true -> truthy estacion = true ->
  snd (getForecast network ToString_host TypeError_message linea estacion log)
  = log ++ [forecast_url (ToString ToString_host linea)
                     (ToString ToString_host estacion)].
Proof.
  intros Tl Te. unfold getForecast. rewrite Tl, Te. cbn [negb orb].
  unfold try_catch, bind, fetch.
  destruct (network _) as [message|response]; [reflexivity|].
  pose proof (handleResponse_log response
                (log ++ [forecast_url (ToString ToString_host linea)
                                  (ToString ToString_host estacion)]))
    as H.
  destruct (handle response _) as [[message|data] log']; cbn [snd] in H;
    subst log'; [reflexivity|].
  unfold read, throw, ret.
  destruct data; try reflexivity;
    match goal with
    | |- context [if ?b then _ else _] => destruct b
    end; reflexivity.
Qed.

Lemma nat_of_ascii_bound (c : ascii) : (nat_of_ascii c < 256)%nat.
Proof.
  destruct c as [[] [] [] [] [] [] [] []]; vm_compute; lia.
Qed.

Lemma hex_digit_unreserved (n : nat) :
  (n < 16)%nat -> unreserved (hex_digit n) = true.
Proof.
  intros H. do 16 (destruct n as [|n]; [reflexivity|]). lia.
Qed.

Lemma encodeURIComponent_safe (s : string) :
  Forall url_safe (list_ascii_of_string (encodeURIComponent s)).
Proof.
  induction s as [|c s IH]; [constructor|].
  cbn [encodeURIComponent]. destruct (unreserved c) eqn:U.
  - cbn [append list_ascii_of_string]. constructor; [now left|exact IH].
  - unfold percent_escape. cbn [append list_ascii_of_string].
    pose proof (nat_of_ascii_bound c) as B.
    constructor; [now right|].
    constructor; [left; apply hex_digit_unreserved;
                  apply Nat.Div0.div_lt_upper_bound; lia|].
    constructor; [left; apply hex_digit_unreserved;
                  apply Nat.mod_upper_bound; lia|].
    exact IH.
Qed.
End ApiFacts.

(** C6.  When [linea] or [estacion] is empty or missing (falsy),
    [getTimeSeries] and [getForecast] throw their validation error with the
    log of requests untouched; when both are non-empty strings, each call
    issues exactly one request, to the path holding both values
    percent-encoded: every character of an encoded value is unreserved or
    belongs to a [%XX] escape. *)
Theorem selection_checked_before_fetch
  (network : string -> Api.fetched) (ToString_host : value -> string)
  (TypeError_message : string -> string) :
  (forall linea estacion log,
      empty_or_missing linea \/ empty_or_missing estacion ->
      Api.getTimeSeries network ToString_host TypeError_message linea estacion log
      = (inl "Se requiere especificar línea y estación", log)
      /\ Api.getForecast network ToString_host TypeError_message linea estacion log
         = (inl "Se requiere especificar línea y estación", log))
  /\ (forall linea estacion log,
         linea <> "" -> estacion <> "" ->
         snd (Api.getTimeSeries network ToString_host TypeError_message
                (VStr linea) (VStr estacion) log)
         = log ++ [timeseries_url linea estacion]
         /\ snd (Api.getForecast network ToString_host TypeError_message
                   (VStr linea) (VStr estacion) log)
            = log ++ [forecast_url linea estacion])
  /\ (forall s, Forall url_safe (list_ascii_of_string (Api.encodeURIComponent s)))
  /\ timeseries_url "Línea 1" "Pantitlán"
     = "http://localhost:8000/api/timeseries/L%C3%ADnea%201/Pantitl%C3%A1n".
Proof.
  split; [|split; [|split]].
  - intros linea estacion log H.
    assert (F : negb (truthy linea) || negb (truthy estacion) = true).
    { apply orb_true_iff.
      destruct H as [[-> | [-> | ->]] | [-> | [-> | ->]]]; auto. }
    unfold Api.getTimeSeries, Api.getForecast. now rewrite F.
  - intros linea estacion log Hl He.
    assert (Tl : truthy (VStr linea) = true)
      by (cbn; now apply negb_true_iff, String.eqb_neq).
    assert (Te : truthy (VStr estacion) = true)
      by (cbn; now apply negb_true_iff, String.eqb_neq).
    split.
    + exact (getTimeSeries_log network ToString_host TypeError_message
               (VStr linea) (VStr estacion) log Tl Te).
    + exact (getForecast_log network ToString_host TypeError_message
               (VStr linea) (VStr estacion) log Tl Te).
  - apply encodeURIComponent_safe.
  - vm_compute. reflexivity.
Qed.

(** C6 on a missing station, and on line 1 and Pantitlán. *)
Lemma selection_checked_before_fetch_witness :
  (empty_or_missing (VStr "Línea 1") \/ empty_or_missing VUndefined)
  /\ "Línea 1" <> "" /\ "Pantitlán" <> ""
  /\ Api.getTimeSeries (server_of (ok_with VNull)) ToString_example
       TypeError_example (VStr "Línea 1") VUndefined []
     = (inl "Se requiere especificar línea y estación", [])
  /\ snd (Api.getTimeSeries (server_of (ok_with VNull)) ToString_example
            TypeError_example (VStr "Línea 1") (VStr "Pantitlán") [])
     = [timeseries_url "Línea 1" "Pantitlán"].
Proof.
  assert (H1 : empty_or_missing (VStr "Línea 1") \/ empty_or_missing VUndefined)
    by (right; right; left; reflexivity).
  assert (H2 : "Línea 1" <> "") by discriminate.
  assert (H3 : "Pantitlán" <> "") by discriminate.
  repeat (split; [assumption|]).
  split.
  - exact (proj1 (proj1 (selection_checked_before_fetch
                           (server_of (ok_with VNull)) ToString_example
                           TypeError_example)
                    (VStr "Línea 1") VUndefined [] H1)).
  - exact (proj1 (proj1 (proj2 (selection_checked_before_fetch
                                  (server_of (ok_with VNull)) ToString_example
                                  TypeError_example))
                    "Línea 1" "Pantitlán" [] H2 H3)).
Defined.

(** C7, as stated, fails: a body that is an array is returned without any
    look at its elements, so [[5]], which is no sequence of stations, is a
    result and not an error. *)
Lemma getStations_accepts_any_array :
  sequence_of_Station (VArr [num 5]) = false
  /\ Api.getStations (server_of (ok_with (VArr [num 5]))) ToString_example
       TypeError_example []
     = (inr (VArr [num 5]), ["http://localhost:8000/api/stations"]).
Proof. split; reflexivity. Qed.

(** C7, amended.  [getStations] issues one request and fails with an error
    when the request is rejected, when the HTTP status is not successful,
    when the body does not parse as JSON, or when the parsed body is not an
    array; a parsed body that is an array is returned as it is, its
    elements not inspected, the empty array included. *)
Theorem getStations_outcomes
  (network : string -> Api.fetched) (ToString_host : value -> string)
  (TypeError_message : string -> string) (log : list string) :
  let url := stations_url in
  let result := Api.getStations network ToString_host TypeError_message log in
  snd result = log ++ [url]
  /\ (forall message,
         network url = Api.Rejected message ->
         fst result
         = inl ("No se pudieron obtener las estaciones: " ++ message)%string)
  /\ (forall response,
         network url = Api.Resolved response ->
         (Api.ok response = false -> exists message, fst result = inl message)
         /\ (Api.ok response = true -> Api.json response = None ->
             fst result
             = inl ("No se pudieron obtener las estaciones: "
                    ++ "La respuesta del servidor tiene un formato inválido")%string)
         /\ (forall data,
                Api.ok response = true -> Api.json response = Some data ->
                isArray data = false ->
                fst result
                = inl ("No se pudieron obtener las estaciones: "
                       ++ "El servidor devolvió un formato de datos inesperado")%string)
         /\ (forall items,
                Api.ok response = true ->
                Api.json response = Some (VArr items) ->
                fst result = inr (VArr items))).
Proof.
  intros url result. subst result.
  unfold Api.getStations, Api.try_catch, Api.bind, Api.fetch.
  change (Api.API_BASE_URL ++ "/stations")%string with url.
  destruct (network url) as [message|response] eqn:N.
  - split; [reflexivity|]. split; [|discriminate].
    intros m [= <-]. reflexivity.
  - split.
    + pose proof (handleResponse_log ToString_host TypeError_message
                    response (log ++ [url])) as H.
      destruct (Api.handleResponse _ _ response _) as [[m|data] log'];
        cbn [snd] in H; subst log'; [reflexivity|].
      now destruct (isArray data).
    + split; [discriminate|].
      intros r [= <-]. split; [|split; [|split]].
      * intros E.
        destruct (handleResponse_not_ok ToString_host TypeError_message
                    response (log ++ [url]) E) as (m & ->).
        unfold Api.throw. cbn [fst]. eauto.
      * intros E J.
        rewrite (handleResponse_ok ToString_host TypeError_message
                   response (log ++ [url]) E), J.
        reflexivity.
      * intros data E J A.
        rewrite (handleResponse_ok ToString_host TypeError_message
                   response (log ++ [url]) E), J.
        cbn [fst snd]. now rewrite A.
      * intros items E J.
        rewrite (handleResponse_ok ToString_host TypeError_message
                   response (log ++ [url]) E), J.
        reflexivity.
Qed.

(** C7 on a server that answers with the empty array. *)
Lemma getStations_outcomes_witness :
  server_of (ok_with (VArr [])) stations_url
  = Api.Resolved (ok_with (VArr []))
  /\ Api.ok (ok_with (VArr [])) = true
  /\ Api.json (ok_with (VArr [])) = Some (VArr [])
  /\ fst (Api.getStations (server_of (ok_with (VArr []))) ToString_example
            TypeError_example [])
     = inr (VArr []).
Proof.
  repeat (split; [reflexivity|]).
  exact (proj2 (proj2 (proj2
           (proj2 (proj2 (getStations_outcomes
                            (server_of (ok_with (VArr []))) ToString_example
                            TypeError_example []))
              (ok_with (VArr [])) eq_refl)))
           [] eq_refl eq_refl).
Defined.

(** ** The forecast button *)

Section ClickFacts.
Import ForecastView.
Variable network : string -> Api.fetched.
Variable ToString_host : value -> string.
Variable TypeError_message : string -> string.
Variables linea estacion : value.

Abbreviation click :=
  (handleForecastClick network ToString_host TypeError_message linea estacion).

Lemma click_mode (s : State) (log : list string) :
  mode (fst (click s log)) = mode s.
Proof.
  unfold handleForecastClick.
  destruct (truthy (forecastData s)); [reflexivity|].
  now destruct (Api.getForecast _ _ _ _ _ _) as [[message|data] log'].
Qed.

Lemma click_loaded (s : State) (log : list string) :
  truthy (forecastData s) = true ->
  click s log = (setForecastData VNull s, log).
Proof.
  intros T. unfold handleForecastClick. now rewrite T.
Qed.
End ClickFacts.

(** C10.  A click while a forecast is loaded sets [forecastData] to [null]
    and nothing else: [loading], [error] and [mode] stay, and the log of
    requests is untouched.  No click changes the mode, so after hiding a
    forecast and generating it again the mode chosen before still applies;
    the second click is the one that fetches. *)
Theorem hide_keeps_mode
  (network : string -> Api.fetched) (ToString_host : value -> string)
  (TypeError_message : string -> string) (linea estacion : value)
  (s : ForecastView.State) (log : list string) :
  truthy (ForecastView.forecastData s) = true ->
  let click := ForecastView.handleForecastClick network ToString_host
                 TypeError_message linea estacion in
  click s log
  = ({| ForecastView.forecastData := VNull;
        ForecastView.loading := ForecastView.loading s;
        ForecastView.error := ForecastView.error s;
        ForecastView.mode := ForecastView.mode s |}, log)
  /\ ForecastView.mode (fst (click (fst (click s log)) (snd (click s log))))
     = ForecastView.mode s
  /\ (truthy linea = true -> truthy estacion = true ->
      snd (click (fst (click s log)) (snd (click s log)))
      = log ++ [forecast_url (Api.ToString ToString_host linea)
                             (Api.ToString ToString_host estacion)]).
Proof.
  intros T click. subst click.
  rewrite (click_loaded _ _ _ _ _ s log T). cbn [fst snd].
  split; [reflexivity|]. split.
  - now rewrite click_mode.
  - intros Tl Te. unfold ForecastView.handleForecastClick.
    cbn [ForecastView.setForecastData ForecastView.forecastData truthy].
    pose proof (getForecast_log network ToString_host TypeError_message
                  linea estacion log Tl Te) as H.
    now destruct (Api.getForecast _ _ _ _ _ _) as [[message|data] log'].
Qed.

(** C10 on a forecast shown in mode ['future']: hidden and generated again,
    it is still in mode ['future']. *)
Lemma hide_keeps_mode_witness :
  truthy (ForecastView.forecastData shown_future) = true
  /\ ForecastView.mode
       (fst (ForecastView.handleForecastClick
               (server_of (ok_with (VObj [("forecast", VObj [])])))
               ToString_example TypeError_example
               (VStr "Línea 1") (VStr "Pantitlán")
               (fst (ForecastView.handleForecastClick
                       (server_of (ok_with (VObj [("forecast", VObj [])])))
                       ToString_example TypeError_example
                       (VStr "Línea 1") (VStr "Pantitlán") shown_future []))
               (snd (ForecastView.handleForecastClick
                       (server_of (ok_with (VObj [("forecast", VObj [])])))
                       ToString_example TypeError_example
                       (VStr "Línea 1") (VStr "Pantitlán") shown_future []))))
     = "future".
Proof.
  split; [reflexivity|].
  exact (proj1 (proj2 (hide_keeps_mode
                         (server_of (ok_with (VObj [("forecast", VObj [])])))
                         ToString_example TypeError_example
                         (VStr "Línea 1") (VStr "Pantitlán")
                         shown_future [] eq_refl))).
Defined.

(** ** The station selector *)

Section SelectorFacts.
Import StationSelector.

Lemma Set_values_In (l : list string) (x : string) :
  In x (Set_values l) <-> In x l.
Proof.
  induction l as [|y l IH]; simpl; [tauto|].
  rewrite filter_In, IH, negb_true_iff, String.eqb_neq.
  destruct (string_dec y x) as [->|N]; [tauto|].
  split; [tauto|]. intros [E|H]; [contradiction|]. right. split; [assumption|congruence].
Qed.

Lemma NoDup_filter {A : Type} (p : A -> bool) (l : list A) :
  NoDup l -> NoDup (filter p l).
Proof.
  induction 1 as [|x l Hx Hl IH]; simpl; [constructor|].
  destruct (p x); [|exact IH].
  constructor; [|exact IH]. rewrite filter_In. tauto.
Qed.

Lemma Set_values_NoDup (l : list string) : NoDup (Set_values l).
Proof.
  induction l as [|y l IH]; simpl; constructor.
  - rewrite filter_In, negb_true_iff, String.eqb_neq. tauto.
  - now apply NoDup_filter.
Qed.

Lemma compare_units_antisym (x y : list N) :
  compare_units y x = CompOpp (compare_units x y).
Proof.
  revert y. induction x as [|a x IH]; intros [|b y]; try reflexivity.
  cbn [compare_units]. rewrite (N.compare_antisym a b).
  destruct (a ?= b)%N; cbn [CompOpp]; [apply IH|reflexivity..].
Qed.

Lemma compare_units_trans (x y z : list N) :
  compare_units x y <> Gt -> compare_units y z <> Gt ->
  compare_units x z <> Gt.
Proof.
  revert y z. induction x as [|a x IH]; intros [|b y] [|c z];
    cbn [compare_units]; try congruence.
  destruct (N.compare_spec a b) as [->|L|G]; [| |congruence].
  - destruct (N.compare_spec b c) as [->|L'|G'];
      [apply IH|congruence|congruence].
  - intros _. destruct (N.compare_spec b c) as [->|L'|G'];
      [| |congruence]; intros _.
    + destruct (N.compare_spec a c); [lia|congruence|lia].
    + destruct (N.compare_spec a c); [lia|congruence|lia].
Qed.

(** Comparing keys unit by unit never contradicts itself. *)
Lemma collate_consistent (key : string -> list N) : consistent (collate key).
Proof.
  unfold collate. split.
  - intros a b H. rewrite (compare_units_antisym (key a) (key b)).
    destruct (compare_units (key a) (key b)); cbn [CompOpp]; lia.
  - intros a b c Hab Hbc.
    assert (Nab : compare_units (key a) (key b) <> Gt)
      by (destruct (compare_units (key a) (key b)); [discriminate..|lia]).
    assert (Nbc : compare_units (key b) (key c) <> Gt)
      by (destruct (compare_units (key b) (key c)); [discriminate..|lia]).
    pose proof (compare_units_trans _ _ _ Nab Nbc).
    destruct (compare_units (key a) (key c)); [lia..|congruence].
Qed.

Lemma default_compare_collate (x y : string) :
  SortCompare default_compare x y = collate code_units x y.
Proof.
  unfold SortCompare, default_compare, collate.
  now destruct (compare_units (code_units x) (code_units y)).
Qed.

(** With a consistent comparator the result of the sort is ascending
    throughout. *)
Lemma sort_consistent {A : Type} (comparefn : A -> A -> option Z) (l : list A) :
  (forall x y, (0 < SortCompare comparefn x y)%Z ->
               (SortCompare comparefn y x <= 0)%Z) ->
  (forall x y z, in_order comparefn x y -> in_order comparefn y z ->
                 in_order comparefn x z) ->
  StronglySorted (in_order comparefn) (sort comparefn l).
Proof.
  intros Hasym Htrans. apply Sorted_StronglySorted.
  - exact Htrans.
  - now apply sort_sorted.
Qed.

Lemma StronglySorted_impl {A : Type} (R R' : A -> A -> Prop) (l : list A) :
  (forall a b, R a b -> R' a b) ->
  StronglySorted R l -> StronglySorted R' l.
Proof.
  intros HR. induction 1 as [|x l Hl IH Hall]; constructor; [exact IH|].
  rewrite Forall_forall in *. intros y Hy. now apply HR, Hall.
Qed.

Lemma lines_sorted (stations : list Station) :
  StronglySorted units_le (lines stations).
Proof.
  unfold lines. destruct stations as [|s stations]; [constructor|].
  apply StronglySorted_impl with (R := in_order default_compare).
  - unfold in_order, units_le. intros a b. rewrite default_compare_collate.
    unfold collate.
    destruct (compare_units (code_units a) (code_units b));
      [discriminate|discriminate|lia].
  - destruct (collate_consistent code_units) as (Hasym & Htrans).
    apply sort_consistent.
    + intros x y. rewrite !default_compare_collate. apply Hasym.
    + unfold in_order. intros x y z. rewrite !default_compare_collate.
      apply Htrans.
Qed.

Lemma lines_In (stations : list Station) (x : string) :
  In x (lines stations) <-> exists s, In s stations /\ linea s = x.
Proof.
  unfold lines. destruct stations as [|s stations].
  - simpl. split; [contradiction|]. now intros (? & [] & _).
  - rewrite sort_In, Set_values_In, in_map_iff.
    split; intros (s' & H1 & H2); exists s'; tauto.
Qed.

Lemma lines_NoDup (stations : list Station) : NoDup (lines stations).
Proof.
  unfold lines. destruct stations as [|s stations]; [constructor|].
  eapply Permutation_NoDup; [symmetry; apply sort_perm|].
  apply Set_values_NoDup.
Qed.
End SelectorFacts.

(** C8, as stated, fails: the stations of a line are ordered by the
    host's [localeCompare], not by the raw strings.  A host that collates as
    a dictionary puts [Universidad] before [UVM], which the order of the raw
    strings puts second. *)
Lemma stations_in_dictionary_order :
  map StationSelector.estacion
      (StationSelector.stationsForLine dictionary_collation "Línea 3"
         word_and_acronym)
  = ["Universidad"; "UVM"]
  /\ StationSelector.compare_units (StationSelector.code_units "UVM")
       (StationSelector.code_units "Universidad") = Lt.
Proof. split; reflexivity. Qed.

(** C8, amended.  The line list is made of the distinct [linea] values of
    the stations, each once, ascending in the order of the code units of
    the raw strings.  For a selected line, the candidate stations are the
    stations whose [linea] equals it, rearranged to ascend by [estacion] in
    the collation of the host's [localeCompare], whatever that collation
    is. *)
Theorem station_lists (localeCompare : string -> string -> Z)
  (stations : list StationSelector.Station) :
  consistent localeCompare ->
  (NoDup (StationSelector.lines stations)
   /\ StronglySorted units_le (StationSelector.lines stations)
   /\ forall x, In x (StationSelector.lines stations)
                <-> exists s, In s stations /\ StationSelector.linea s = x)
  /\ (forall selectedLine,
         selectedLine <> "" ->
         let candidates :=
           StationSelector.stationsForLine localeCompare selectedLine stations in
         Permutation candidates
           (filter (fun s => StationSelector.linea s =? selectedLine) stations)
         /\ (forall s, In s candidates
                       <-> In s stations /\ StationSelector.linea s = selectedLine)
         /\ StronglySorted (estacion_le localeCompare) candidates).
Proof.
  intros (Hasym & Htrans). split.
  - split; [apply lines_NoDup|]. split; [apply lines_sorted|apply lines_In].
  - intros selectedLine N candidates. subst candidates.
    unfold StationSelector.stationsForLine.
    apply String.eqb_neq in N. rewrite N.
    split; [apply sort_perm|]. split.
    + intros s. rewrite sort_In, filter_In, String.eqb_eq. tauto.
    + apply (sort_consistent (StationSelector.compare_estacion localeCompare)).
      * intros x y. apply Hasym.
      * intros x y z. apply Htrans.
Qed.

(** C8 on three stations of two lines, under the dictionary collation; and
    the line list of two symbols, the one outside the basic plane first. *)
Lemma station_lists_witness :
  consistent dictionary_collation
  /\ "Línea 2" <> ""
  /\ StationSelector.lines three_stations = ["Línea 1"; "Línea 2"]
  /\ StationSelector.lines two_symbols = ["😀"; "～"]
  /\ StationSelector.stationsForLine dictionary_collation "Línea 2"
       three_stations
     = [ {| StationSelector.linea := "Línea 2";
            StationSelector.estacion := "Allende" |};
         {| StationSelector.linea := "Línea 2";
            StationSelector.estacion := "Zócalo" |} ]
  /\ StronglySorted (estacion_le dictionary_collation)
       (StationSelector.stationsForLine dictionary_collation "Línea 2"
          three_stations).
Proof.
  split; [exact (collate_consistent dictionary_key)|].
  split; [discriminate|].
  split; [reflexivity|]. split; [reflexivity|]. split; [reflexivity|].
  assert (N : "Línea 2" <> "") by discriminate.
  exact (proj2 (proj2 (proj2 (station_lists dictionary_collation three_stations
                                (collate_consistent dictionary_key))
                         "Línea 2" N))).
Defined.

(** ** Doubles

    The rounding of the arithmetic: it leaves a double as it is, a whole
    number below 2^53 is a double, and the quotient of two whole numbers
    below 2^52 rounds, as a double, to the integer that the exact quotient
    rounds to. *)

Section Doubles.
Import TimeSeriesChart.
Local Open Scope Z_scope.














End Doubles.

(** ** The statistics of the time series chart *)

Section ChartFacts.
Import TimeSeriesChart.
Variable ToNumber_host : value -> number.
Variable concat_host : value -> value -> value.
Variable Intl_format : number -> string.

Abbreviation Or := TimeSeriesChart.or.
Abbreviation Plus := (plus ToNumber_host concat_host).

Lemma valid_has_value (data : list value) (item : value) :
  In item (validData data) ->
  get item "afluencia" <> VUndefined \/ get item "mean" <> VUndefined.
Proof.
  unfold validData. rewrite filter_In. intros (_ & H).
  apply andb_true_iff in H. destruct H as (_ & H).
  apply orb_true_iff in H.
  destruct H as [H|H]; [left|right]; intros E; rewrite E in H; discriminate.
Qed.

Lemma truthy_nonzero (q : Q) : ~ q == 0 -> truthy (VNum (Fin q)) = true.
Proof.
  intros N. cbn. apply negb_true_iff, Z.eqb_neq. intros E. apply N.
  unfold Qeq. simpl. lia.
Qed.

Lemma or_primary (item : value) :
  numeric_point item ->
  get item "afluencia" <> VUndefined \/ get item "mean" <> VUndefined ->
  Or (get item "afluencia") (get item "mean") = VNum (Fin (primary_value item)).
Proof.
  intros (Ha & Hm & _) Hv. unfold TimeSeriesChart.or, primary_value.
  destruct Ha as [Ea | (a & -> & Na)].
  - rewrite Ea. cbn [truthy].
    destruct Hm as [Em | (m & -> & _)]; [|reflexivity].
    destruct Hv as [Hv|Hv]; contradiction.
  - now rewrite truthy_nonzero.
Qed.



(** The running sum of the reduce is a number. *)
Lemma reduce_number (items : list value) :
  (forall item, In item items ->
                numeric_point item
                /\ (get item "afluencia" <> VUndefined
                    \/ get item "mean" <> VUndefined)) ->
  forall n, exists n',
    fold_left (fun sum item =>
                 Plus sum (Or (get item "afluencia") (get item "mean")))
              items (VNum n) = VNum n'.
Proof.
  induction items as [|item items IH]; intros H n.
  - now exists n.
  - destruct (H item (or_introl eq_refl)) as (Hp & Hv).
    cbn [fold_left]. rewrite (or_primary item Hp Hv).
    unfold plus at 2. cbn [primitive_number andb ToNumber].
    apply IH. intros i Hi. apply H. now right.
Qed.












End ChartFacts.




(** The arithmetic is that of doubles: 1.4, 2.8 and 3.3 add up to
    7.499999999999999, and their mean is shown as 2, where the exact mean
    2.5 would be shown as 3. *)
Lemma mean_in_doubles :
  TimeSeriesChart.formatNumber ToNumber_example Intl_example
    (TimeSeriesChart.promedio ToNumber_example concat_example
       [ VObj [ ("fecha", VStr "2021-01"); ("afluencia", VNum (Fin (14 # 10))) ];
         VObj [ ("fecha", VStr "2021-02"); ("afluencia", VNum (Fin (28 # 10))) ];
         VObj [ ("fecha", VStr "2021-03"); ("afluencia", VNum (Fin (33 # 10))) ] ])
  = "2".
Proof. vm_compute. reflexivity. Qed.

(** * Further properties of the code *)

(** ** The API client: messages and results *)

Section ApiMore.
Import Api.
Variable network : string -> fetched.
Variable ToString_host : value -> string.
Variable TypeError_message : string -> string.

Lemma prefix_append (p m : string) : String.prefix p (p ++ m) = true.
Proof.
  induction p as [|c p IH]; simpl; [now destruct m|].
  destruct (ascii_dec c c); [exact IH|contradiction].
Qed.

Lemma catch_rethrow_prefix {A : Type} (body : M A) (p : string)
  (log : list string) (m : string) :
  fst (try_catch body (fun message => throw (p ++ message)) log) = inl m ->
  String.prefix p m = true.
Proof.
  unfold try_catch, throw.
  destruct (body log) as [[m0|a] log']; cbn [fst]; [|discriminate].
  intros [= <-]. apply prefix_append.
Qed.

Lemma getTimeSeries_resolved linea estacion log response :
  truthy linea = true -> truthy estacion = true ->
  network (timeseries_url (ToString ToString_host linea)
             (ToString ToString_host estacion)) = Resolved response ->
  ok response = true ->
  getTimeSeries network ToString_host TypeError_message linea estacion log
  = (match json response with
     | None =>
         inl (timeseries_prefix
              ++ "La respuesta del servidor tiene un formato inválido")%string
     | Some VNull | Some VUndefined =>
         inl (timeseries_prefix ++ TypeError_message "data")%string
     | Some data =>
         if isArray (get data "data") then inr data
         else inl (timeseries_prefix
                   ++ "El formato de los datos recibidos es inválido")%string
     end,
     log ++ [timeseries_url (ToString ToString_host linea)
               (ToString ToString_host estacion)]).
Proof.
  intros Tl Te N E. unfold getTimeSeries. rewrite Tl, Te. cbn [negb orb].
  unfold try_catch, bind, fetch.
  change (API_BASE_URL ++ "/timeseries/"
          ++ encodeURIComponent (ToString ToString_host linea) ++ "/"
          ++ encodeURIComponent (ToString ToString_host estacion))%string
    with (timeseries_url (ToString ToString_host linea)
            (ToString ToString_host estacion)).
  rewrite N.
  rewrite (handleResponse_ok ToString_host TypeError_message response _ E).
  destruct (json response) as [data|]; [|reflexivity].
  unfold read, throw, ret.
  destruct data as [| |b|n|str|items|props]; try reflexivity;
    cbn [get];
    match goal with
    | |- context [isArray ?v] => destruct v as [| |b'|n'|str'|items'|props']
    | _ => idtac
    end; cbn [isArray negb]; rewrite ?orb_true_r, ?orb_false_r;
    reflexivity.
Qed.

Lemma getForecast_resolved linea estacion log response :
  truthy linea = true -> truthy estacion = true ->
  network (forecast_url (ToString ToString_host linea)
             (ToString ToString_host estacion)) = Resolved response ->
  ok response = true ->
  getForecast network ToString_host TypeError_message linea estacion log
  = (match json response with
     | None =>
         inl (forecast_prefix
              ++ "La respuesta del servidor tiene un formato inválido")%string
     | Some VNull | Some VUndefined =>
         inl (forecast_prefix ++ TypeError_message "forecast")%string
     | Some data =>
         if truthy (get data "forecast") then inr (get data "forecast")
         else inl (forecast_prefix
                   ++ "El formato del pronóstico recibido es inválido")%string
     end,
     log ++ [forecast_url (ToString ToString_host linea)
               (ToString ToString_host estacion)]).
Proof.
  intros Tl Te N E. unfold getForecast. rewrite Tl, Te. cbn [negb orb].
  unfold try_catch, bind, fetch.
  change (API_BASE_URL ++ "/forecast/"
          ++ encodeURIComponent (ToString ToString_host linea) ++ "/"
          ++ encodeURIComponent (ToString ToString_host estacion))%string
    with (forecast_url (ToString ToString_host linea)
            (ToString ToString_host estacion)).
  rewrite N.
  rewrite (handleResponse_ok ToString_host TypeError_message response _ E).
  destruct (json response) as [data|]; [|reflexivity].
  unfold read, throw, ret.
  destruct data as [| |b|n|str|items|props]; try reflexivity;
    cbn [get]; try reflexivity;
    destruct (truthy (lookup "forecast" props)); reflexivity.
Qed.

(** What [getForecast] returns is truthy. *)
Lemma getForecast_truthy linea estacion log data log' :
  getForecast network ToString_host TypeError_message linea estacion log
  = (inr data, log') -> truthy data = true.
Proof.
  unfold getForecast.
  destruct (negb (truthy linea) || negb (truthy estacion)); [discriminate|].
  unfold try_catch, bind, fetch.
  destruct (network _) as [m|response]; [discriminate|].
  destruct (handleResponse _ _ response _) as [[m|body] log0]; [discriminate|].
  unfold read, throw, ret.
  destruct body as [| |b|n|str|items|props]; try discriminate; cbn [get];
    try discriminate.
  destruct (truthy (lookup "forecast" props)) eqn:T; [|discriminate].
  cbn [negb]. now intros [= <- _].
Qed.

(** What [getTimeSeries] returns has an array [data]. *)
Lemma getTimeSeries_shape linea estacion log data log' :
  getTimeSeries network ToString_host TypeError_message linea estacion log
  = (inr data, log') -> exists points, get data "data" = VArr points.
Proof.
  unfold getTimeSeries.
  destruct (negb (truthy linea) || negb (truthy estacion)); [discriminate|].
  unfold try_catch, bind, fetch.
  destruct (network _) as [m|response]; [discriminate|].
  destruct (handleResponse _ _ response _) as [[m|body] log0]; [discriminate|].
  unfold read, throw, ret.
  destruct body as [| |b|n|str|items|props]; try discriminate; cbn [get];
    try discriminate.
  destruct (lookup "data" props) as [| |b|n|str|items|props'] eqn:D;
    cbn [isArray negb]; rewrite ?orb_true_r, ?orb_false_r;
    try discriminate.
  intros [= <- _]. cbn [get]. eauto.
Qed.
End ApiMore.

(** X1.  For a response whose status is not successful, the message thrown
    is the [detail] of the JSON body when that is a non-empty string, and
    ["Error <status>: <statusText>"] when the body does not parse, is
    [null], or has no truthy [detail]; [getStations] hands it on behind its
    own prefix. *)
Theorem error_message_contract
  (network : string -> Api.fetched) (ToString_host : value -> string)
  (TypeError_message : string -> string)
  (response : Api.Response) (log : list string) :
  Api.ok response = false ->
  (forall body detail,
      Api.json response = Some body -> get body "detail" = VStr detail ->
      detail <> "" ->
      Api.handleResponse ToString_host TypeError_message response log
      = (inl detail, log)
      /\ (network stations_url = Api.Resolved response ->
          Api.getStations network ToString_host TypeError_message log
          = (inl (stations_prefix ++ detail)%string, log ++ [stations_url])))
  /\ (Api.json response = None
      \/ (exists body, Api.json response = Some body
                       /\ truthy (get body "detail") = false) ->
      Api.handleResponse ToString_host TypeError_message response log
      = (inl ("Error " ++ index_key (Api.status response) ++ ": "
              ++ Api.statusText response)%string, log))
  /\ Api.status_line not_found = "Error 404: Not Found".
Proof.
  intros E. split; [|split; [|reflexivity]].
  - intros body detail J D N.
    assert (H : forall log0,
               Api.handleResponse ToString_host TypeError_message response log0
               = (inl detail, log0)).
    { intros log0.
      unfold Api.handleResponse, Api.try_catch, Api.bind, Api.read,
        Api.throw, Api.ret.
      rewrite E, J. cbn [negb].
      destruct body as [| |b|n|str|items|props]; try discriminate D.
      rewrite D. cbn [truthy Api.ToString].
      apply String.eqb_neq in N. now rewrite N. }
    split; [apply H|].
    intros Net. unfold Api.getStations, Api.try_catch, Api.bind, Api.fetch.
    change (Api.API_BASE_URL ++ "/stations")%string with stations_url.
    rewrite Net, H. reflexivity.
  - intros H.
    unfold Api.handleResponse, Api.try_catch, Api.bind, Api.read,
      Api.throw, Api.ret.
    rewrite E. cbn [negb].
    destruct H as [-> | (body & -> & T)]; [reflexivity|].
    destruct body as [| |b|n|str|items|props]; try reflexivity;
      cbn [get] in *; now rewrite ?T.
Qed.

(** X1 on a 404 that carries a detail. *)
Lemma error_message_contract_witness :
  Api.ok not_found = false
  /\ Api.getStations (server_of not_found) ToString_example TypeError_example []
     = (inl "No se pudieron obtener las estaciones: Estación no encontrada",
        [stations_url]).
Proof.
  split; [reflexivity|].
  exact (proj2 (proj1 (error_message_contract (server_of not_found)
                         ToString_example TypeError_example not_found []
                         eq_refl)
                  (VObj [("detail", VStr "Estación no encontrada")])
                  "Estación no encontrada" eq_refl eq_refl
                  ltac:(discriminate))
           eq_refl).
Defined.

(** X2.  For a non-empty selection and a successful response,
    [getForecast] returns the [forecast] field of the body, unwrapped, when
    that field is truthy; a body without a truthy [forecast], a [null] body
    and a body that does not parse each give an error behind the prefix of
    the call. *)
Theorem getForecast_outcomes
  (network : string -> Api.fetched) (ToString_host : value -> string)
  (TypeError_message : string -> string)
  (linea estacion : string) (log : list string) (response : Api.Response) :
  linea <> "" -> estacion <> "" ->
  network (forecast_url linea estacion) = Api.Resolved response ->
  Api.ok response = true ->
  let result := Api.getForecast network ToString_host TypeError_message
                  (VStr linea) (VStr estacion) log in
  (forall body,
      Api.json response = Some body -> truthy (get body "forecast") = true ->
      fst result = inr (get body "forecast"))
  /\ (forall body,
         Api.json response = Some body -> body <> VNull -> body <> VUndefined ->
         truthy (get body "forecast") = false ->
         fst result
         = inl (forecast_prefix
                ++ "El formato del pronóstico recibido es inválido")%string)
  /\ (Api.json response = Some VNull ->
      fst result = inl (forecast_prefix ++ TypeError_message "forecast")%string)
  /\ (Api.json response = None ->
      fst result
      = inl (forecast_prefix
             ++ "La respuesta del servidor tiene un formato inválido")%string).
Proof.
  intros Hl He N E result. subst result.
  assert (Tl : truthy (VStr linea) = true)
    by (cbn; now apply negb_true_iff, String.eqb_neq).
  assert (Te : truthy (VStr estacion) = true)
    by (cbn; now apply negb_true_iff, String.eqb_neq).
  rewrite (getForecast_resolved network ToString_host TypeError_message
             (VStr linea) (VStr estacion) log response Tl Te N E).
  cbn [fst]. repeat split.
  - intros body -> T.
    destruct body; try discriminate T. now rewrite T.
  - intros body -> N1 N2 T.
    destruct body; try congruence; now rewrite T.
  - now intros ->.
  - now intros ->.
Qed.

(** X2 on a server that answers with a forecast of one empty sub-series. *)
Lemma getForecast_outcomes_witness :
  "Línea 1" <> "" /\ "Pantitlán" <> ""
  /\ fst (Api.getForecast
            (server_of (ok_with (VObj [("forecast", VObj [("train", VObj [])])])))
            ToString_example TypeError_example
            (VStr "Línea 1") (VStr "Pantitlán") [])
     = inr (VObj [("train", VObj [])]).
Proof.
  assert (H1 : "Línea 1" <> "") by discriminate.
  assert (H2 : "Pantitlán" <> "") by discriminate.
  repeat (split; [assumption|]).
  exact (proj1 (getForecast_outcomes
                  (server_of (ok_with (VObj [("forecast", VObj [("train", VObj [])])])))
                  ToString_example TypeError_example
                  "Línea 1" "Pantitlán" []
                  (ok_with (VObj [("forecast", VObj [("train", VObj [])])]))
                  H1 H2 eq_refl eq_refl)
           (VObj [("forecast", VObj [("train", VObj [])])]) eq_refl eq_refl).
Defined.

(** X3.  For a non-empty selection and a successful response,
    [getTimeSeries] returns the whole body exactly when its [data] is an
    array, the empty array included; any other [data] gives the error of
    an invalid format behind the prefix of the call. *)
Theorem getTimeSeries_outcomes
  (network : string -> Api.fetched) (ToString_host : value -> string)
  (TypeError_message : string -> string)
  (linea estacion : string) (log : list string) (response : Api.Response) :
  linea <> "" -> estacion <> "" ->
  network (timeseries_url linea estacion) = Api.Resolved response ->
  Api.ok response = true ->
  let result := Api.getTimeSeries network ToString_host TypeError_message
                  (VStr linea) (VStr estacion) log in
  (forall body points,
      Api.json response = Some body -> get body "data" = VArr points ->
      fst result = inr body)
  /\ (forall body,
         Api.json response = Some body -> body <> VNull -> body <> VUndefined ->
         isArray (get body "data") = false ->
         fst result
         = inl (timeseries_prefix
                ++ "El formato de los datos recibidos es inválido")%string)
  /\ (Api.json response = Some VNull ->
      fst result = inl (timeseries_prefix ++ TypeError_message "data")%string).
Proof.
  intros Hl He N E result. subst result.
  assert (Tl : truthy (VStr linea) = true)
    by (cbn; now apply negb_true_iff, String.eqb_neq).
  assert (Te : truthy (VStr estacion) = true)
    by (cbn; now apply negb_true_iff, String.eqb_neq).
  rewrite (getTimeSeries_resolved network ToString_host TypeError_message
             (VStr linea) (VStr estacion) log response Tl Te N E).
  cbn [fst]. repeat split.
  - intros body points -> D.
    destruct body; try discriminate D. now rewrite D.
  - intros body -> N1 N2 A.
    destruct body; try congruence; now rewrite A.
  - now intros ->.
Qed.

(** X3 on a server that answers with an empty series. *)
Lemma getTimeSeries_outcomes_witness :
  "Línea 1" <> "" /\ "Pantitlán" <> ""
  /\ fst (Api.getTimeSeries
            (server_of (ok_with (VObj [("data", VArr [])])))
            ToString_example TypeError_example
            (VStr "Línea 1") (VStr "Pantitlán") [])
     = inr (VObj [("data", VArr [])]).
Proof.
  assert (H1 : "Línea 1" <> "") by discriminate.
  assert (H2 : "Pantitlán" <> "") by discriminate.
  repeat (split; [assumption|]).
  exact (proj1 (getTimeSeries_outcomes
                  (server_of (ok_with (VObj [("data", VArr [])])))
                  ToString_example TypeError_example
                  "Línea 1" "Pantitlán" []
                  (ok_with (VObj [("data", VArr [])]))
                  H1 H2 eq_refl eq_refl)
           (VObj [("data", VArr [])]) [] eq_refl eq_refl).
Defined.

(** X4.  Every error of [getStations], and every error of [getTimeSeries]
    and [getForecast] once the selection is non-empty, begins with the
    prefix of its call; the validation error begins with none of them. *)
Theorem errors_carry_prefix
  (network : string -> Api.fetched) (ToString_host : value -> string)
  (TypeError_message : string -> string) (log : list string) :
  (forall message,
      fst (Api.getStations network ToString_host TypeError_message log)
      = inl message ->
      String.prefix stations_prefix message = true)
  /\ (forall linea estacion message,
         truthy linea = true -> truthy estacion = true ->
         fst (Api.getTimeSeries network ToString_host TypeError_message
                linea estacion log) = inl message ->
         String.prefix timeseries_prefix message = true)
  /\ (forall linea estacion message,
         truthy linea = true -> truthy estacion = true ->
         fst (Api.getForecast network ToString_host TypeError_message
                linea estacion log) = inl message ->
         String.prefix forecast_prefix message = true)
  /\ String.prefix timeseries_prefix validation_message = false
  /\ String.prefix forecast_prefix validation_message = false.
Proof.
  split; [|split; [|split; [|split; reflexivity]]].
  - intros message. unfold Api.getStations. apply catch_rethrow_prefix.
  - intros linea estacion message Tl Te. unfold Api.getTimeSeries.
    rewrite Tl, Te. cbn [negb orb]. apply catch_rethrow_prefix.
  - intros linea estacion message Tl Te. unfold Api.getForecast.
    rewrite Tl, Te. cbn [negb orb]. apply catch_rethrow_prefix.
Qed.

(** X4 on a server that answers 404. *)
Lemma errors_carry_prefix_witness :
  fst (Api.getStations (server_of not_found) ToString_example
         TypeError_example [])
  = inl "No se pudieron obtener las estaciones: Estación no encontrada"
  /\ String.prefix stations_prefix
       "No se pudieron obtener las estaciones: Estación no encontrada" = true.
Proof.
  split; [reflexivity|].
  exact (proj1 (errors_carry_prefix (server_of not_found) ToString_example
                  TypeError_example [])
           "No se pudieron obtener las estaciones: Estación no encontrada"
           eq_refl).
Defined.

(** ** The encoding of a path segment *)

Section Encoding.
Import Api.

Lemma encode_cons (c : ascii) (s : string) :
  encodeURIComponent (String c s)
  = if unreserved c then String c (encodeURIComponent s)
    else String "%" (String (hex_digit (nat_of_ascii c / 16))
                       (String (hex_digit (nat_of_ascii c mod 16))
                          (encodeURIComponent s))).
Proof.
  cbn [encodeURIComponent]. unfold percent_escape.
  now destruct (unreserved c).
Qed.

Lemma encode_length (s : string) :
  String.length (encodeURIComponent s)
  = (String.length s + 2 * escaped_count s)%nat.
Proof.
  induction s as [|c s IH]; [reflexivity|].
  rewrite encode_cons. cbn [escaped_count].
  destruct (unreserved c); cbn [String.length]; rewrite IH; lia.
Qed.

Lemma encode_unreserved (s : string) :
  escaped_count s = 0%nat -> encodeURIComponent s = s.
Proof.
  induction s as [|c s IH]; [reflexivity|].
  rewrite encode_cons. cbn [escaped_count].
  destruct (unreserved c); [|discriminate].
  intros H. now rewrite IH.
Qed.

Lemma hex_digit_code (n : nat) :
  (n < 16)%nat ->
  nat_of_ascii (hex_digit n) = if (n <? 10)%nat then (48 + n)%nat else (55 + n)%nat.
Proof.
  intros H. do 16 (destruct n as [|n]; [reflexivity|]). lia.
Qed.

Lemma hex_digit_inj (n m : nat) :
  (n < 16)%nat -> (m < 16)%nat -> hex_digit n = hex_digit m -> n = m.
Proof.
  intros Hn Hm E. apply (f_equal nat_of_ascii) in E.
  rewrite !hex_digit_code in E by assumption.
  destruct (Nat.ltb_spec n 10), (Nat.ltb_spec m 10); lia.
Qed.

Lemma nat_of_ascii_inj (a b : ascii) : nat_of_ascii a = nat_of_ascii b -> a = b.
Proof.
  intros E. rewrite <- (ascii_nat_embedding a), <- (ascii_nat_embedding b).
  now rewrite E.
Qed.

Lemma percent_reserved : unreserved "%" = false.
Proof. reflexivity. Qed.

Lemma encode_inj (a : string) :
  forall b, encodeURIComponent a = encodeURIComponent b -> a = b.
Proof.
  induction a as [|c a IH]; intros [|d b].
  - reflexivity.
  - rewrite encode_cons. cbn [encodeURIComponent].
    destruct (unreserved d); discriminate.
  - rewrite encode_cons. cbn [encodeURIComponent].
    destruct (unreserved c); discriminate.
  - rewrite !encode_cons.
    destruct (unreserved c) eqn:Uc, (unreserved d) eqn:Ud.
    + intros [= -> E]. f_equal. now apply IH.
    + intros [= -> _]. rewrite percent_reserved in Uc. discriminate.
    + intros [= <- _]. rewrite percent_reserved in Ud. discriminate.
    + pose proof (nat_of_ascii_bound c) as Bc.
      pose proof (nat_of_ascii_bound d) as Bd.
      pose proof (Nat.div_mod_eq (nat_of_ascii c) 16) as Dc.
      pose proof (Nat.div_mod_eq (nat_of_ascii d) 16) as Dd.
      assert (Qc : (nat_of_ascii c / 16 < 16)%nat)
        by (apply Nat.Div0.div_lt_upper_bound; lia).
      assert (Qd : (nat_of_ascii d / 16 < 16)%nat)
        by (apply Nat.Div0.div_lt_upper_bound; lia).
      assert (Rc : (nat_of_ascii c mod 16 < 16)%nat)
        by (apply Nat.mod_upper_bound; lia).
      assert (Rd : (nat_of_ascii d mod 16 < 16)%nat)
        by (apply Nat.mod_upper_bound; lia).
      revert Dc Dd Qc Qd Rc Rd.
      generalize (nat_of_ascii c / 16)%nat (nat_of_ascii c mod 16)%nat
                 (nat_of_ascii d / 16)%nat (nat_of_ascii d mod 16)%nat.
      intros qc rc qd rd Dc Dd Qc Qd Rc Rd [= H1 H2 E].
      apply hex_digit_inj in H1; [|assumption..].
      apply hex_digit_inj in H2; [|assumption..].
      f_equal; [|now apply IH].
      apply nat_of_ascii_inj. lia.
Qed.

Lemma hex_digit_no_slash (n : nat) : (n < 16)%nat -> hex_digit n <> "/"%char.
Proof.
  intros H E. apply (f_equal nat_of_ascii) in E.
  rewrite hex_digit_code in E by assumption.
  change (nat_of_ascii "/") with 47%nat in E.
  destruct (Nat.ltb_spec n 10); lia.
Qed.

Lemma encode_no_slash (s : string) : no_slash (encodeURIComponent s).
Proof.
  induction s as [|c s IH]; [exact I|].
  rewrite encode_cons. pose proof (nat_of_ascii_bound c) as B.
  destruct (unreserved c) eqn:U; cbn [no_slash].
  - split; [|exact IH]. intros ->. discriminate U.
  - split; [discriminate|].
    split; [apply hex_digit_no_slash, Nat.Div0.div_lt_upper_bound; lia|].
    split; [apply hex_digit_no_slash, Nat.mod_upper_bound; lia|exact IH].
Qed.

Lemma append_inj_l (p a b : string) : (p ++ a = p ++ b)%string -> a = b.
Proof.
  induction p as [|c p IH]; cbn [append]; [trivial|].
  intros [= E]. now apply IH.
Qed.

Lemma split_at_slash (x : string) :
  forall x' y y',
    no_slash x -> no_slash x' ->
    (x ++ String "/" y = x' ++ String "/" y')%string -> x = x' /\ y = y'.
Proof.
  induction x as [|c x IH]; intros [|c' x'] y y' Hx Hx'; cbn [append].
  - now intros [= ->].
  - intros [= <- _]. destruct Hx' as [N _]. contradiction.
  - intros [= -> _]. destruct Hx as [N _]. contradiction.
  - intros [= -> E]. destruct Hx as [_ Hx]. destruct Hx' as [_ Hx'].
    destruct (IH x' y y' Hx Hx' E) as [-> ->]. now split.
Qed.
End Encoding.

(** The encoding of a path segment loses nothing, and no encoded segment
    holds a ['/']: a path determines the line and the station. *)
Lemma request_path_inj (linea estacion linea' estacion' : string) :
  (timeseries_url linea estacion = timeseries_url linea' estacion' ->
   linea = linea' /\ estacion = estacion')
  /\ (forecast_url linea estacion = forecast_url linea' estacion' ->
      linea = linea' /\ estacion = estacion').
Proof.
  split; intros E; unfold timeseries_url, forecast_url in E;
    apply append_inj_l in E;
    [apply (append_inj_l "/timeseries/") in E
    |apply (append_inj_l "/forecast/") in E];
    apply split_at_slash in E; try apply encode_no_slash;
    destruct E as [E1 E2]; split; now apply encode_inj.
Qed.

(** X5.  The request of a selection determines the selection: two
    non-empty selections for which [getTimeSeries] (or [getForecast])
    issues the same request have the same line and the same station. *)
Theorem request_determines_selection
  (network : string -> Api.fetched) (ToString_host : value -> string)
  (TypeError_message : string -> string)
  (linea estacion linea' estacion' : string) (log : list string) :
  linea <> "" -> estacion <> "" -> linea' <> "" -> estacion' <> "" ->
  (snd (Api.getTimeSeries network ToString_host TypeError_message
          (VStr linea) (VStr estacion) log)
   = snd (Api.getTimeSeries network ToString_host TypeError_message
            (VStr linea') (VStr estacion') log) ->
   linea = linea' /\ estacion = estacion')
  /\ (snd (Api.getForecast network ToString_host TypeError_message
             (VStr linea) (VStr estacion) log)
      = snd (Api.getForecast network ToString_host TypeError_message
               (VStr linea') (VStr estacion') log) ->
      linea = linea' /\ estacion = estacion').
Proof.
  intros N1 N2 N3 N4.
  assert (T : forall x, x <> "" -> truthy (VStr x) = true)
    by (intros x Nx; cbn; now apply negb_true_iff, String.eqb_neq).
  split; intros E.
  - rewrite !getTimeSeries_log in E by now apply T.
    apply app_inv_head in E. apply (f_equal (hd EmptyString)) in E.
    cbn [hd Api.ToString] in E.
    exact (proj1 (request_path_inj _ _ _ _) E).
  - rewrite !getForecast_log in E by now apply T.
    apply app_inv_head in E. apply (f_equal (hd EmptyString)) in E.
    cbn [hd Api.ToString] in E.
    exact (proj2 (request_path_inj _ _ _ _) E).
Qed.

(** X5 on two stations of line 1: their requests differ. *)
Lemma request_determines_selection_witness :
  "Línea 1" <> "" /\ "Pantitlán" <> "" /\ "Zaragoza" <> ""
  /\ snd (Api.getTimeSeries server_down ToString_example TypeError_example
            (VStr "Línea 1") (VStr "Pantitlán") [])
     <> snd (Api.getTimeSeries server_down ToString_example TypeError_example
               (VStr "Línea 1") (VStr "Zaragoza") []).
Proof.
  assert (H1 : "Línea 1" <> "") by discriminate.
  assert (H2 : "Pantitlán" <> "") by discriminate.
  assert (H3 : "Zaragoza" <> "") by discriminate.
  repeat (split; [assumption|]).
  intros E.
  destruct (proj1 (request_determines_selection server_down ToString_example
                     TypeError_example "Línea 1" "Pantitlán" "Línea 1" "Zaragoza"
                     [] H1 H2 H1 H3) E) as [_ H].
  discriminate H.
Defined.

Lemma string_length_append (a b : string) :
  String.length (a ++ b) = (String.length a + String.length b)%nat.
Proof.
  induction a as [|c a IH]; [reflexivity|]. cbn [append String.length].
  now rewrite IH.
Qed.

Lemma length_by_counts (s : string) :
  String.length s = (unreserved_count s + escaped_count s)%nat.
Proof.
  induction s as [|c s IH]; [reflexivity|].
  cbn [String.length unreserved_count escaped_count].
  destruct (Api.unreserved c); lia.
Qed.

(** X6.  A selection written in unreserved characters only is requested
    verbatim: the path is the base, the kind of request, the line and the
    station as they are.  In general an encoded value holds one character
    for each unreserved character of the value and three for each byte of
    the UTF-8 form of its other characters. *)
Theorem unreserved_selection_verbatim
  (network : string -> Api.fetched) (ToString_host : value -> string)
  (TypeError_message : string -> string)
  (linea estacion : string) (log : list string) :
  linea <> "" -> estacion <> "" ->
  (escaped_count linea = 0%nat -> escaped_count estacion = 0%nat ->
   snd (Api.getTimeSeries network ToString_host TypeError_message
          (VStr linea) (VStr estacion) log)
   = log ++ [(Api.API_BASE_URL ++ "/timeseries/" ++ linea ++ "/" ++ estacion)%string]
   /\ snd (Api.getForecast network ToString_host TypeError_message
             (VStr linea) (VStr estacion) log)
      = log ++ [(Api.API_BASE_URL ++ "/forecast/" ++ linea ++ "/" ++ estacion)%string])
  /\ String.length (timeseries_url linea estacion)
     = (String.length Api.API_BASE_URL + String.length "/timeseries/"
        + (unreserved_count linea + 3 * escaped_count linea) + 1
        + (unreserved_count estacion + 3 * escaped_count estacion))%nat.
Proof.
  intros N1 N2.
  assert (T : forall x, x <> "" -> truthy (VStr x) = true)
    by (intros x Nx; cbn; now apply negb_true_iff, String.eqb_neq).
  split.
  - intros E1 E2.
    rewrite getTimeSeries_log, getForecast_log by now apply T.
    cbn [Api.ToString]. unfold timeseries_url, forecast_url.
    now rewrite (encode_unreserved linea E1), (encode_unreserved estacion E2).
  - unfold timeseries_url.
    rewrite !string_length_append, !encode_length.
    rewrite (length_by_counts linea), (length_by_counts estacion).
    cbn [String.length]. lia.
Qed.

(** X6 on a line and a station without accents or spaces, and on a station
    with an accent, whose six characters are requested in eleven. *)
Lemma unreserved_selection_verbatim_witness :
  "L1" <> "" /\ "Pantitlan" <> ""
  /\ escaped_count "L1" = 0%nat /\ escaped_count "Pantitlan" = 0%nat
  /\ String.length (Api.encodeURIComponent "Zócalo") = 11%nat
  /\ snd (Api.getTimeSeries server_down ToString_example TypeError_example
            (VStr "L1") (VStr "Pantitlan") [])
     = ["http://localhost:8000/api/timeseries/L1/Pantitlan"].
Proof.
  assert (H1 : "L1" <> "") by discriminate.
  assert (H2 : "Pantitlan" <> "") by discriminate.
  repeat (split; [assumption|]).
  split; [reflexivity|split; [reflexivity|split; [reflexivity|]]].
  exact (proj1 (proj1 (unreserved_selection_verbatim server_down
                         ToString_example TypeError_example
                         "L1" "Pantitlan" [] H1 H2) eq_refl eq_refl)).
Defined.

(** ** Sanitizing, once more *)

Section SanitizeMore.
Import ForecastView.

Lemma sanitizeArray_idem (arr : value) :
  sanitizeArray (sanitizeArray arr) = sanitizeArray arr.
Proof.
  destruct arr as [| |b|n|s|items|props]; try reflexivity.
  cbn [sanitizeArray]. f_equal. rewrite map_map. apply map_ext.
  intros x. now destruct x.
Qed.


Lemma sanitize_train_idem t : sanitize_train (sanitize_train t) = sanitize_train t.
Proof.
  unfold sanitize_train at 1.
  change (get (sanitize_train t) "dates") with (sanitizeArray (get t "dates")).
  change (get (sanitize_train t) "actual") with (sanitizeArray (get t "actual")).
  change (get (sanitize_train t) "fitted") with (sanitizeArray (get t "fitted")).
  change (get (sanitize_train t) "lower") with (sanitizeArray (get t "lower")).
  change (get (sanitize_train t) "upper") with (sanitizeArray (get t "upper")).
  now rewrite !sanitizeArray_idem.
Qed.

Lemma sanitize_test_idem t : sanitize_test (sanitize_test t) = sanitize_test t.
Proof.
  unfold sanitize_test at 1.
  change (get (sanitize_test t) "dates") with (sanitizeArray (get t "dates")).
  change (get (sanitize_test t) "actual") with (sanitizeArray (get t "actual")).
  change (get (sanitize_test t) "predicted")
    with (sanitizeArray (get t "predicted")).
  change (get (sanitize_test t) "lower") with (sanitizeArray (get t "lower")).
  change (get (sanitize_test t) "upper") with (sanitizeArray (get t "upper")).
  now rewrite !sanitizeArray_idem.
Qed.

Lemma sanitize_forecast_idem t :
  sanitize_forecast (sanitize_forecast t) = sanitize_forecast t.
Proof.
  unfold sanitize_forecast at 1.
  change (get (sanitize_forecast t) "dates")
    with (sanitizeArray (get t "dates")).
  change (get (sanitize_forecast t) "predicted")
    with (sanitizeArray (get t "predicted")).
  change (get (sanitize_forecast t) "lower")
    with (sanitizeArray (get t "lower")).
  change (get (sanitize_forecast t) "upper")
    with (sanitizeArray (get t "upper")).
  now rewrite !sanitizeArray_idem.
Qed.

Lemma set_prop_lookup (k : string) (props : list (string * value)) :
  truthy (lookup k props) = true -> set_prop k (lookup k props) props = props.
Proof.
  induction props as [|[k' v] rest IH]; cbn [lookup set_prop].
  - discriminate.
  - destruct (String.eqb_spec k' k) as [->|N]; [reflexivity|].
    intros T. now rewrite IH.
Qed.

Lemma sanitize_field_fixed k f props :
  (truthy (lookup k props) = true -> f (lookup k props) = lookup k props) ->
  sanitize_field k f props = props.
Proof.
  intros H. unfold sanitize_field.
  destruct (truthy (lookup k props)) eqn:T; [|reflexivity].
  rewrite (H eq_refl). now apply set_prop_lookup.
Qed.

End SanitizeMore.

(** X7.  Sanitizing is idempotent: a sanitized bundle is left as it is by
    a second sanitization, and so is a sanitized array. *)
Theorem sanitize_idempotent (data : value) :
  ForecastView.sanitizeForecastData (ForecastView.sanitizeForecastData data)
  = ForecastView.sanitizeForecastData data
  /\ ForecastView.sanitizeArray (ForecastView.sanitizeArray data)
     = ForecastView.sanitizeArray data.
Proof.
  split; [|apply sanitizeArray_idem].
  destruct (truthy data) eqn:Tdata.
  2:{ assert (E : ForecastView.sanitizeForecastData data = VNull)
        by (unfold ForecastView.sanitizeForecastData; now rewrite Tdata).
      now rewrite E. }
  set (p0 := spread data).
  set (p3 := ForecastView.sanitize_field "forecast"
               ForecastView.sanitize_forecast
               (ForecastView.sanitize_field "test" ForecastView.sanitize_test
                  (ForecastView.sanitize_field "train"
                     ForecastView.sanitize_train p0))).
  assert (E : ForecastView.sanitizeForecastData data = VObj p3)
    by (unfold ForecastView.sanitizeForecastData; now rewrite Tdata).
  rewrite E.
  assert (L : forall k,
             lookup k p3
             = if truthy (lookup k p0) then
                 if k =? "train" then ForecastView.sanitize_train (lookup k p0)
                 else if k =? "test" then ForecastView.sanitize_test (lookup k p0)
                 else if k =? "forecast"
                      then ForecastView.sanitize_forecast (lookup k p0)
                      else lookup k p0
               else lookup k p0)
    by (intros k; apply sanitized_lookup).
  unfold ForecastView.sanitizeForecastData.
  change (truthy (VObj p3)) with true. cbn [negb spread].
  assert (F1 : ForecastView.sanitize_field "train" ForecastView.sanitize_train p3
               = p3).
  { apply sanitize_field_fixed. rewrite (L "train").
    destruct (truthy (lookup "train" p0)) eqn:T; [|congruence].
    intros _. apply sanitize_train_idem. }
  rewrite F1.
  assert (F2 : ForecastView.sanitize_field "test" ForecastView.sanitize_test p3
               = p3).
  { apply sanitize_field_fixed. rewrite (L "test").
    destruct (truthy (lookup "test" p0)) eqn:T; [|congruence].
    intros _. apply sanitize_test_idem. }
  rewrite F2.
  assert (F3 : ForecastView.sanitize_field "forecast"
                 ForecastView.sanitize_forecast p3 = p3).
  { apply sanitize_field_fixed. rewrite (L "forecast").
    destruct (truthy (lookup "forecast" p0)) eqn:T; [|congruence].
    intros _. apply sanitize_forecast_idem. }
  now rewrite F3.
Qed.

(** X8.  Sanitizing an object touches three properties only: a truthy
    [train], [test] or [forecast] is replaced by its sanitized arrays, and
    every other property ([metrics], [anomalies]) and every falsy
    sub-series is read back as it was. *)
Theorem sanitize_touches_sub_series_only (props : list (string * value))
  (k : string) :
  let data := VObj props in
  let sanitized := ForecastView.sanitizeForecastData data in
  (truthy (get data k) = false -> get sanitized k = get data k)
  /\ (k <> "train" -> k <> "test" -> k <> "forecast" ->
      get sanitized k = get data k)
  /\ (truthy (get data "train") = true ->
      get sanitized "train" = ForecastView.sanitize_train (get data "train"))
  /\ (truthy (get data "test") = true ->
      get sanitized "test" = ForecastView.sanitize_test (get data "test"))
  /\ (truthy (get data "forecast") = true ->
      get sanitized "forecast"
      = ForecastView.sanitize_forecast (get data "forecast")).
Proof.
  cbv zeta. unfold ForecastView.sanitizeForecastData.
  change (truthy (VObj props)) with true. cbn [negb spread get].
  repeat split.
  - intros T. now rewrite sanitized_lookup, T.
  - intros N1 N2 N3. rewrite sanitized_lookup.
    apply String.eqb_neq in N1, N2, N3. rewrite N1, N2, N3.
    now destruct (truthy (lookup k props)).
  - intros T. now rewrite sanitized_lookup, T.
  - intros T. now rewrite sanitized_lookup, T.
  - intros T. now rewrite sanitized_lookup, T.
Qed.

(** X8 on a bundle with metrics, anomalies and a [null] test. *)
Lemma sanitize_touches_sub_series_only_witness :
  truthy (get bundle_with_metrics "test") = false
  /\ "metrics" <> "train" /\ "metrics" <> "test" /\ "metrics" <> "forecast"
  /\ get (ForecastView.sanitizeForecastData bundle_with_metrics) "test" = VNull
  /\ get (ForecastView.sanitizeForecastData bundle_with_metrics) "metrics"
     = VObj [ ("test", VObj [ ("rmse", num 3) ]) ].
Proof.
  assert (H0 : truthy (get bundle_with_metrics "test") = false) by reflexivity.
  assert (H1 : "metrics" <> "train") by discriminate.
  assert (H2 : "metrics" <> "test") by discriminate.
  assert (H3 : "metrics" <> "forecast") by discriminate.
  repeat (split; [assumption|]).
  split.
  - exact (proj1 (sanitize_touches_sub_series_only _ "test") H0).
  - exact (proj1 (proj2 (sanitize_touches_sub_series_only _ "metrics"))
             H1 H2 H3).
Defined.

(** ** The rows of each mode *)

Section ModesMore.
Import ForecastView.

Lemma filterByMode_split (l : list value) :
  filterByMode "all" l
  = filterByMode "train" l ++ filterByMode "test" l ++ filterByMode "future" l.
Proof.
  unfold filterByMode. cbn [String.eqb Ascii.eqb Bool.eqb orb app].
  now rewrite !app_nil_r.
Qed.

Lemma sub_dates_sanitize_train t :
  List.length (sub_dates (sanitize_train t)) = array_length (get t "dates").
Proof.
  unfold sub_dates.
  change (truthy (sanitize_train t)) with true.
  change (get (sanitize_train t) "dates") with (sanitizeArray (get t "dates")).
  rewrite <- sanitizeArray_length.
  now destruct (sanitizeArray_array (get t "dates")) as (items & -> & _).
Qed.

Lemma sub_dates_sanitize_test t :
  List.length (sub_dates (sanitize_test t)) = array_length (get t "dates").
Proof.
  unfold sub_dates.
  change (truthy (sanitize_test t)) with true.
  change (get (sanitize_test t) "dates") with (sanitizeArray (get t "dates")).
  rewrite <- sanitizeArray_length.
  now destruct (sanitizeArray_array (get t "dates")) as (items & -> & _).
Qed.

Lemma sub_dates_sanitize_forecast t :
  List.length (sub_dates (sanitize_forecast t)) = array_length (get t "dates").
Proof.
  unfold sub_dates.
  change (truthy (sanitize_forecast t)) with true.
  change (get (sanitize_forecast t) "dates")
    with (sanitizeArray (get t "dates")).
  rewrite <- sanitizeArray_length.
  now destruct (sanitizeArray_array (get t "dates")) as (items & -> & _).
Qed.

Lemma sub_dates_sanitized (props : list (string * value)) (k : string) :
  In k ["train"; "test"; "forecast"] ->
  List.length (sub_dates (get (sanitizeForecastData (VObj props)) k))
  = dates_count (lookup k props).
Proof.
  intros Hk. unfold sanitizeForecastData.
  change (truthy (VObj props)) with true. cbn [negb spread get].
  rewrite sanitized_lookup. unfold dates_count.
  destruct (truthy (lookup k props)) eqn:T.
  - simpl in Hk. destruct Hk as [<-|[<-|[<-|[]]]];
      cbn [String.eqb Ascii.eqb Bool.eqb].
    + apply sub_dates_sanitize_train.
    + apply sub_dates_sanitize_test.
    + apply sub_dates_sanitize_forecast.
  - unfold sub_dates. now rewrite T.
Qed.

Lemma zip_rows_malformed sub row :
  truthy sub = true -> truthy (get sub "dates") = true ->
  isArray (get sub "dates") = false -> zip_rows sub row = None.
Proof.
  intros T D A. unfold zip_rows. rewrite T, D. cbn [andb].
  now destruct (get sub "dates").
Qed.
End ModesMore.


(** X9.  The rows of mode ['all'] are the rows of the modes ['train'],
    ['test'] and ['future'] together, rearranged; and of a sanitized object
    each of these three modes shows one row per entry of the raw [dates] of
    its sub-series, none when the sub-series is falsy or its [dates] is no
    array. *)
Theorem rows_of_each_mode (Date_time : value -> option Z) :
  (forall forecastData,
      Permutation
        (ForecastView.prepareChartData Date_time forecastData "all")
        (ForecastView.prepareChartData Date_time forecastData "train"
         ++ ForecastView.prepareChartData Date_time forecastData "test"
         ++ ForecastView.prepareChartData Date_time forecastData "future"))
  /\ (forall props,
         let sanitized := ForecastView.sanitizeForecastData (VObj props) in
         List.length (ForecastView.prepareChartData Date_time sanitized "train")
         = dates_count (lookup "train" props)
         /\ List.length (ForecastView.prepareChartData Date_time sanitized "test")
            = dates_count (lookup "test" props)
         /\ List.length (ForecastView.prepareChartData Date_time sanitized "future")
            = dates_count (lookup "forecast" props)).
Proof.
  split.
  - intros forecastData. unfold ForecastView.prepareChartData.
    destruct (truthy forecastData); cbn [negb]; [|constructor].
    destruct (ForecastView.merge forecastData) as [chartData|]; [|constructor].
    rewrite !sort_perm. now rewrite filterByMode_split.
  - intros props sanitized.
    assert (T : truthy sanitized = true) by reflexivity.
    pose proof (merge_sanitized (VObj props)) as M. cbv zeta in M.
    fold sanitized in M.
    rewrite !(prepare_some _ _ _ _ T M).
    rewrite !(Permutation_length (sort_perm _ _)).
    rewrite !filterByMode_merged.
    cbn [String.eqb Ascii.eqb Bool.eqb orb app].
    rewrite !app_nil_r, !rows_of_length.
    unfold sanitized.
    rewrite !sub_dates_sanitized by (simpl; tauto).
    auto.
Qed.

(** X10.  When the date of every kept row parses, the sort is stable: the
    rows of one and the same date come out in the order of the merge, a
    training row before a test row before a forecast row. *)
Theorem same_date_keeps_merge_order
  (Date_time : value -> option Z) (forecastData : value) (mode : string)
  (chartData : list value) :
  truthy forecastData = true ->
  ForecastView.merge forecastData = Some chartData ->
  Forall (parses Date_time) (ForecastView.filterByMode mode chartData) ->
  forall t,
    filter (dated Date_time t)
      (ForecastView.prepareChartData Date_time forecastData mode)
    = filter (dated Date_time t) (ForecastView.filterByMode mode chartData).
Proof.
  intros T M Hall t. rewrite (prepare_some _ _ _ _ T M).
  set (kept := ForecastView.filterByMode mode chartData) in *.
  assert (K : keyed (ForecastView.compare_fecha Date_time)
                (time_or_zero Date_time) kept).
  { intros x y Hx Hy. rewrite Forall_forall in Hall.
    pose proof (Hall x Hx) as Px. pose proof (Hall y Hy) as Py.
    unfold parses in Px, Py.
    unfold SortCompare, ForecastView.compare_fecha, time_or_zero.
    destruct (Date_time (get x "fecha")), (Date_time (get y "fecha"));
      congruence. }
  pose proof (sort_stable (ForecastView.compare_fecha Date_time)
                (time_or_zero Date_time) t kept K) as S.
  assert (E : forall l, Forall (parses Date_time) l ->
                filter (dated Date_time t) l
                = filter (fun y => (time_or_zero Date_time y =? t)%Z) l).
  { intros l Hl. apply filter_ext_in. intros r Hr.
    rewrite Forall_forall in Hl. pose proof (Hl r Hr) as P.
    unfold parses in P. unfold dated, time_or_zero.
    now destruct (Date_time (get r "fecha")). }
  rewrite (E kept Hall), <- S. apply E.
  rewrite Forall_forall in *. intros r Hr. apply Hall.
  now apply (sort_In (ForecastView.compare_fecha Date_time) kept).
Qed.

(** X10 on the test date and the forecast date that coincide. *)
Lemma same_date_keeps_merge_order_witness :
  truthy (ForecastView.sanitizeForecastData (bundle_coinciding "2021-06")) = true
  /\ ForecastView.merge
       (ForecastView.sanitizeForecastData (bundle_coinciding "2021-06"))
     = Some (rows_coinciding "2021-06")
  /\ Forall (parses DateIso.Date_iso)
       (ForecastView.filterByMode "all" (rows_coinciding "2021-06"))
  /\ filter (dated DateIso.Date_iso 1622505600000)
       (ForecastView.prepareChartData DateIso.Date_iso
          (ForecastView.sanitizeForecastData (bundle_coinciding "2021-06"))
          "all")
     = rows_coinciding "2021-06".
Proof.
  assert (H : Forall (parses DateIso.Date_iso)
                (ForecastView.filterByMode "all" (rows_coinciding "2021-06")))
    by (repeat constructor; discriminate).
  split; [reflexivity|split; [reflexivity|split; [exact H|]]].
  rewrite (same_date_keeps_merge_order DateIso.Date_iso
             (ForecastView.sanitizeForecastData (bundle_coinciding "2021-06"))
             "all" (rows_coinciding "2021-06") eq_refl eq_refl H
             1622505600000%Z).
  reflexivity.
Defined.

(** X11.  [prepareChartData] answers [[]] for a falsy [forecastData], and
    for a bundle one of whose sub-series has truthy [dates] that are no
    array, whatever the mode and whatever the other sub-series hold; the
    sanitized form of such a bundle is charted. *)
Theorem malformed_dates_empty_chart
  (Date_time : value -> option Z) (forecastData : value) (mode : string) :
  (truthy forecastData = false ->
   ForecastView.prepareChartData Date_time forecastData mode = [])
  /\ (forall k,
         In k ["train"; "test"; "forecast"] ->
         truthy (get forecastData k) = true ->
         truthy (get (get forecastData k) "dates") = true ->
         isArray (get (get forecastData k) "dates") = false ->
         ForecastView.prepareChartData Date_time forecastData mode = [])
  /\ ForecastView.prepareChartData Date_time bundle_bad_dates "train" = []
  /\ List.length
       (ForecastView.prepareChartData Date_time
          (ForecastView.sanitizeForecastData bundle_bad_dates) "train")
     = 1%nat.
Proof.
  split; [|split; [|split; [reflexivity|]]].
  - intros T. unfold ForecastView.prepareChartData. now rewrite T.
  - intros k Hk T D A. unfold ForecastView.prepareChartData.
    destruct (truthy forecastData); [|reflexivity]. cbn [negb].
    assert (M : ForecastView.merge forecastData = None).
    { unfold ForecastView.merge. simpl in Hk.
      destruct Hk as [<-|[<-|[<-|[]]]].
      - now rewrite (zip_rows_malformed _ _ T D A).
      - rewrite (zip_rows_malformed _ ForecastView.test_row T D A).
        now destruct (ForecastView.zip_rows _ ForecastView.train_row).
      - rewrite (zip_rows_malformed _ ForecastView.future_row T D A).
        destruct (ForecastView.zip_rows _ ForecastView.train_row);
          [|reflexivity].
        now destruct (ForecastView.zip_rows _ ForecastView.test_row). }
    now rewrite M.
  - unfold ForecastView.prepareChartData.
    match goal with
    | |- context [ForecastView.merge ?fd] =>
        let m := eval vm_compute in (ForecastView.merge fd) in
        change (ForecastView.merge fd) with m;
        change (truthy fd) with true
    end.
    cbn [negb].
    match goal with
    | |- context [ForecastView.filterByMode ?m ?l] =>
        let f := eval vm_compute in (ForecastView.filterByMode m l) in
        change (ForecastView.filterByMode m l) with f
    end.
    reflexivity.
Qed.

(** X11 on the raw bundle whose test dates are a string. *)
Lemma malformed_dates_empty_chart_witness :
  In "test" ["train"; "test"; "forecast"]
  /\ truthy (get bundle_bad_dates "test") = true
  /\ truthy (get (get bundle_bad_dates "test") "dates") = true
  /\ isArray (get (get bundle_bad_dates "test") "dates") = false
  /\ ForecastView.prepareChartData DateIso.Date_iso bundle_bad_dates "all" = [].
Proof.
  assert (H : In "test" ["train"; "test"; "forecast"]) by (simpl; tauto).
  split; [exact H|]. repeat (split; [reflexivity|]).
  exact (proj1 (proj2 (malformed_dates_empty_chart DateIso.Date_iso
                         bundle_bad_dates "all"))
           "test" H eq_refl eq_refl eq_refl).
Defined.

(** ** Anomalies, the button from idle, metrics and tooltips *)

Section RenderMore.
Import ForecastRender.

Lemma map_throwing_all {A B : Type} (f : A -> option B) (g : A -> B)
  (l : list A) :
  (forall x, In x l -> f x = Some (g x)) -> map_throwing f l = Some (map g l).
Proof.
  induction l as [|x l IH]; intros H; [reflexivity|].
  cbn [map_throwing map]. rewrite (H x (or_introl eq_refl)).
  now rewrite IH by (intros; apply H; now right).
Qed.

Lemma map_throwing_none {A B : Type} (f : A -> option B) (l : list A) (x : A) :
  In x l -> f x = None -> map_throwing f l = None.
Proof.
  induction l as [|y l IH]; intros Hin Hx; [contradiction|].
  cbn [map_throwing]. destruct Hin as [->|Hin]; [now rewrite Hx|].
  destruct (f y); [|reflexivity]. now rewrite (IH Hin Hx).
Qed.

Lemma catch_rethrow_message {A : Type} (body : Api.M A) (p : string)
  (log : list string) (m : string) :
  fst (Api.try_catch body (fun message => Api.throw (p ++ message)) log)
  = inl m ->
  exists m0, m = (p ++ m0)%string.
Proof.
  unfold Api.try_catch, Api.throw.
  destruct (body log) as [[m0|a] log']; cbn [fst]; [|discriminate].
  intros [= <-]. eauto.
Qed.

Lemma sanitize_truthy (data : value) :
  truthy data = true -> truthy (ForecastView.sanitizeForecastData data) = true.
Proof.
  intros T. unfold ForecastView.sanitizeForecastData. now rewrite T.
Qed.
End RenderMore.

(** X12.  The anomaly periods are all or nothing: an array of readable
    anomalies gives one period per anomaly, in order, with [start_date],
    [end_date], [name] and [impact_percent] under [start], [end], [name]
    and [impact]; a single [null] among them empties the whole list.
    Sanitizing an object does not change its periods. *)
Theorem anomaly_periods_all_or_nothing :
  (forall forecastData anomalies,
      truthy forecastData = true ->
      get forecastData "anomalies" = VArr anomalies ->
      (Forall readable anomalies ->
       ForecastRender.getAnomalyPeriods forecastData
       = map (fun anomaly =>
                VObj [ ("start", get anomaly "start_date");
                       ("end", get anomaly "end_date");
                       ("name", get anomaly "name");
                       ("impact", get anomaly "impact_percent") ])
             anomalies)
      /\ (In VNull anomalies ->
          ForecastRender.getAnomalyPeriods forecastData = []))
  /\ (forall props,
         ForecastRender.getAnomalyPeriods
           (ForecastView.sanitizeForecastData (VObj props))
         = ForecastRender.getAnomalyPeriods (VObj props)).
Proof.
  split.
  - intros forecastData anomalies T A.
    unfold ForecastRender.getAnomalyPeriods. rewrite T, A.
    cbn [truthy negb orb]. split.
    + intros R.
      rewrite (map_throwing_all ForecastRender.anomaly_period
                 (fun anomaly =>
                    VObj [ ("start", get anomaly "start_date");
                           ("end", get anomaly "end_date");
                           ("name", get anomaly "name");
                           ("impact", get anomaly "impact_percent") ]));
        [reflexivity|].
      intros x Hx. rewrite Forall_forall in R.
      destruct (R x Hx) as [N1 N2].
      destruct x; try reflexivity; congruence.
    + intros Hin.
      now rewrite (map_throwing_none ForecastRender.anomaly_period
                     anomalies VNull Hin eq_refl).
  - intros props. unfold ForecastRender.getAnomalyPeriods.
    assert (E : get (ForecastView.sanitizeForecastData (VObj props)) "anomalies"
                = get (VObj props) "anomalies").
    { unfold ForecastView.sanitizeForecastData.
      change (truthy (VObj props)) with true. cbn [negb spread get].
      rewrite sanitized_lookup.
      now destruct (truthy (lookup "anomalies" props)). }
    rewrite E. reflexivity.
Qed.

(** X12 on the bundle with one anomaly. *)
Lemma anomaly_periods_all_or_nothing_witness :
  truthy bundle_with_metrics = true
  /\ Forall readable
       [ VObj [ ("start_date", VStr "2020-03"); ("end_date", VStr "2021-06");
                ("name", VStr "COVID-19"); ("impact_percent", num 60) ] ]
  /\ ForecastRender.getAnomalyPeriods bundle_with_metrics
     = [ VObj [ ("start", VStr "2020-03"); ("end", VStr "2021-06");
                ("name", VStr "COVID-19"); ("impact", num 60) ] ].
Proof.
  assert (R : Forall readable
                [ VObj [ ("start_date", VStr "2020-03");
                         ("end_date", VStr "2021-06");
                         ("name", VStr "COVID-19");
                         ("impact_percent", num 60) ] ])
    by (repeat constructor; discriminate).
  split; [reflexivity|split; [exact R|]].
  exact (proj1 (proj1 anomaly_periods_all_or_nothing
                  bundle_with_metrics _ eq_refl eq_refl) R).
Defined.

(** X13.  A click while no forecast is loaded, for a non-empty selection,
    issues exactly one request and leaves [loading] false and the mode
    untouched.  Either the forecast arrives: then [forecastData] is truthy,
    the error is cleared, and the next click hides the forecast without a
    request; or it fails: then [forecastData] stays as it was and the error
    reads ["Error: "], the prefix of the call and the cause. *)
Theorem generate_from_idle
  (network : string -> Api.fetched) (ToString_host : value -> string)
  (TypeError_message : string -> string) (linea estacion : string)
  (s : ForecastView.State) (log : list string) :
  truthy (ForecastView.forecastData s) = false ->
  linea <> "" -> estacion <> "" ->
  let click := ForecastView.handleForecastClick network ToString_host
                 TypeError_message (VStr linea) (VStr estacion) in
  let s' := fst (click s log) in
  let log' := snd (click s log) in
  log' = log ++ [forecast_url linea estacion]
  /\ ForecastView.loading s' = false
  /\ ForecastView.mode s' = ForecastView.mode s
  /\ ((truthy (ForecastView.forecastData s') = true
       /\ ForecastView.error s' = VNull
       /\ click s' log' = (ForecastView.setForecastData VNull s', log'))
      \/ (ForecastView.forecastData s' = ForecastView.forecastData s
          /\ exists cause,
               ForecastView.error s'
               = VStr ("Error: " ++ forecast_prefix ++ cause)%string)).
Proof.
  intros T Hl He click s' log'. subst s' log' click.
  assert (Tl : truthy (VStr linea) = true)
    by (cbn; now apply negb_true_iff, String.eqb_neq).
  assert (Te : truthy (VStr estacion) = true)
    by (cbn; now apply negb_true_iff, String.eqb_neq).
  pose proof (getForecast_log network ToString_host TypeError_message
                (VStr linea) (VStr estacion) log Tl Te) as L.
  cbn [Api.ToString] in L.
  assert (C : ForecastView.handleForecastClick network ToString_host
                TypeError_message (VStr linea) (VStr estacion) s log
              = match Api.getForecast network ToString_host TypeError_message
                        (VStr linea) (VStr estacion) log with
                | (inr data, log0) =>
                    (ForecastView.setLoading false
                       (ForecastView.setForecastData
                          (ForecastView.sanitizeForecastData data)
                          (ForecastView.setError VNull
                             (ForecastView.setLoading true s))), log0)
                | (inl message, log0) =>
                    (ForecastView.setLoading false
                       (ForecastView.setError
                          (VStr ("Error: " ++ message))
                          (ForecastView.setError VNull
                             (ForecastView.setLoading true s))), log0)
                end)
    by (unfold ForecastView.handleForecastClick; now rewrite T).
  destruct (Api.getForecast network ToString_host TypeError_message
              (VStr linea) (VStr estacion) log) as [[message|data] log0] eqn:G;
    cbn [fst snd] in L; subst log0; rewrite !C; cbn [fst snd].
  - split; [reflexivity|]. split; [reflexivity|]. split; [reflexivity|].
    right. split; [reflexivity|].
    assert (P : exists m0, message = (forecast_prefix ++ m0)%string).
    { apply (catch_rethrow_message
               (A := value)
               (Api.bind
                  (Api.fetch network
                     (Api.API_BASE_URL ++ "/forecast/"
                      ++ Api.encodeURIComponent linea ++ "/"
                      ++ Api.encodeURIComponent estacion)%string)
                  (fun response =>
                     Api.bind
                       (Api.handleResponse ToString_host TypeError_message
                          response)
                       (fun data =>
                          Api.bind (Api.read TypeError_message data "forecast")
                            (fun forecast =>
                               if negb (truthy forecast)
                               then Api.throw
                                      "El formato del pronóstico recibido es inválido"
                               else Api.ret forecast))))
               forecast_prefix log).
      unfold Api.getForecast in G. rewrite Tl, Te in G. cbn [negb orb] in G.
      cbn [Api.ToString] in G. unfold forecast_prefix.
      now rewrite G. }
    destruct P as (m0 & ->). now exists m0.
  - pose proof (getForecast_truthy network ToString_host TypeError_message
                  _ _ _ _ _ G) as Td.
    pose proof (sanitize_truthy data Td) as Ts.
    split; [reflexivity|]. split; [reflexivity|]. split; [reflexivity|].
    left. split; [exact Ts|]. split; [reflexivity|].
    unfold ForecastView.handleForecastClick.
    cbn [ForecastView.setLoading ForecastView.setForecastData
         ForecastView.setError ForecastView.forecastData].
    now rewrite Ts.
Qed.

(** X13 on an idle view in mode ['test'] with an earlier error shown. *)
Lemma generate_from_idle_witness :
  truthy (ForecastView.forecastData idle_test) = false
  /\ "Línea 1" <> "" /\ "Pantitlán" <> ""
  /\ fst (ForecastView.handleForecastClick
            (server_of (ok_with (VObj [("forecast", VObj [])])))
            ToString_example TypeError_example
            (VStr "Línea 1") (VStr "Pantitlán") idle_test [])
     = {| ForecastView.forecastData := VObj [];
          ForecastView.loading := false;
          ForecastView.error := VNull;
          ForecastView.mode := "test" |}
  /\ ForecastView.mode
       (fst (ForecastView.handleForecastClick
               (server_of (ok_with (VObj [("forecast", VObj [])])))
               ToString_example TypeError_example
               (VStr "Línea 1") (VStr "Pantitlán") idle_test []))
     = ForecastView.mode idle_test.
Proof.
  assert (H1 : "Línea 1" <> "") by discriminate.
  assert (H2 : "Pantitlán" <> "") by discriminate.
  split; [reflexivity|]. repeat (split; [assumption|]).
  split; [reflexivity|].
  exact (proj1 (proj2 (proj2 (generate_from_idle
                                (server_of (ok_with (VObj [("forecast", VObj [])])))
                                ToString_example TypeError_example
                                "Línea 1" "Pantitlán" idle_test []
                                eq_refl H1 H2)))).
Defined.

(** X14.  The accuracy panel is absent unless [metrics.test] is truthy.
    When it is, a missing or [null] RMSE or MAE prints ["N/A"] and a missing
    MAPE or R2 prints ["N/A"], each cell on its own; a MAPE that is a
    number prints with two decimals and a percent sign, an R2 with three
    decimals.  A MAPE or R2 that is [null] makes the render throw. *)
Theorem metrics_panel_cells
  (ToNumber_host : value -> number) (Intl_format : number -> string)
  (toFixed : number -> nat -> string) (forecastData : value) :
  let test := opt_get (get forecastData "metrics") "test" in
  let panel := ForecastRender.metricsPanel ToNumber_host Intl_format toFixed
                 forecastData in
  (truthy test = false -> panel = ForecastRender.Shown None)
  /\ (truthy test = true ->
      (get test "mape" = VNull \/ get test "r2" = VNull ->
       panel = ForecastRender.Throws)
      /\ (number_or_undefined (get test "mape") ->
          number_or_undefined (get test "r2") ->
          exists cells,
            panel = ForecastRender.Shown (Some cells)
            /\ (get test "rmse" = VUndefined \/ get test "rmse" = VNull ->
                ForecastRender.rmse cells = "N/A")
            /\ (get test "mae" = VUndefined \/ get test "mae" = VNull ->
                ForecastRender.mae cells = "N/A")
            /\ (forall n, get test "rmse" = VNum n ->
                          ForecastRender.rmse cells
                          = Intl_format (TimeSeriesChart.Math_round n))
            /\ (get test "mape" = VUndefined ->
                ForecastRender.mape cells = "N/A")
            /\ (forall n, get test "mape" = VNum n ->
                          ForecastRender.mape cells
                          = (toFixed n 2%nat ++ "%")%string)
            /\ (get test "r2" = VUndefined -> ForecastRender.r2 cells = "N/A")
            /\ (forall n, get test "r2" = VNum n ->
                          ForecastRender.r2 cells = toFixed n 3%nat))).
Proof.
  intros test panel. subst panel. unfold ForecastRender.metricsPanel.
  fold test. split.
  - intros T. now rewrite T.
  - intros T. rewrite T. split.
    + intros [E|E]; rewrite E; cbn [is_undefined negb ForecastRender.fixed
                                      option_map]; [reflexivity|].
      now destruct (if negb (is_undefined (get test "mape")) then _ else _).
    + intros Hm Hr.
      destruct Hm as [Em | (m & Em)], Hr as [Er | (r & Er)];
        rewrite Em, Er;
        cbn [is_undefined negb ForecastRender.fixed option_map];
        eexists; (split; [reflexivity|]);
        cbn [ForecastRender.rmse ForecastRender.mae ForecastRender.mape
             ForecastRender.r2];
        repeat split;
        try (intros [-> | ->]; reflexivity);
        try (intros n ->; reflexivity);
        try (intros n [= <-]; reflexivity);
        try reflexivity; try discriminate.
Qed.

(** X14 on metrics with a [null] RMSE and a [null] MAPE. *)
Lemma metrics_panel_cells_witness :
  truthy (opt_get (get metrics_null_mape "metrics") "test") = true
  /\ (get (opt_get (get metrics_null_mape "metrics") "test") "mape" = VNull
      \/ get (opt_get (get metrics_null_mape "metrics") "test") "r2" = VNull)
  /\ ForecastRender.metricsPanel ToNumber_example Intl_example toFixed_example
       metrics_null_mape
     = ForecastRender.Throws.
Proof.
  assert (H : get (opt_get (get metrics_null_mape "metrics") "test") "mape"
              = VNull
              \/ get (opt_get (get metrics_null_mape "metrics") "test") "r2"
                 = VNull) by (left; reflexivity).
  split; [reflexivity|split; [exact H|]].
  exact (proj1 (proj2 (metrics_panel_cells ToNumber_example Intl_example
                         toFixed_example metrics_null_mape) eq_refl) H).
Defined.

Section TooltipFacts.
Import ForecastRender.
Variable ToNumber_host : value -> number.
Variable Intl_format : number -> string.

Abbreviation tip := (tooltip ToNumber_host Intl_format).

Lemma tooltip_train sub date i :
  let t := tip (ForecastView.train_row sub date i) in
  phase t = "Entrenamiento"
  /\ ~ In "Predicción" (labels t) /\ ~ In "Pronóstico" (labels t).
Proof.
  cbv zeta. unfold tooltip, labels. cbn [lines phase].
  change (get (ForecastView.train_row sub date i) "validation_predicted")
    with VUndefined.
  change (get (ForecastView.train_row sub date i) "predicted") with VUndefined.
  change (get (ForecastView.train_row sub date i) "type") with (VStr "train").
  cbn [is_undefined negb andb tooltip_line app].
  split; [reflexivity|].
  unfold tooltip_line.
  split; rewrite !map_app, !in_app_iff;
    repeat match goal with
           | |- context [if ?b then _ else _] => destruct b
           end; cbn [map fst In]; intuition discriminate.
Qed.

Lemma tooltip_test sub date i :
  let t := tip (ForecastView.test_row sub date i) in
  phase t = "Validación"
  /\ ~ In "Pronóstico" (labels t) /\ ~ In "Ajuste modelo" (labels t).
Proof.
  cbv zeta. unfold tooltip, labels. cbn [lines phase].
  change (get (ForecastView.test_row sub date i) "fitted") with VUndefined.
  change (get (ForecastView.test_row sub date i) "predicted") with VUndefined.
  change (get (ForecastView.test_row sub date i) "type") with (VStr "test").
  cbn [is_undefined negb andb tooltip_line app].
  split; [reflexivity|].
  unfold tooltip_line.
  split; rewrite !map_app, !in_app_iff;
    repeat match goal with
           | |- context [if ?b then _ else _] => destruct b
           end; cbn [map fst In]; intuition discriminate.
Qed.

Lemma tooltip_future sub date i :
  let t := tip (ForecastView.future_row sub date i) in
  phase t = "Pronóstico"
  /\ ~ In "Predicción" (labels t) /\ ~ In "Afluencia real" (labels t)
  /\ ~ In "Ajuste modelo" (labels t).
Proof.
  cbv zeta. unfold tooltip, labels. cbn [lines phase].
  change (get (ForecastView.future_row sub date i) "actual") with VUndefined.
  change (get (ForecastView.future_row sub date i) "fitted") with VUndefined.
  change (get (ForecastView.future_row sub date i) "validation_predicted")
    with VUndefined.
  change (get (ForecastView.future_row sub date i) "type")
    with (VStr "future").
  cbn [is_undefined negb andb tooltip_line app].
  split; [reflexivity|].
  unfold tooltip_line.
  repeat split; rewrite !map_app, !in_app_iff;
    repeat match goal with
           | |- context [if ?b then _ else _] => destruct b
           end; cbn [map fst In]; intuition discriminate.
Qed.
End TooltipFacts.

(** X15.  Over any row of the chart data the tooltip names the phase of
    the row, and never shows a validation prediction together with a future
    forecast: a training row shows neither, a test row shows no forecast
    and no model fit, a future row shows no prediction, no actual value and
    no model fit. *)
Theorem tooltip_follows_row_type
  (ToNumber_host : value -> number) (Intl_format : number -> string)
  (Date_time : value -> option Z) (forecastData : value) (mode : string)
  (row : value) :
  In row (ForecastView.prepareChartData Date_time forecastData mode) ->
  let t := ForecastRender.tooltip ToNumber_host Intl_format row in
  (get row "type" = VStr "train"
   /\ ForecastRender.phase t = "Entrenamiento"
   /\ ~ In "Predicción" (labels t) /\ ~ In "Pronóstico" (labels t))
  \/ (get row "type" = VStr "test"
      /\ ForecastRender.phase t = "Validación"
      /\ ~ In "Pronóstico" (labels t) /\ ~ In "Ajuste modelo" (labels t))
  \/ (get row "type" = VStr "future"
      /\ ForecastRender.phase t = "Pronóstico"
      /\ ~ In "Predicción" (labels t) /\ ~ In "Afluencia real" (labels t)
      /\ ~ In "Ajuste modelo" (labels t)).
Proof.
  intros Hin t. subst t.
  apply In_prepare in Hin. destruct Hin as (chartData & M & Hin).
  rewrite (merge_some _ _ M), !in_app_iff in Hin.
  destruct Hin as [Hin|[Hin|Hin]];
    apply In_rows_of in Hin; destruct Hin as (i & _ & ->).
  - left. split; [reflexivity|]. apply tooltip_train.
  - right; left. split; [reflexivity|]. apply tooltip_test.
  - right; right. split; [reflexivity|]. apply tooltip_future.
Qed.

(** X15 on the future row of the coinciding dates. *)
Lemma tooltip_follows_row_type_witness :
  In (nth 1 (rows_coinciding "2021-06") VUndefined)
     (ForecastView.prepareChartData DateIso.Date_iso
        (ForecastView.sanitizeForecastData (bundle_coinciding "2021-06")) "all")
  /\ ~ In "Predicción"
         (labels (ForecastRender.tooltip ToNumber_example Intl_example
                    (nth 1 (rows_coinciding "2021-06") VUndefined))).
Proof.
  assert (H : In (nth 1 (rows_coinciding "2021-06") VUndefined)
                (ForecastView.prepareChartData DateIso.Date_iso
                   (ForecastView.sanitizeForecastData
                      (bundle_coinciding "2021-06")) "all"))
    by (right; left; reflexivity).
  split; [exact H|].
  destruct (tooltip_follows_row_type ToNumber_example Intl_example
              DateIso.Date_iso _ _ _ H) as [(E & _) | [(E & _) | (_ & _ & N & _)]];
    [discriminate E|discriminate E|exact N].
Defined.

(** ** The chart on zero and on no valid point *)

Section ChartMore.
Import TimeSeriesChart.
Variable ToNumber_host : value -> number.
Variable concat_host : value -> value -> value.
Variable Intl_format : number -> string.

(** Once the running sum is NaN it stays NaN over numeric points. *)
Lemma reduce_NaN (items : list value) :
  (forall item, In item items ->
                numeric_point item
                /\ (get item "afluencia" <> VUndefined
                    \/ get item "mean" <> VUndefined)) ->
  fold_left (fun sum item =>
               plus ToNumber_host concat_host sum
                 (TimeSeriesChart.or (get item "afluencia") (get item "mean")))
            items (VNum NaN) = VNum NaN.
Proof.
  induction items as [|item items IH]; intros H; [reflexivity|].
  destruct (H item (or_introl eq_refl)) as (Hp & Hv).
  cbn [fold_left]. rewrite (or_primary item Hp Hv).
  unfold plus at 2. cbn [primitive_number andb ToNumber add].
  apply IH. intros; apply H; now right.
Qed.

Lemma max_stays_NaN (vs : list value) :
  fold_left (fun m v => let n := ToNumber ToNumber_host v in
                        if is_NaN m || is_NaN n then NaN
                        else if lt m n then n else m) vs NaN = NaN.
Proof. induction vs as [|v vs IH]; [reflexivity|exact IH]. Qed.

Lemma min_stays_NaN (vs : list value) :
  fold_left (fun m v => let n := ToNumber ToNumber_host v in
                        if is_NaN m || is_NaN n then NaN
                        else if lt n m then n else m) vs NaN = NaN.
Proof. induction vs as [|v vs IH]; [reflexivity|exact IH]. Qed.

(** One argument that converts to NaN makes [Math.max] and [Math.min]
    NaN, whatever the others. *)
Lemma Math_max_NaN (vs : list value) (v : value) :
  In v vs -> ToNumber ToNumber_host v = NaN -> Math_max ToNumber_host vs = NaN.
Proof.
  intros Hin E. destruct (in_split _ _ Hin) as (l1 & l2 & ->).
  unfold Math_max. rewrite fold_left_app. cbn [fold_left].
  rewrite E. cbn [is_NaN]. rewrite orb_true_r. apply max_stays_NaN.
Qed.

Lemma Math_min_NaN (vs : list value) (v : value) :
  In v vs -> ToNumber ToNumber_host v = NaN -> Math_min ToNumber_host vs = NaN.
Proof.
  intros Hin E. destruct (in_split _ _ Hin) as (l1 & l2 & ->).
  unfold Math_min. rewrite fold_left_app. cbn [fold_left].
  rewrite E. cbn [is_NaN]. rewrite orb_true_r. apply min_stays_NaN.
Qed.

Lemma fold_left_app_sum (before after : list value) (start : value) :
  fold_left (fun sum item =>
               plus ToNumber_host concat_host sum
                 (TimeSeriesChart.or (get item "afluencia") (get item "mean")))
            (before ++ after) start
  = fold_left (fun sum item =>
                 plus ToNumber_host concat_host sum
                   (TimeSeriesChart.or (get item "afluencia") (get item "mean")))
              after
              (fold_left (fun sum item =>
                            plus ToNumber_host concat_host sum
                              (TimeSeriesChart.or (get item "afluencia")
                                                  (get item "mean")))
                         before start).
Proof. apply fold_left_app. Qed.
End ChartMore.

(** X16.  A valid point whose [afluencia] is falsy (zero, [null]) and which
    has no [mean] turns the mean of the whole series into NaN, the other
    valid points holding numbers other than zero: the chart plots the zero,
    the panel prints the format of NaN. *)
Theorem zero_ridership_poisons_mean
  (ToNumber_host : value -> number) (concat_host : value -> value -> value)
  (data before after : list value) (item : value) :
  TimeSeriesChart.validData data = before ++ item :: after ->
  Forall numeric_point before -> Forall numeric_point after ->
  truthy (get item "afluencia") = false ->
  get item "mean" = VUndefined ->
  TimeSeriesChart.promedio ToNumber_host concat_host data = VNum NaN.
Proof.
  intros V Hb Ha Tz Em.
  assert (Hval : forall l, Forall numeric_point l ->
                   (forall x, In x l -> In x (TimeSeriesChart.validData data)) ->
                   forall x, In x l ->
                     numeric_point x
                     /\ (get x "afluencia" <> VUndefined
                         \/ get x "mean" <> VUndefined)).
  { intros l Hl Hin x Hx. split.
    - rewrite Forall_forall in Hl. now apply Hl.
    - apply valid_has_value with data. now apply Hin. }
  assert (Pb : forall x, In x before ->
                 numeric_point x
                 /\ (get x "afluencia" <> VUndefined
                     \/ get x "mean" <> VUndefined)).
  { apply Hval; [exact Hb|]. intros x Hx. rewrite V.
    apply in_or_app. now left. }
  assert (Pa : forall x, In x after ->
                 numeric_point x
                 /\ (get x "afluencia" <> VUndefined
                     \/ get x "mean" <> VUndefined)).
  { apply Hval; [exact Ha|]. intros x Hx. rewrite V.
    apply in_or_app. right. now right. }
  unfold TimeSeriesChart.promedio. rewrite V.
  rewrite fold_left_app_sum. cbn [fold_left].
  destruct (reduce_number ToNumber_host concat_host before Pb (Fin 0))
    as (s & Es).
  change (num 0) with (VNum (Fin 0)). rewrite Es.
  unfold TimeSeriesChart.or at 2. rewrite Tz, Em.
  unfold TimeSeriesChart.plus at 2.
  cbn [TimeSeriesChart.primitive_number andb TimeSeriesChart.ToNumber].
  replace (TimeSeriesChart.add s NaN) with NaN
    by (unfold TimeSeriesChart.add;
        now destruct (TimeSeriesChart.as_double s)).
  rewrite (reduce_NaN ToNumber_host concat_host after Pa).
  reflexivity.
Qed.

(** X16 on the three months of which the second had no ridership. *)
Lemma zero_ridership_poisons_mean_witness :
  TimeSeriesChart.validData closed_month
  = [point "2021-01" 10 8 12]
    ++ VObj [ ("fecha", VStr "2021-02"); ("afluencia", num 0);
              ("min", num 0); ("max", num 0) ]
       :: [point "2021-03" 30 25 35]
  /\ TimeSeriesChart.statsPanel ToNumber_example concat_example Intl_example
       closed_month
     = Some {| TimeSeriesChart.promedio_mensual := "NaN";
               TimeSeriesChart.maximo_mensual := "NaN";
               TimeSeriesChart.minimo_mensual := "NaN" |}
  /\ TimeSeriesChart.promedio ToNumber_example concat_example closed_month
     = VNum NaN.
Proof.
  split; [reflexivity|split; [reflexivity|]].
  assert (Hp : forall f a lo hi, (a <> 0)%Z -> (lo <> 0)%Z -> (hi <> 0)%Z ->
                 numeric_point (point f a lo hi)).
  { intros f a lo hi Na Nlo Nhi. unfold numeric_point, point, num.
    repeat split;
      first [ left; reflexivity
            | right; eexists; split; [reflexivity|];
              unfold Qeq; simpl; lia ]. }
  apply (zero_ridership_poisons_mean ToNumber_example concat_example
           closed_month [point "2021-01" 10 8 12] [point "2021-03" 30 25 35]
           (VObj [ ("fecha", VStr "2021-02"); ("afluencia", num 0);
                   ("min", num 0); ("max", num 0) ])).
  - reflexivity.
  - constructor; [apply Hp; discriminate|constructor].
  - constructor; [apply Hp; discriminate|constructor].
  - reflexivity.
  - reflexivity.
Defined.

(** X17.  A valid point whose [max] (whose [min]), [afluencia] and [mean]
    are all falsy or absent, [mean] being absent, makes the maximum (the
    minimum) of the whole series NaN, whatever the other points hold. *)
Theorem zero_point_poisons_extremes
  (ToNumber_host : value -> number) (concat_host : value -> value -> value)
  (data : list value) (item : value) :
  In item (TimeSeriesChart.validData data) ->
  truthy (get item "afluencia") = false ->
  get item "mean" = VUndefined ->
  (truthy (get item "max") = false ->
   TimeSeriesChart.maximo ToNumber_host data = VNum NaN)
  /\ (truthy (get item "min") = false ->
      TimeSeriesChart.minimo ToNumber_host data = VNum NaN).
Proof.
  intros Hin Ta Em. split; intros T.
  - unfold TimeSeriesChart.maximo. f_equal.
    apply (Math_max_NaN ToNumber_host _ VUndefined); [|reflexivity].
    apply in_map_iff. exists item. split; [|exact Hin].
    unfold TimeSeriesChart.or. now rewrite T, Ta, Em.
  - unfold TimeSeriesChart.minimo. f_equal.
    apply (Math_min_NaN ToNumber_host _ VUndefined); [|reflexivity].
    apply in_map_iff. exists item. split; [|exact Hin].
    unfold TimeSeriesChart.or. now rewrite T, Ta, Em.
Qed.

(** X17 on the three months of which the second had no ridership. *)
Lemma zero_point_poisons_extremes_witness :
  In (nth 1 closed_month VUndefined) (TimeSeriesChart.validData closed_month)
  /\ truthy (get (nth 1 closed_month VUndefined) "afluencia") = false
  /\ get (nth 1 closed_month VUndefined) "mean" = VUndefined
  /\ truthy (get (nth 1 closed_month VUndefined) "max") = false
  /\ TimeSeriesChart.maximo ToNumber_example closed_month = VNum NaN.
Proof.
  assert (H : In (nth 1 closed_month VUndefined)
                (TimeSeriesChart.validData closed_month))
    by (right; left; reflexivity).
  split; [exact H|]. repeat (split; [reflexivity|]).
  exact (proj1 (zero_point_poisons_extremes ToNumber_example concat_example
                  closed_month _ H eq_refl eq_refl) eq_refl).
Defined.

(** X18.  The placeholder is shown for an empty series only.  A series
    with points none of which is valid is drawn as a chart without points,
    and when its first point has [min] and [max] the panel prints the
    formats of NaN, of minus infinity and of infinity. *)
Theorem no_valid_point_no_placeholder
  (ToNumber_host : value -> number) (concat_host : value -> value -> value)
  (Intl_format : number -> string) (data : list value) :
  (TimeSeriesChart.TimeSeriesChart ToNumber_host concat_host Intl_format data
   = TimeSeriesChart.Placeholder <-> data = [])
  /\ (data <> [] -> TimeSeriesChart.validData data = [] ->
      TimeSeriesChart.TimeSeriesChart ToNumber_host concat_host Intl_format data
      = TimeSeriesChart.Chart []
          (if carries_min_max (nth 0 data VUndefined)
           then Some {| TimeSeriesChart.promedio_mensual := Intl_format NaN;
                        TimeSeriesChart.maximo_mensual := Intl_format NegInf;
                        TimeSeriesChart.minimo_mensual := Intl_format PosInf |}
           else None)).
Proof.
  split.
  - destruct data; split; try reflexivity; discriminate.
  - intros N V. destruct data as [|x data]; [congruence|].
    unfold TimeSeriesChart.TimeSeriesChart. rewrite V. f_equal.
    unfold TimeSeriesChart.statsPanel, carries_min_max,
      TimeSeriesChart.first_opt, opt_get.
    destruct (negb (is_undefined (get (nth 0 (x :: data) VUndefined) "min"))
              && negb (is_undefined (get (nth 0 (x :: data) VUndefined) "max")));
      [|reflexivity].
    unfold TimeSeriesChart.promedio, TimeSeriesChart.maximo,
      TimeSeriesChart.minimo. rewrite V. reflexivity.
Qed.

(** X18 on the series whose only point has no date. *)
Lemma no_valid_point_no_placeholder_witness :
  undated <> [] /\ TimeSeriesChart.validData undated = []
  /\ TimeSeriesChart.TimeSeriesChart ToNumber_example concat_example
       Intl_example undated
     = TimeSeriesChart.Chart []
         (Some {| TimeSeriesChart.promedio_mensual := "NaN";
                  TimeSeriesChart.maximo_mensual := "NaN";
                  TimeSeriesChart.minimo_mensual := "NaN" |}).
Proof.
  assert (H : undated <> []) by discriminate.
  split; [exact H|split; [reflexivity|]].
  exact (proj2 (no_valid_point_no_placeholder ToNumber_example concat_example
                  Intl_example undated) H eq_refl).
Defined.

(** ** The selector: no station is lost, and what a choice emits *)

Section SelectorMore.
Import StationSelector.

Lemma list_sum_zero {A : Type} (l : list A) :
  list_sum (map (fun _ => 0%nat) l) = 0%nat.
Proof. induction l as [|x l IH]; [reflexivity|exact IH]. Qed.

Lemma list_sum_plus {A : Type} (f g : A -> nat) (l : list A) :
  list_sum (map (fun x => (f x + g x)%nat) l)
  = (list_sum (map f l) + list_sum (map g l))%nat.
Proof.
  induction l as [|x l IH]; [reflexivity|].
  unfold list_sum in *. cbn [map fold_right]. rewrite IH. lia.
Qed.

Lemma one_key (keys : list string) (x : string) :
  NoDup keys -> In x keys ->
  list_sum (map (fun k => if x =? k then 1%nat else 0%nat) keys) = 1%nat.
Proof.
  induction 1 as [|k keys Hk Hnd IH]; intros Hin; [contradiction|].
  change (list_sum (map ?f (k :: keys)))
    with (f k + list_sum (map f keys))%nat.
  cbv beta. destruct (String.eqb_spec x k) as [->|N].
  - rewrite (map_ext_in _ (fun _ => 0%nat)); [now rewrite list_sum_zero|].
    intros k' Hk'. destruct (String.eqb_spec k k') as [->|]; [contradiction|].
    reflexivity.
  - destruct Hin as [->|Hin]; [contradiction|]. now rewrite IH.
Qed.

Lemma count_by_key (keys : list string) (l : list Station) :
  NoDup keys -> (forall s, In s l -> In (linea s) keys) ->
  list_sum (map (fun k => List.length (filter (fun s => linea s =? k) l)) keys)
  = List.length l.
Proof.
  intros Hnd. induction l as [|s l IH]; intros Hall.
  - cbn [filter List.length]. apply list_sum_zero.
  - rewrite (map_ext _ (fun k => ((if (linea s =? k)%string then 1 else 0)
                                  + List.length
                                      (filter (fun s => (linea s =? k)%string) l))%nat)).
    + rewrite (list_sum_plus
                 (fun k => if linea s =? k then 1%nat else 0%nat)
                 (fun k => List.length (filter (fun s => linea s =? k) l))).
      rewrite one_key, IH; trivial.
      * intros; apply Hall; now right.
      * apply Hall. now left.
    + intros k. cbn [filter]. now destruct (linea s =? k).
Qed.

Lemma stationsForLine_length localeCompare line stations :
  line <> "" ->
  List.length (stationsForLine localeCompare line stations)
  = List.length (filter (fun s => linea s =? line) stations).
Proof.
  intros N. unfold stationsForLine. apply String.eqb_neq in N. rewrite N.
  apply Permutation_length, sort_perm.
Qed.

Lemma stationsForLine_In localeCompare line stations s :
  line <> "" ->
  In s (stationsForLine localeCompare line stations)
  <-> In s stations /\ linea s = line.
Proof.
  intros N. unfold stationsForLine. apply String.eqb_neq in N. rewrite N.
  rewrite sort_In, filter_In, String.eqb_eq. tauto.
Qed.
End SelectorMore.

(** X19.  When no station has an empty line, the lists of the lines lose
    no station and repeat none: each station is among the candidates of its
    own line, and the sizes of the candidate lists, line by line, add up to
    the number of stations.  The empty line has no candidates. *)
Theorem lines_partition_stations (localeCompare : string -> string -> Z)
  (stations : list StationSelector.Station) :
  (Forall (fun s => StationSelector.linea s <> "") stations ->
   list_sum (stations_per_line localeCompare stations) = List.length stations
   /\ forall s, In s stations ->
                In (StationSelector.linea s) (StationSelector.lines stations)
                /\ In s (StationSelector.stationsForLine localeCompare
                           (StationSelector.linea s) stations))
  /\ StationSelector.stationsForLine localeCompare "" stations = [].
Proof.
  split; [|reflexivity].
  intros Hne. rewrite Forall_forall in Hne. split.
  - unfold stations_per_line.
    rewrite (map_ext_in _
               (fun line =>
                  List.length
                    (filter (fun s => StationSelector.linea s =? line) stations))).
    + apply count_by_key; [apply lines_NoDup|].
      intros s Hs. apply lines_In. eauto.
    + intros line Hline. apply stationsForLine_length.
      apply lines_In in Hline. destruct Hline as (s & Hs & <-).
      now apply Hne.
  - intros s Hs. split.
    + apply lines_In. eauto.
    + apply stationsForLine_In; [now apply Hne|tauto].
Qed.

(** X19 on three stations of two lines. *)
Lemma lines_partition_stations_witness :
  Forall (fun s => StationSelector.linea s <> "") three_stations
  /\ stations_per_line code_unit_collation three_stations = [1; 2]%nat
  /\ list_sum (stations_per_line code_unit_collation three_stations) = 3%nat.
Proof.
  assert (H : Forall (fun s => StationSelector.linea s <> "") three_stations)
    by (repeat constructor; discriminate).
  split; [exact H|split; [reflexivity|]].
  exact (proj1 (proj1 (lines_partition_stations code_unit_collation
                         three_stations) H)).
Defined.

(** X20.  Choosing a line clears the chosen station.  Choosing then one of
    the stations offered for that line, other than the empty option, calls
    [onStationSelect] exactly once, with the line and the station, and that
    pair is a station of the list. *)
Theorem choice_emits_a_station (localeCompare : string -> string -> Z)
  (s : SelectorHandlers.State) (line station : string) :
  let chosen := SelectorHandlers.handleLineChange line s in
  SelectorHandlers.selectedStation chosen = ""
  /\ SelectorHandlers.stations chosen = SelectorHandlers.stations s
  /\ snd (SelectorHandlers.handleStationChange "" chosen) = []
  /\ (In station (station_options localeCompare chosen) -> station <> "" ->
      snd (SelectorHandlers.handleStationChange station chosen)
      = [(line, station)]
      /\ In {| StationSelector.linea := line;
               StationSelector.estacion := station |}
            (SelectorHandlers.stations s)).
Proof.
  cbv zeta. split; [reflexivity|]. split; [reflexivity|].
  split; [reflexivity|].
  unfold station_options, SelectorHandlers.handleStationChange.
  cbn [SelectorHandlers.handleLineChange SelectorHandlers.selectedLine
       SelectorHandlers.stations snd].
  intros Hin Ns. apply in_map_iff in Hin.
  destruct Hin as (st & <- & Hst).
  assert (Nl : line <> "").
  { intros ->. exact Hst. }
  apply stationsForLine_In in Hst; [|exact Nl].
  destruct Hst as (Hst & El).
  apply String.eqb_neq in Ns, Nl. rewrite Ns, Nl. cbn [negb andb].
  split; [reflexivity|]. destruct st as [l e]. cbn in El |- *. now subst l.
Qed.

(** X20 on the choice of Zócalo after line 2. *)
Lemma choice_emits_a_station_witness :
  In "Zócalo"
     (station_options code_unit_collation
        (SelectorHandlers.handleLineChange "Línea 2"
           {| SelectorHandlers.stations := three_stations;
              SelectorHandlers.selectedLine := "Línea 1";
              SelectorHandlers.selectedStation := "Pantitlán" |}))
  /\ "Zócalo" <> ""
  /\ snd (SelectorHandlers.handleStationChange "Zócalo"
            (SelectorHandlers.handleLineChange "Línea 2"
               {| SelectorHandlers.stations := three_stations;
                  SelectorHandlers.selectedLine := "Línea 1";
                  SelectorHandlers.selectedStation := "Pantitlán" |}))
     = [("Línea 2", "Zócalo")].
Proof.
  assert (H1 : In "Zócalo"
                 (station_options code_unit_collation
                    (SelectorHandlers.handleLineChange "Línea 2"
                       {| SelectorHandlers.stations := three_stations;
                          SelectorHandlers.selectedLine := "Línea 1";
                          SelectorHandlers.selectedStation := "Pantitlán" |})))
    by (right; left; reflexivity).
  assert (H2 : "Zócalo" <> "") by discriminate.
  split; [exact H1|split; [exact H2|]].
  exact (proj1 (proj2 (proj2 (proj2 (choice_emits_a_station code_unit_collation
                                       _ "Línea 2" "Zócalo"))) H1 H2)).
Defined.

(** ** The application *)

Section AppFacts.
Import App.
Variable ToString_host : value -> string.
Variable TypeError_message : string -> string.

Lemma getTimeSeries_selected network linea estacion log data log' :
  Api.getTimeSeries network ToString_host TypeError_message linea estacion log
  = (inr data, log') ->
  truthy linea = true /\ truthy estacion = true.
Proof.
  unfold Api.getTimeSeries.
  destruct (truthy linea), (truthy estacion); cbn [negb orb];
    try discriminate. now split.
Qed.

Lemma getTimeSeries_requests network linea estacion log :
  snd (Api.getTimeSeries network ToString_host TypeError_message
         linea estacion log) = log
  \/ exists url,
       snd (Api.getTimeSeries network ToString_host TypeError_message
              linea estacion log) = log ++ [url].
Proof.
  destruct (truthy linea) eqn:Tl; [destruct (truthy estacion) eqn:Te|].
  - right. eexists. now apply getTimeSeries_log.
  - left. unfold Api.getTimeSeries. rewrite Tl, Te. reflexivity.
  - left. unfold Api.getTimeSeries. rewrite Tl. reflexivity.
Qed.

Lemma chart_data_array (data : value) (points : list value) :
  get data "data" = VArr points ->
  TimeSeriesChart.or (get data "data") (VArr []) = VArr points.
Proof. now intros ->. Qed.

Lemma nonempty_truthy (x : string) : x <> "" -> truthy (VStr x) = true.
Proof. intros N. cbn. now apply negb_true_iff, String.eqb_neq. Qed.

Lemma truthy_nonempty (x : string) : truthy (VStr x) = true -> x <> "".
Proof. cbn. intros T. apply negb_true_iff in T. now apply String.eqb_neq. Qed.

Lemma invariant_step (c c' : Config) :
  Step ToString_host TypeError_message c c' -> invariant c -> invariant c'.
Proof.
  intros S (I1 & I2 & I3 & I4 & I5).
  destruct S as [network line station c|call before after c E|c B].
  - unfold invariant, select. cbn [state in_flight requests].
    split; [exact I1|]. split; [discriminate|]. split; [exact I3|].
    split; [intros _ N; now apply app_eq_nil in N as (_ & N)|].
    apply Forall_app. split; [exact I5|]. constructor; [|constructor].
    intros data G. cbn [outcome arguments] in *.
    destruct (Api.getTimeSeries network ToString_host TypeError_message
                (VStr line) (VStr station) (requests c))
      as [result log'] eqn:R.
    cbn [fst] in G. subst result.
    destruct (getTimeSeries_selected _ _ _ _ _ _ R) as (Tl & Te).
    split; [exact (getTimeSeries_shape _ _ _ _ _ _ _ _ R)|].
    exists line, station. split; [reflexivity|].
    split; now apply truthy_nonempty.
  - rewrite E in I5. apply Forall_app in I5. destruct I5 as (Hb & Hc).
    inversion Hc as [|? ? Hcall Ha]; subst.
    unfold invariant, settle. cbn [state in_flight requests].
    assert (Hrest : Forall sound (before ++ after))
      by (apply Forall_app; now split).
    unfold handleStationSelect_settle.
    destruct (outcome call) as [message|data] eqn:O.
    + cbn [chart_data timeSeriesData setLoading setTimeSeriesData setError
           showForecast forecast_button selectedStation loading].
      split; [exists []; reflexivity|]. split; [exact I2|].
      split; [exact I3|]. split; [discriminate|exact Hrest].
    + destruct (Hcall data O)
        as ((points & D) & line & station & A & Nl & Ns).
      rewrite A. cbn [linea estacion].
      split; [exists points; now apply chart_data_array|].
      assert (B : forecast_button
                    (setLoading false
                       (setSelectedStation
                          {| linea := VStr line; estacion := VStr station |}
                          (setTimeSeriesData data (state c)))) = true).
      { unfold forecast_button. cbn [selectedStation setLoading
          setSelectedStation linea estacion].
        now rewrite !nonempty_truthy. }
      split; [intros _; exact B|].
      split; [intros _; now exists line, station|].
      split; [discriminate|exact Hrest].
  - unfold invariant, toggle. cbn [state in_flight requests].
    split; [exact I1|]. split; [intros _; exact B|].
    split; [exact I3|]. split; [exact I4|exact I5].
Qed.

Lemma invariant_reachable (c : Config) :
  Reachable ToString_host TypeError_message c -> invariant c.
Proof.
  induction 1 as [|c c' R IH S].
  - unfold invariant, start. cbn [state in_flight].
    split; [exists []; reflexivity|].
    split; [discriminate|]. split; [discriminate|].
    split; [discriminate|constructor].
  - now apply (invariant_step c c').
Qed.
End AppFacts.

(** X21.  A station selection runs in two turns.  The first sets
    [loading], clears the error and switches the forecast view off, and
    issues at most one request.  The second runs when the response
    arrives, on whatever state the application is then in: it sets
    [loading] to false and leaves the forecast switch as it is; if the
    series arrived, the series and the selection become the arrived ones,
    the series having an array [data], and the error is left as it is; if
    not, the series is emptied, the fixed message is displayed in place of
    the chart, and the selection stays the one it was.  So of two responses
    the one that arrives last is the one shown. *)
Theorem station_select_outcomes
  (network : string -> Api.fetched) (ToString_host : value -> string)
  (TypeError_message : string -> string) (linea estacion : value)
  (s : App.State) (log : list string) :
  let result := Api.getTimeSeries network ToString_host TypeError_message
                  linea estacion log in
  (App.handleStationSelect_begin s
   = {| App.timeSeriesData := App.timeSeriesData s; App.loading := true;
        App.error := VNull; App.selectedStation := App.selectedStation s;
        App.showForecast := false |})
  /\ (snd result = log \/ exists url, snd result = log ++ [url])
  /\ (forall now,
         let s' := App.handleStationSelect_settle (fst result) linea estacion
                     now in
         App.loading s' = false
         /\ App.showForecast s' = App.showForecast now
         /\ ((exists data,
                 fst result = inr data
                 /\ shown s' = ({| App.linea := linea; App.estacion := estacion |},
                                data)
                 /\ truthy linea = true /\ truthy estacion = true
                 /\ (exists points, App.chart_data s' = VArr points)
                 /\ App.error s' = App.error now)
             \/ (exists message,
                    fst result = inl message
                    /\ App.error s'
                       = VStr "No se pudieron cargar los datos. Por favor intenta de nuevo."
                    /\ App.timeSeriesData s' = VArr []
                    /\ App.chart_data s' = VArr []
                    /\ App.selectedStation s' = App.selectedStation now
                    /\ App.render ToString_host s'
                       = App.ErrorMessage
                           (VStr "No se pudieron cargar los datos. Por favor intenta de nuevo."))))
  /\ (forall first second data data' now,
         shown (App.handleStationSelect_settle (inr data)
                  (App.linea first) (App.estacion first)
                  (App.handleStationSelect_settle (inr data')
                     (App.linea second) (App.estacion second) now))
         = (first, data)).
Proof.
  cbv zeta. split; [reflexivity|].
  split; [apply getTimeSeries_requests|]. split.
  - intros now.
    destruct (Api.getTimeSeries network ToString_host TypeError_message
                linea estacion log) as [[message|data] log0] eqn:G;
      cbn [fst snd].
    + repeat split. right. exists message. repeat split.
    + destruct (getTimeSeries_selected ToString_host TypeError_message
                  _ _ _ _ _ _ G) as [Tl Te].
      destruct (getTimeSeries_shape _ _ _ _ _ _ _ _ G) as (points & D).
      repeat split. left. exists data. repeat split; trivial.
      exists points. unfold App.chart_data.
      cbn [App.handleStationSelect_settle App.timeSeriesData App.setLoading
           App.setSelectedStation App.setTimeSeriesData].
      now apply chart_data_array.
  - intros [l e] second data data' now. reflexivity.
Qed.

(** X21 on a selection answered with an empty series, arriving while the
    forecast is shown. *)
Lemma station_select_outcomes_witness :
  App.render ToString_example
    (App.handleStationSelect_settle
       (fst (Api.getTimeSeries server_empty ToString_example TypeError_example
               (VStr "Línea 1") (VStr "Pantitlán") []))
       (VStr "Línea 1") (VStr "Pantitlán")
       (App.toggleForecast (App.state (settle_first
          (App.select ToString_example TypeError_example server_empty
             "Línea 1" "Zaragoza" App.start)))))
  = App.Forecast (VStr "Línea 1") (VStr "Pantitlán")
  /\ App.loading
       (App.handleStationSelect_settle
          (fst (Api.getTimeSeries server_empty ToString_example
                  TypeError_example (VStr "Línea 1") (VStr "Pantitlán") []))
          (VStr "Línea 1") (VStr "Pantitlán") App.initial)
     = false.
Proof.
  split; [reflexivity|].
  exact (proj1 (proj1 (proj2 (proj2 (station_select_outcomes server_empty
                         ToString_example TypeError_example
                         (VStr "Línea 1") (VStr "Pantitlán") App.initial [])))
                  App.initial)).
Defined.

(** X22.  Between any two events (selections, responses arriving in any
    order, clicks on the forecast button) the chart is handed an array, the
    forecast view is on only while the forecast button is rendered, a
    rendered button means a selection of two non-empty strings, so the
    forecast view is never shown for an empty line or station, and the
    spinner turns only while a request is in flight. *)
Theorem app_invariant (ToString_host : value -> string)
  (TypeError_message : string -> string) (c : App.Config) :
  App.Reachable ToString_host TypeError_message c ->
  (exists points, App.chart_data (App.state c) = VArr points)
  /\ (App.showForecast (App.state c) = true ->
      App.forecast_button (App.state c) = true)
  /\ (App.forecast_button (App.state c) = true ->
      exists linea estacion,
        App.selectedStation (App.state c)
        = {| App.linea := VStr linea; App.estacion := VStr estacion |}
        /\ linea <> "" /\ estacion <> "")
  /\ (forall linea estacion,
         App.render ToString_host (App.state c) = App.Forecast linea estacion ->
         truthy linea = true /\ truthy estacion = true)
  /\ (App.render ToString_host (App.state c) = App.Spinner ->
      App.in_flight c <> []).
Proof.
  intros R.
  destruct (invariant_reachable ToString_host TypeError_message c R)
    as (I1 & I2 & I3 & I4 & _).
  split; [exact I1|]. split; [exact I2|]. split; [exact I3|]. split.
  - intros linea estacion V. unfold App.render in V.
    destruct (App.loading (App.state c)); [discriminate|].
    destruct (truthy (App.error (App.state c))); [discriminate|].
    destruct (App.showForecast (App.state c)) eqn:F; [|discriminate].
    injection V as <- <-.
    specialize (I2 eq_refl). unfold App.forecast_button in I2.
    now apply andb_true_iff in I2.
  - intros V. apply I4. unfold App.render in V.
    destruct (App.loading (App.state c)); [reflexivity|].
    destruct (truthy (App.error (App.state c))); [discriminate|].
    destruct (App.showForecast (App.state c)); discriminate.
Qed.

(** X22 on a run in which a station is selected while the forecast of
    another is shown: the spinner turns, one request is in flight. *)
Lemma app_invariant_witness :
  App.Reachable ToString_example TypeError_example run_example
  /\ App.render ToString_example (App.state run_example) = App.Spinner
  /\ App.requests run_example
     = [ "http://localhost:8000/api/timeseries/L%C3%ADnea%201/Pantitl%C3%A1n";
         "http://localhost:8000/api/timeseries/L%C3%ADnea%201/Zaragoza" ]
  /\ App.in_flight run_example <> [].
Proof.
  assert (R : App.Reachable ToString_example TypeError_example run_example).
  { unfold run_example.
    eapply App.Reachable_step; [|apply App.Step_select].
    eapply App.Reachable_step; [|apply App.Step_toggle; reflexivity].
    eapply App.Reachable_step;
      [|apply (App.Step_settle ToString_example TypeError_example _ [] []);
        reflexivity].
    eapply App.Reachable_step; [|apply App.Step_select].
    apply App.Reachable_start. }
  split; [exact R|]. split; [reflexivity|]. split; [vm_compute; reflexivity|].
  exact (proj2 (proj2 (proj2 (proj2 (app_invariant ToString_example
                                       TypeError_example run_example R))))
           eq_refl).
Defined.
